(** * The windowed sample indexer [XRTimeSeries] of brenowitz-data-loading.ipynb

    A shallow embedding of the notebook's class [XRTimeSeries] and of the
    fragments of Python, numpy, xarray and torch it relies on, followed by
    the properties of the indexer.

    Python integers are [Z]; axis extents are [nat]; dictionaries and sets
    are [gmap] and [gset]; an exception is a value of [exn] carried by the
    error monad [result].  Floating-point values are kept abstract (class
    [Scalar]): arrays are modelled by their dtype, their shape and their
    row-major element list. *)

From stdpp Require Import gmap strings list fin_maps fin_sets.
From Stdlib Require Import ZArith Lia.

Local Open Scope Z_scope.

(** ** Python: exceptions, integers, ranges, sequences *)

Module Py.

Inductive exn :=
| AssertionError
| AttributeError
| IndexError
| KeyError
| NameError
| TypeError
| ValueError
| ZeroDivisionError.

Inductive result (A : Type) :=
| Ok (a : A)
| Raise (e : exn).

Arguments Ok {A} a.
Arguments Raise {A} e.

#[global] Instance exn_eq_dec : EqDecision exn.
Proof. solve_decision. Defined.

#[global] Instance result_ret : MRet result := fun A a => Ok a.

#[global] Instance result_bind : MBind result :=
  fun A B f m => match m with Ok a => f a | Raise e => Raise e end.

#[global] Instance result_fmap : FMap result :=
  fun A B f m => match m with Ok a => Ok (f a) | Raise e => Raise e end.

Definition is_ok {A} (r : result A) : Prop :=
  match r with Ok _ => True | Raise _ => False end.

(** Keys of a Python mapping: xarray variable names are arbitrary hashable
    values; strings and integers are the ones that matter here. *)
Inductive name :=
| NStr (s : string)
| NInt (n : Z).

#[global] Instance name_eq_dec : EqDecision name.
Proof. solve_decision. Defined.

Definition name_to_sum (k : name) : string + Z :=
  match k with NStr s => inl s | NInt n => inr n end.

Definition name_of_sum (k : string + Z) : name :=
  match k with inl s => NStr s | inr n => NInt n end.

#[global] Instance name_countable : Countable name.
Proof.
  refine (inj_countable' name_to_sum name_of_sum _).
  intros []; reflexivity.
Defined.

(** [d[k]] on a dictionary. *)
Definition dict_getitem {V} (d : gmap name V) (k : name) : result V :=
  match d !! k with
  | Some v => Ok v
  | None => Raise KeyError
  end.

(** [a % b]: floor modulo, the sign follows the divisor; [b = 0] raises. *)
Definition mod_ (a b : Z) : result Z :=
  if b =? 0 then Raise ZeroDivisionError else Ok (a mod b).

(** [assert b]. *)
Definition assert_ (b : bool) : result unit :=
  if b then Ok tt else Raise AssertionError.

(** [x or y] on an optional integer: [None] and [0] are falsy.  The right
    operand is only evaluated when the left one is falsy. *)
Definition or_ (x : option Z) (y : result Z) : result Z :=
  match x with
  | None => y
  | Some v => if v =? 0 then y else Ok v
  end.

(** Number of items of [range(start, stop, step)], for [step <> 0]. *)
Definition range_len (start stop step : Z) : Z :=
  if 0 <? step then
    if start <? stop then (stop - start - 1) / step + 1 else 0
  else
    if stop <? start then (start - stop - 1) / (- step) + 1 else 0.

(** [list(range(start, stop, step))]; a zero step raises [ValueError]. *)
Definition range (start stop step : Z) : result (list Z) :=
  if step =? 0 then Raise ValueError
  else Ok ((fun k : nat => start + Z.of_nat k * step)
             <$> seq 0 (Z.to_nat (range_len start stop step))).

(** [l[i]] on a list or tuple: a negative index counts from the end. *)
Definition list_getitem {A} (l : list A) (i : Z) : result A :=
  let n := Z.of_nat (length l) in
  let j := if i <? 0 then i + n else i in
  if (j <? 0) || (n <=? j) then Raise IndexError
  else match l !! Z.to_nat j with
       | Some a => Ok a
       | None => Raise IndexError
       end.

(** [list(itertools.product(ts, ys, xs))]: the rightmost iterable advances
    fastest. *)
Definition product (ts ys xs : list Z) : list (Z * Z * Z) :=
  t ← ts; y ← ys; x ← xs; [(t, y, x)].

(** A [for] loop whose body may raise, threading the loop state. *)
Fixpoint for_ {A S} (l : list A) (body : A -> S -> result S) (s : S)
  : result S :=
  match l with
  | [] => Ok s
  | a :: l' => s' ← body a s; for_ l' body s'
  end.

(** Resolution of a global name against the names a module binds. *)
Definition global (globals : list string) (x : string) : result unit :=
  if bool_decide (x ∈ globals) then Ok tt else Raise NameError.

Arguments range : simpl never.
Arguments mod_ : simpl never.
Arguments list_getitem : simpl never.
Arguments product : simpl never.

End Py.

Export Py.

(** ** numpy: n-dimensional arrays and basic indexing *)

Inductive dtype := float64 | float32 | int64.

#[global] Instance dtype_eq_dec : EqDecision dtype.
Proof. solve_decision. Defined.

(** The numeric part that is not modelled: the element type, the
    conversion of an element to a dtype, and the larger of two elements. *)
Class Scalar := {
  scalar : Type;
  cast : dtype -> scalar -> scalar;
  smax : scalar -> scalar -> scalar
}.

Module np.

Section Arrays.
Context `{Scalar}.

Record ndarray := {
  dtype_of : dtype;
  shape : list nat;
  flat : list scalar
}.

(** Number of elements of an array of the given shape. *)
Definition size_of (sh : list nat) : nat := foldr Nat.mul 1%nat sh.

(** The row-major element list has one entry per index tuple. *)
Definition well_formed (a : ndarray) : Prop :=
  length (flat a) = size_of (shape a).

(** One entry of a basic index tuple: an integer, [slice(start, stop)]
    (unit step; [None] for an omitted bound) or [np.newaxis] / [None]. *)
Inductive index_item :=
| Int (i : Z)
| Slice (start stop : option Z)
| NewAxis.

(** An integer index along an axis of length [n]; negative wraps once. *)
Definition axis_index (n : nat) (i : Z) : result nat :=
  let j := if i <? 0 then i + Z.of_nat n else i in
  if (j <? 0) || (Z.of_nat n <=? j) then Raise IndexError
  else Ok (Z.to_nat j).

(** A slice bound adjusted to an axis of length [n] (unit step). *)
Definition slice_bound (n : nat) (dflt : Z) (b : option Z) : Z :=
  match b with
  | None => dflt
  | Some v =>
      if v <? 0 then Z.max (v + Z.of_nat n) 0 else Z.min v (Z.of_nat n)
  end.

Definition slice_start (n : nat) (start : option Z) : nat :=
  Z.to_nat (slice_bound n 0 start).

Definition slice_len (n : nat) (start stop : option Z) : nat :=
  Z.to_nat (slice_bound n (Z.of_nat n) stop - slice_bound n 0 start).

(** Shape of [a[idx]]; more index items than axes is an [IndexError], as
    is an integer out of range.  Axes the tuple does not reach are kept. *)
Fixpoint getitem_shape (idx : list index_item) (sh : list nat)
  : result (list nat) :=
  match idx with
  | [] => Ok sh
  | NewAxis :: idx' => s ← getitem_shape idx' sh; Ok (1%nat :: s)
  | Int i :: idx' =>
      match sh with
      | [] => Raise IndexError
      | n :: sh' => _ ← axis_index n i; getitem_shape idx' sh'
      end
  | Slice start stop :: idx' =>
      match sh with
      | [] => Raise IndexError
      | n :: sh' =>
          s ← getitem_shape idx' sh'; Ok (slice_len n start stop :: s)
      end
  end.

(** The [k]-th sub-array along the leading axis, in row-major storage. *)
Definition chunk (sz k : nat) (d : list scalar) : list scalar :=
  take sz (drop (k * sz) d).

(** Elements of [a[idx]], in row-major order. *)
Fixpoint getitem_flat (idx : list index_item) (sh : list nat)
  (d : list scalar) : list scalar :=
  match idx with
  | [] => d
  | NewAxis :: idx' => getitem_flat idx' sh d
  | Int i :: idx' =>
      match sh with
      | [] => []
      | n :: sh' =>
          match axis_index n i with
          | Ok k => getitem_flat idx' sh' (chunk (size_of sh') k d)
          | Raise _ => []
          end
      end
  | Slice start stop :: idx' =>
      match sh with
      | [] => []
      | n :: sh' =>
          k ← seq (slice_start n start) (slice_len n start stop);
          getitem_flat idx' sh' (chunk (size_of sh') k d)
      end
  end.

(** [a[idx]] for a tuple of basic indices. *)
Definition getitem (a : ndarray) (idx : list index_item) : result ndarray :=
  s ← getitem_shape idx (shape a);
  Ok {| dtype_of := dtype_of a;
        shape := s;
        flat := getitem_flat idx (shape a) (flat a) |}.

(** [a.astype(t)]. *)
Definition astype (t : dtype) (a : ndarray) : ndarray :=
  {| dtype_of := t; shape := shape a; flat := cast t <$> flat a |}.

(** [a.max()]: undefined on an empty array. *)
Definition max (a : ndarray) : result scalar :=
  match flat a with
  | [] => Raise ValueError
  | x :: xs => Ok (foldl smax x xs)
  end.

(** [np.ones(sh)]-like constructor: every element equal to [v]. *)
Definition full (sh : list nat) (v : scalar) : ndarray :=
  {| dtype_of := float64; shape := sh; flat := replicate (size_of sh) v |}.

End Arrays.

End np.

(** ** xarray: datasets of named arrays over named dimensions *)

Module xr.

Section Datasets.
Context `{Scalar}.

(** A variable: its dimension names, one per axis, and its array. *)
Record DataArray := {
  dims : list string;
  values : np.ndarray
}.

(** A dataset: the extent of every dimension and the data variables.
    Coordinate variables (those named like a dimension) are not data
    variables. *)
Record Dataset := {
  sizes : gmap string nat;
  data_vars : gmap name DataArray
}.

(** Every variable has one axis per dimension name, of that dimension's
    extent; xarray enforces this when a dataset is built. *)
Definition aligned (ds : Dataset) (da : DataArray) : Prop :=
  mapM (fun d => sizes ds !! d) (dims da) = Some (np.shape (values da)).

(** [len(v.values)] and [len(v)] for the variable called [d]: a dimension
    name denotes its index, of the dimension's extent; a data variable has
    the length of its leading axis, and none if it has no axis.  [missing]
    is the exception for an unknown name. *)
Definition len_of (missing : exn) (ds : Dataset) (d : string) : result Z :=
  match sizes ds !! d with
  | Some n => Ok (Z.of_nat n)
  | None =>
      match data_vars ds !! NStr d with
      | Some da =>
          match np.shape (values da) with
          | n :: _ => Ok (Z.of_nat n)
          | [] => Raise TypeError
          end
      | None => Raise missing
      end
  end.

(** [len(ds[d].values)]. *)
Definition getitem_len : Dataset -> string -> result Z := len_of KeyError.

(** [len(ds.d)], attribute-style access. *)
Definition getattr_len : Dataset -> string -> result Z :=
  len_of AttributeError.

(** [ds[key]] for a data variable. *)
Definition getitem (ds : Dataset) (key : name) : result DataArray :=
  dict_getitem (data_vars ds) key.

End Datasets.

End xr.

(** ** torch: tensors built from arrays *)

Module torch.

Section Tensors.
Context `{Scalar}.

Record Tensor := {
  dtype_of : dtype;
  shape : list nat;
  flat : list scalar;
  requires_grad : bool
}.

(** [torch.tensor(a, requires_grad=g)]: a copy of the array's data. *)
Definition tensor (a : np.ndarray) (g : bool) : Tensor :=
  {| dtype_of := np.dtype_of a;
     shape := np.shape a;
     flat := np.flat a;
     requires_grad := g |}.

(** [t.float()]: conversion to single precision. *)
Definition float (t : Tensor) : Tensor :=
  {| dtype_of := float32;
     shape := shape t;
     flat := cast float32 <$> flat t;
     requires_grad := requires_grad t |}.

End Tensors.

End torch.

(** ** The notebook *)

(** Names bound at the top level of the notebook: its four import
    statements, the class, the helper function and the variables its
    cells assign. *)
Definition notebook_globals : list string :=
  ["np"; "xr"; "product"; "Dataset"; "DataLoader";
   "XRTimeSeries"; "get_xarray_dataset"; "ds";
   "torch_dataset"; "sample"; "train_loader"; "batch"].

Module XRTimeSeries.

Section Indexer.
Context `{Scalar}.

(** The attributes of an instance.  [std] is never assigned by the class;
    it is present only when set from outside. *)
Record t := {
  time_length : Z;
  data : xr.Dataset;
  numpy_data : gmap name np.ndarray;
  data_vars : gset name;
  dims : gmap name (list string);
  constants : gset name;
  indices : list (Z * Z * Z);
  std : option (gmap name np.ndarray)
}.

(** [len({'x', 'y', 'time'} & set(dims)) == 0]. *)
Definition no_overlap (d : list string) : bool :=
  bool_decide
    (size (({[ "x"; "y"; "time" ]} : gset string) ∩ list_to_set d) = 0%nat).

Definition set_indices (self : t) (l : list (Z * Z * Z)) : t :=
  {| time_length := time_length self;
     data := data self;
     numpy_data := numpy_data self;
     data_vars := data_vars self;
     dims := dims self;
     constants := constants self;
     indices := l;
     std := std self |}.

(** [self.std = s], an assignment from outside the class. *)
Definition set_std (self : t) (s : gmap name np.ndarray) : t :=
  {| time_length := time_length self;
     data := data self;
     numpy_data := numpy_data self;
     data_vars := data_vars self;
     dims := dims self;
     constants := constants self;
     indices := indices self;
     std := Some s |}.

Definition setup_indices (self : t) : result t :=
  len_x ← xr.getitem_len (data self) "x";
  len_y ← xr.getitem_len (data self) "y";
  len_t ← xr.getitem_len (data self) "time";
  x_iter ← range 0 len_x 1;
  y_iter ← range 0 len_y 1;
  t_iter ← range 0 len_t (time_length self);
  m ← mod_ len_t (time_length self);
  _ ← assert_ (m =? 0);
  Ok (set_indices self (product t_iter y_iter x_iter)).

(** [XRTimeSeries(data, time_length)]; [None] is the omitted argument. *)
Definition __init__ (data : xr.Dataset) (time_length : option Z) : result t :=
  tl ← or_ time_length (xr.getattr_len data "time");
  setup_indices
    {| time_length := tl;
       data := data;
       numpy_data := xr.values <$> xr.data_vars data;
       data_vars := dom (xr.data_vars data);
       dims := xr.dims <$> xr.data_vars data;
       constants :=
         dom (filter (fun kv => no_overlap (xr.dims kv.2) = true)
                (xr.data_vars data));
       indices := [];
       std := None |}.

Definition __len__ (self : t) : Z := Z.of_nat (length (indices self)).

(** The index tuple of one variable of the sample at [(t, y, x)]. *)
Definition this_array_index (self : t) (key_dims : list string)
  (t y x : Z) : list np.index_item :=
  if bool_decide ("z" ∈ key_dims) then
    [np.Slice (Some t) (Some (t + time_length self)); np.Slice None None;
     np.Int y; np.Int x]
  else
    [np.Slice (Some t) (Some (t + time_length self)); np.NewAxis;
     np.Int y; np.Int x].

(** The array stored for one time-varying variable: the window sliced
    out of its data, padded with two unit axes and cast. *)
Definition sample_of (self : t) (t y x : Z) (key : name)
  : result np.ndarray :=
  data_array ← dict_getitem (numpy_data self) key;
  key_dims ← dict_getitem (dims self) key;
  window ← np.getitem data_array (this_array_index self key_dims t y x);
  sample ← np.getitem window
    [np.Slice None None; np.Slice None None; np.NewAxis; np.NewAxis];
  Ok (np.astype float32 sample).

(** One iteration of the loop of [__getitem__]. *)
Definition getitem_body (self : t) (t y x : Z) (key : name)
  (output_tensors : gmap name np.ndarray) : result (gmap name np.ndarray) :=
  if bool_decide (key ∈ constants self) then Ok output_tensors
  else
    sample ← sample_of self t y x key;
    Ok (<[key := sample]> output_tensors).

Definition __getitem__ (self : t) (i : Z) : result (gmap name np.ndarray) :=
  tyx ← list_getitem (indices self) i;
  let '(t, y, x) := tyx in
  for_ (elements (data_vars self)) (getitem_body self t y x) ∅.

(** The property [time_dim]: [self.dims[0][0]], where [self.dims] is the
    dictionary assigned by [__init__] (it shadows the class attribute of
    the same name). *)
Definition time_dim (self : t) : result string :=
  d ← dict_getitem (dims self) (NInt 0);
  list_getitem d 0.

(** One entry of the dictionary built by [torch_constants]: the value
    expression first resolves the global name [torch]. *)
Definition torch_constants_body (globals : list string) (self : t)
  (key : name) (out : gmap name torch.Tensor) : result (gmap name torch.Tensor) :=
  _ ← global globals "torch";
  da ← xr.getitem (data self) key;
  Ok (<[key := torch.float (torch.tensor (xr.values da) false)]> out).

Definition torch_constants (globals : list string) (self : t)
  : result (gmap name torch.Tensor) :=
  for_ (elements (constants self)) (torch_constants_body globals self) ∅.

(** [self.std]. *)
Definition getattr_std (self : t) : result (gmap name np.ndarray) :=
  match std self with
  | Some s => Ok s
  | None => Raise AttributeError
  end.

(** [valmap(f, d)] for a function that may raise: a new dictionary with
    [f(d[key])] under every key of [d]. *)
Definition valmap {A B} (f : A -> result B) (d : gmap name A)
  : result (gmap name B) :=
  for_ (elements (dom d))
    (fun key out => a ← dict_getitem d key; v ← f a; Ok (<[key := v]> out)) ∅.

(** The property [scale]: [std = self.std] is evaluated first, then the
    global name [valmap] is resolved. *)
Definition scale (globals : list string) (self : t)
  : result (gmap name scalar) :=
  std ← getattr_std self;
  _ ← global globals "valmap";
  valmap np.max std.

End Indexer.

End XRTimeSeries.

Import XRTimeSeries.

(** ** torch.utils.data: the batching of [DataLoader] *)

Module DataLoader.

Section Loader.
Context `{Scalar}.

(** What stops an iteration: an exception raised by Python code, or the
    [RuntimeError] of [torch.stack]. *)
Inductive failure :=
| Raised (e : exn)
| RuntimeError.

Inductive outcome (A : Type) :=
| Done (a : A)
| Failed (f : failure).

Arguments Done {A} a.
Arguments Failed {A} f.

#[global] Instance outcome_ret : MRet outcome := fun A a => Done a.

#[global] Instance outcome_bind : MBind outcome :=
  fun A B f m => match m with Done a => f a | Failed e => Failed e end.

#[global] Instance outcome_fmap : FMap outcome :=
  fun A B f m => match m with Done a => Done (f a) | Failed e => Failed e end.

Definition lift {A} (r : result A) : outcome A :=
  match r with
  | Ok a => Done a
  | Raise e => Failed (Raised e)
  end.

(** [BatchSampler.__iter__] with [drop_last=False]: [sampler] holds the
    indices still to come and [batch] the batch being filled; a batch is
    yielded as soon as it is full, and a last partial one at the end. *)
Fixpoint batch_sampler (batch_size : nat) (sampler batch : list Z)
  : list (list Z) :=
  match sampler with
  | [] => if bool_decide (0 < length batch)%nat then [batch] else []
  | idx :: sampler' =>
      let batch' := batch ++ [idx] in
      if bool_decide (length batch' = batch_size)
      then batch' :: batch_sampler batch_size sampler' []
      else batch_sampler batch_size sampler' batch'
  end.

(** [torch.stack(ts, 0)]: the tensors must agree in shape and dtype. *)
Definition stack (ts : list torch.Tensor) : outcome torch.Tensor :=
  match ts with
  | [] => Failed RuntimeError
  | t0 :: _ =>
      if forallb
           (fun t => bool_decide (torch.shape t = torch.shape t0
                                  /\ torch.dtype_of t = torch.dtype_of t0))
           ts
      then Done {| torch.dtype_of := torch.dtype_of t0;
                   torch.shape := length ts :: torch.shape t0;
                   torch.flat := ts ≫= torch.flat;
                   torch.requires_grad := false |}
      else Failed RuntimeError
  end.

(** [default_collate([d[key] for d in batch])] for array values: each is
    turned into a tensor and the tensors are stacked. *)
Definition collate_key (batch : list (gmap name np.ndarray)) (key : name)
  : outcome torch.Tensor :=
  column ← lift (mapM (fun d => dict_getitem d key) batch);
  stack ((fun a => torch.tensor a false) <$> column).

(** [default_collate(batch)] for a batch of dictionaries: one entry per
    key of the first sample. *)
Definition default_collate (batch : list (gmap name np.ndarray))
  : outcome (gmap name torch.Tensor) :=
  match batch with
  | [] => Failed (Raised IndexError)
  | elem :: _ =>
      entries ← mapM (fun key => v ← collate_key batch key; mret (key, v))
                  (elements (dom elem));
      mret (list_to_map entries)
  end.

(** [list(DataLoader(dataset, batch_size=batch_size))] with the default
    sequential sampler: the samples of each batch of indices are fetched
    and collated, in order.  A batch size of 0 is refused. *)
Definition batches (dataset : XRTimeSeries.t) (batch_size : nat)
  : outcome (list (gmap name torch.Tensor)) :=
  if bool_decide (batch_size = 0%nat) then Failed (Raised ValueError)
  else
    mapM (fun batch =>
            samples ← lift (mapM (__getitem__ dataset) batch);
            default_collate samples)
      (batch_sampler batch_size
         (Z.of_nat <$> seq 0 (Z.to_nat (__len__ dataset))) []).

End Loader.

Arguments Done {A} a.
Arguments Failed {A} f.

End DataLoader.

(** ** The toy dataset of the notebook *)

Section Toy.
Context `{Scalar}.
Variable one : scalar.

Definition dims_3d : list string := ["time"; "z"; "y"; "x"].
Definition dims_2d : list string := ["time"; "y"; "x"].

(** [np.ones((4, 4, 5, 2))] and [np.ones((4, 5, 2))]. *)
Definition data_3d : np.ndarray := np.full [4; 4; 5; 2]%nat one.
Definition data_2d : np.ndarray := np.full [4; 5; 2]%nat one.

(** [get_xarray_dataset()]: ['a'] over [(time, z, y, x)] and ['b'] over
    [(time, y, x)], all ones. *)
Definition get_xarray_dataset : xr.Dataset :=
  {| xr.sizes := {[ "time" := 4%nat; "z" := 4%nat; "y" := 5%nat; "x" := 2%nat ]};
     xr.data_vars :=
       {[ NStr "a" := {| xr.dims := dims_3d; xr.values := data_3d |};
          NStr "b" := {| xr.dims := dims_2d; xr.values := data_2d |} ]} |}.

(** Test inputs derived from it: the same variables over an empty time
    axis, and the toy dataset with a per-level constant ['c'] over [(z)]. *)
Definition get_empty_time_dataset : xr.Dataset :=
  {| xr.sizes := {[ "time" := 0%nat; "z" := 4%nat; "y" := 5%nat; "x" := 2%nat ]};
     xr.data_vars :=
       {[ NStr "a" := {| xr.dims := dims_3d;
                         xr.values := np.full [0; 4; 5; 2]%nat one |};
          NStr "b" := {| xr.dims := dims_2d;
                         xr.values := np.full [0; 5; 2]%nat one |} ]} |}.

Definition get_dataset_with_constant : xr.Dataset :=
  {| xr.sizes := xr.sizes get_xarray_dataset;
     xr.data_vars :=
       <[ NStr "c" := {| xr.dims := ["z"];
                         xr.values := np.full [4]%nat one |} ]>
         (xr.data_vars get_xarray_dataset) |}.

(** Further test inputs: the toy dataset with a series ['p'] over [(time)]
    only, and a dataset with nothing in it. *)
Definition get_dataset_with_series : xr.Dataset :=
  {| xr.sizes := xr.sizes get_xarray_dataset;
     xr.data_vars :=
       <[ NStr "p" := {| xr.dims := ["time"];
                         xr.values := np.full [4]%nat one |} ]>
         (xr.data_vars get_xarray_dataset) |}.

Definition get_empty_dataset : xr.Dataset :=
  {| xr.sizes := ∅; xr.data_vars := ∅ |}.

End Toy.

(** Integers standing for the elements, to run the model. *)
Definition Z_scalar : Scalar :=
  {| scalar := Z; cast := fun _ v => v; smax := Z.max |}.

Definition toy : xr.Dataset := @get_xarray_dataset Z_scalar 1.
Definition toy_empty_time : xr.Dataset := @get_empty_time_dataset Z_scalar 1.
Definition toy_with_constant : xr.Dataset :=
  @get_dataset_with_constant Z_scalar 1.
Definition toy_with_series : xr.Dataset :=
  @get_dataset_with_series Z_scalar 1.
Definition toy_empty : xr.Dataset := @get_empty_dataset Z_scalar.

(** * Vocabulary of the properties *)

Section Vocabulary.
Context `{Scalar}.

(** The dataset exposes the dimensions [time], [y] and [x]. *)
Definition exposes (ds : xr.Dataset) (T Y X : nat) : Prop :=
  xr.sizes ds !! "time" = Some T /\
  xr.sizes ds !! "y" = Some Y /\
  xr.sizes ds !! "x" = Some X.

(** The window length in force: an omitted or zero argument is replaced
    by the time extent. *)
Definition effective_time_length (window : option Z) (T : nat) : Z :=
  match window with
  | Some v => if v =? 0 then Z.of_nat T else v
  | None => Z.of_nat T
  end.

(** The instance [__init__] assembles, given its window length and its
    sample index. *)
Definition built (ds : xr.Dataset) (tl : Z) (l : list (Z * Z * Z)) : t :=
  {| time_length := tl;
     data := ds;
     numpy_data := xr.values <$> xr.data_vars ds;
     data_vars := dom (xr.data_vars ds);
     dims := xr.dims <$> xr.data_vars ds;
     constants :=
       dom (filter (fun kv => no_overlap (xr.dims kv.2) = true)
              (xr.data_vars ds));
     indices := l;
     std := None |}.

(** Construction with the explicit window length [tl] yields an indexer
    whose sample index has [(T / tl) * Y * X] entries, all distinct, each a
    window start with its column inside the grid, laid out time-outer,
    y-middle, x-inner: the triple [(k * tl, y, x)] sits at position
    [(k * Y + y) * X + x]. *)
Definition enumerates (ds : xr.Dataset) (tl : Z) (T Y X : nat) : Prop :=
  exists ix,
    __init__ ds (Some tl) = Ok ix /\
    __len__ ix = Z.of_nat T / tl * Z.of_nat Y * Z.of_nat X /\
    NoDup (indices ix) /\
    (forall t y x, (t, y, x) ∈ indices ix ->
       0 <= t /\ t + tl <= Z.of_nat T /\
       0 <= y < Z.of_nat Y /\ 0 <= x < Z.of_nat X) /\
    (forall k y x : nat,
       Z.of_nat k < Z.of_nat T / tl -> (y < Y)%nat -> (x < X)%nat ->
       indices ix !! ((k * Y + y) * X + x)%nat
       = Some (Z.of_nat k * tl, Z.of_nat y, Z.of_nat x)).

(** Construction without a window length yields an indexer whose window
    is the full time extent, which divides it, with one sample per
    column. *)
Definition defaults_to_full_extent (ds : xr.Dataset) (T Y X : nat) : Prop :=
  exists ix,
    __init__ ds None = Ok ix /\
    time_length ix = Z.of_nat T /\
    mod_ (Z.of_nat T) (time_length ix) = Ok 0 /\
    __len__ ix = Z.of_nat Y * Z.of_nat X.

(** The layouts the class documents: a variable is a constant, a profile
    field over [(time, z, y, x)] or a surface field over [(time, y, x)],
    with its axes stored in that order. *)
Definition allowed_dims (d : list string) : bool :=
  no_overlap d
  || bool_decide (d = ["time"; "z"; "y"; "x"])
  || bool_decide (d = ["time"; "y"; "x"]).

Definition conforming (ds : xr.Dataset) : Prop :=
  map_Forall
    (fun _ da => allowed_dims (xr.dims da) = true /\ xr.aligned ds da)
    (xr.data_vars ds).

(** The tensor [torch_constants] is written to build for one variable. *)
Definition constant_tensor (da : xr.DataArray) : torch.Tensor :=
  torch.float (torch.tensor (xr.values da) false).

(** The largest element of a non-empty array. *)
Definition largest (a : np.ndarray) : option scalar :=
  match np.flat a with
  | [] => None
  | x :: xs => Some (foldl smax x xs)
  end.

End Vocabulary.

(** The loop [for key in keys: if skip(key): continue; out[key] = f(key)]. *)
Definition fill {V} (skip : name -> bool) (f : name -> result V)
  (key : name) (out : gmap name V) : result (gmap name V) :=
  if skip key then Ok out else v ← f key; Ok (<[key := v]> out).

(** The indexers of the toy datasets, with the window of the notebook. *)
Definition toy_indexer (ds : @xr.Dataset Z_scalar) : @t Z_scalar :=
  built ds 4
    (product
       ((fun k : nat => Z.of_nat k * 4) <$> seq 0 (Z.to_nat (Z.of_nat 4 / 4)))
       (Z.of_nat <$> seq 0 5) (Z.of_nat <$> seq 0 2)).

(** Closed decidable facts, by evaluation of their decision procedure. *)
Ltac by_decide := apply (bool_decide_unpack _); vm_compute; exact I.

(** ** Further vocabulary *)

Section Elements.
Context `{Scalar}.

(** Row-major position of the multi-index [idx] in an array of shape
    [sh]; none when the index has the wrong rank or leaves an axis. *)
Fixpoint offset (sh idx : list nat) (acc : nat) : option nat :=
  match sh, idx with
  | [], [] => Some acc
  | n :: sh', i :: idx' =>
      if (i <? n)%nat then offset sh' idx' (acc * n + i)%nat else None
  | _, _ => None
  end.

(** [a[i0, i1, ...]] for a full tuple of in-range integers. *)
Definition item (a : np.ndarray) (idx : list nat) : option scalar :=
  o ← offset (np.shape a) idx 0%nat; np.flat a !! o.

(** Number of axes an index tuple consumes. *)
Fixpoint consumed (idx : list np.index_item) : nat :=
  match idx with
  | [] => 0%nat
  | np.NewAxis :: idx' => consumed idx'
  | _ :: idx' => S (consumed idx')
  end.

(** Length of the second axis of a sample: the extent of [z] for a
    variable that declares it, 1 otherwise. *)
Definition z_axis (ds : xr.Dataset) (da : xr.DataArray) : nat :=
  if bool_decide ("z" ∈ xr.dims da) then default 1%nat (xr.sizes ds !! "z")
  else 1%nat.

(** The dataset knows no dimension and no variable called [d]. *)
Definition lacks (ds : xr.Dataset) (d : string) : Prop :=
  xr.sizes ds !! d = None /\ xr.data_vars ds !! NStr d = None.

(** The exceptions construction can end with. *)
Definition init_errors : list exn :=
  [AttributeError; KeyError; TypeError; ValueError; AssertionError].

End Elements.

(** * Properties *)

(** ** Python *)

Section PyFacts.

Lemma bind_ok {A B} (m : result A) (f : A -> result B) (b : B) :
  m ≫= f = Ok b <-> exists a, m = Ok a /\ f a = Ok b.
Proof.
  destruct m as [a|e]; simpl; split.
  - intros Hf. exists a. auto.
  - intros (a' & [= <-] & Hf). exact Hf.
  - discriminate.
  - intros (a' & [=] & _).
Qed.

Lemma bind_Ok {A B} (a : A) (f : A -> result B) : Ok a ≫= f = f a.
Proof. reflexivity. Qed.

Lemma range_unit (n : nat) :
  range 0 (Z.of_nat n) 1 = Ok (Z.of_nat <$> seq 0 n).
Proof.
  unfold range, range_len. simpl.
  destruct (0 <? Z.of_nat n) eqn:Hn.
  - apply Z.ltb_lt in Hn. rewrite Z.div_1_r.
    replace (Z.to_nat (Z.of_nat n - 0 - 1 + 1)) with n by lia.
    f_equal. apply list_fmap_ext. intros _ k _. lia.
  - apply Z.ltb_ge in Hn. assert (n = 0%nat) as -> by lia. reflexivity.
Qed.

(** A positive stride that divides the stop value visits the multiples. *)
Lemma range_stride (T : nat) (tl : Z) :
  0 < tl -> Z.of_nat T mod tl = 0 ->
  range 0 (Z.of_nat T) tl
  = Ok ((fun k : nat => Z.of_nat k * tl) <$> seq 0 (Z.to_nat (Z.of_nat T / tl))).
Proof.
  intros Htl Hmod. unfold range, range_len.
  destruct (Z.eqb_spec tl 0) as [|_]; [lia|].
  destruct (Z.ltb_spec 0 tl) as [_|]; [|lia].
  apply Z.div_exact in Hmod; [|lia].
  set (q := Z.of_nat T / tl) in *.
  assert (0 <= q) by (apply Z.div_pos; lia).
  f_equal.
  destruct (Z.ltb_spec 0 (Z.of_nat T)) as [Hpos|Hz].
  - assert ((Z.of_nat T - 0 - 1) / tl + 1 = q) as ->.
    { assert (Z.of_nat T - 0 - 1 = (q - 1) * tl + (tl - 1)) as -> by lia.
      rewrite Z.div_add_l by lia. rewrite Z.div_small by lia. lia. }
    apply list_fmap_ext. intros _ k _. lia.
  - assert (q = 0) as -> by nia. reflexivity.
Qed.

(** A negative stride from 0 towards a non-negative stop visits nothing. *)
Lemma range_negative_stride (T : nat) (tl : Z) :
  tl < 0 -> range 0 (Z.of_nat T) tl = Ok [].
Proof.
  intros Htl. unfold range, range_len.
  destruct (Z.eqb_spec tl 0) as [|_]; [lia|].
  destruct (Z.ltb_spec 0 tl) as [|_]; [lia|].
  destruct (Z.ltb_spec (Z.of_nat T) 0) as [|_]; [lia|]. reflexivity.
Qed.

Lemma list_getitem_ok {A} (l : list A) (i : Z) (a : A) :
  list_getitem l i = Ok a ->
  - Z.of_nat (length l) <= i < Z.of_nat (length l) /\
  l !! Z.to_nat (if i <? 0 then i + Z.of_nat (length l) else i) = Some a.
Proof.
  unfold list_getitem.
  destruct (i <? 0) eqn:Hi;
    [apply Z.ltb_lt in Hi | apply Z.ltb_ge in Hi];
    (match goal with |- context [(?a <? 0) || (?b <=? ?c)] =>
       destruct (Z.ltb_spec a 0); destruct (Z.leb_spec b c) end);
    simpl; try discriminate;
    (match goal with |- context [?l !! ?k] => destruct (l !! k) eqn:Hl end);
    try discriminate; intros [= ->]; (split; [lia | reflexivity]).
Qed.

Lemma list_getitem_out_of_range {A} (l : list A) (i : Z) :
  i < - Z.of_nat (length l) \/ Z.of_nat (length l) <= i ->
  list_getitem l i = Raise IndexError.
Proof.
  intros Hi. unfold list_getitem.
  destruct (Z.ltb_spec i 0);
    (match goal with |- context [(?a <? 0) || (?b <=? ?c)] =>
       destruct (Z.ltb_spec a 0); destruct (Z.leb_spec b c) end);
    simpl; try reflexivity; lia.
Qed.

Lemma list_getitem_in_range {A} (l : list A) (i : Z) :
  0 <= i < Z.of_nat (length l) ->
  exists a, list_getitem l i = Ok a /\ l !! Z.to_nat i = Some a.
Proof.
  intros Hi. unfold list_getitem.
  destruct (Z.ltb_spec i 0); [lia|].
  destruct (Z.ltb_spec i 0); [lia|].
  destruct (Z.leb_spec (Z.of_nat (length l)) i); [lia|]. simpl.
  destruct (lookup_lt_is_Some_2 l (Z.to_nat i)) as [a Ha]; [lia|].
  rewrite Ha. eauto.
Qed.

(** A negative index in range reads the element counted from the end. *)
Lemma list_getitem_wrap {A} (l : list A) (i : Z) :
  - Z.of_nat (length l) <= i < 0 ->
  list_getitem l i = list_getitem l (i + Z.of_nat (length l)).
Proof.
  intros Hi. unfold list_getitem. cbv zeta.
  assert ((i <? 0) = true) as -> by (apply Z.ltb_lt; lia).
  cbv iota.
  assert ((i + Z.of_nat (length l) <? 0) = false) as Hwrap
    by (apply Z.ltb_ge; lia).
  rewrite Hwrap. cbv iota. rewrite Hwrap. reflexivity.
Qed.

(** Blocks of equal length: the length and the elements of a flattened
    comprehension. *)
Lemma length_bind_uniform {A B} (f : A -> list B) (l : list A) (n : nat) :
  (forall a, a ∈ l -> length (f a) = n) ->
  length (l ≫= f) = (length l * n)%nat.
Proof.
  induction l as [|a l IH]; intros Hn; [reflexivity|].
  rewrite bind_cons, length_app, Hn by left.
  rewrite IH; [simpl; lia|]. intros b Hb. apply Hn. by right.
Qed.

Lemma lookup_bind_uniform {A B} (f : A -> list B) (l : list A) (n i j : nat)
  (a : A) :
  (forall a, a ∈ l -> length (f a) = n) ->
  l !! i = Some a -> (j < n)%nat ->
  (l ≫= f) !! (i * n + j)%nat = f a !! j.
Proof.
  revert i. induction l as [|b l IH]; intros i Hn Hi Hj; [done|].
  rewrite bind_cons. destruct i as [|i]; simpl in Hi.
  - injection Hi as ->. simpl. apply lookup_app_l. rewrite Hn by left. lia.
  - rewrite lookup_app_r by (rewrite Hn by left; lia).
    rewrite Hn by left.
    replace (S i * n + j - n)%nat with (i * n + j)%nat by lia.
    apply IH; [|done..]. intros c Hc. apply Hn. by right.
Qed.

Lemma product_length (ts ys xs : list Z) :
  length (product ts ys xs) = (length ts * length ys * length xs)%nat.
Proof.
  unfold product.
  rewrite (length_bind_uniform _ ts (length ys * length xs)); [lia|].
  intros t _.
  rewrite (length_bind_uniform _ ys (length xs)); [lia|].
  intros y _.
  rewrite (length_bind_uniform _ xs 1); [lia|]. done.
Qed.

(** The rightmost iterable advances fastest: the triple built from the
    [i]-th, [j]-th and [k]-th items sits at position
    [(i * len(ys) + j) * len(xs) + k]. *)
Lemma product_lookup (ts ys xs : list Z) (i j k : nat) (t y x : Z) :
  ts !! i = Some t -> ys !! j = Some y -> xs !! k = Some x ->
  product ts ys xs !! ((i * length ys + j) * length xs + k)%nat
  = Some (t, y, x).
Proof.
  intros Ht Hy Hx. unfold product.
  pose proof (lookup_lt_Some _ _ _ Hy) as Hj.
  pose proof (lookup_lt_Some _ _ _ Hx) as Hk.
  replace ((i * length ys + j) * length xs + k)%nat
    with (i * (length ys * length xs) + (j * length xs + k))%nat by lia.
  rewrite (lookup_bind_uniform _ ts _ i _ t); [|  |done|nia].
  - replace (j * length xs + k)%nat with (j * (length xs * 1) + k)%nat by lia.
    rewrite (lookup_bind_uniform _ ys _ j _ y); [| |done|lia].
    + replace k with (k * 1 + 0)%nat by lia.
      rewrite (lookup_bind_uniform _ xs 1 k 0 x); [done|done|done|lia].
    + intros y' _. rewrite (length_bind_uniform _ xs 1); [lia|done].
  - intros t' _. rewrite (length_bind_uniform _ ys (length xs)); [lia|].
    intros y' _. rewrite (length_bind_uniform _ xs 1); [lia|done].
Qed.

Lemma elem_of_product (ts ys xs : list Z) (t y x : Z) :
  (t, y, x) ∈ product ts ys xs <-> t ∈ ts /\ y ∈ ys /\ x ∈ xs.
Proof.
  unfold product. rewrite list_elem_of_bind. split.
  - intros (t' & Hin & Ht).
    apply list_elem_of_bind in Hin as (y' & Hin & Hy).
    apply list_elem_of_bind in Hin as (x' & Hin & Hx).
    apply list_elem_of_singleton in Hin. by simplify_eq.
  - intros (Ht & Hy & Hx). exists t. split; [|done].
    apply list_elem_of_bind. exists y. split; [|done].
    apply list_elem_of_bind. exists x. split; [|done].
    by apply list_elem_of_singleton.
Qed.

Lemma NoDup_product (ts ys xs : list Z) :
  NoDup ts -> NoDup ys -> NoDup xs -> NoDup (product ts ys xs).
Proof.
  intros Ht Hy Hx. unfold product.
  apply NoDup_bind; [| |done].
  - intros t1 t2 [[t y] x] _ _ H1 H2.
    apply list_elem_of_bind in H1 as (y1 & H1 & _).
    apply list_elem_of_bind in H1 as (x1 & H1 & _).
    apply list_elem_of_singleton in H1. simplify_eq.
    apply list_elem_of_bind in H2 as (y2 & H2 & _).
    apply list_elem_of_bind in H2 as (x2 & H2 & _).
    apply list_elem_of_singleton in H2. by simplify_eq.
  - intros t _. apply NoDup_bind; [| |done].
    + intros y1 y2 [[t' y] x] _ _ H1 H2.
      apply list_elem_of_bind in H1 as (x1 & H1 & _).
      apply list_elem_of_singleton in H1. simplify_eq.
      apply list_elem_of_bind in H2 as (x2 & H2 & _).
      apply list_elem_of_singleton in H2. by simplify_eq.
    + intros y _. apply NoDup_bind; [| |done].
      * intros x1 x2 [[t' y'] x] _ _ H1 H2.
        apply list_elem_of_singleton in H1. simplify_eq.
        apply list_elem_of_singleton in H2. by simplify_eq.
      * intros x _. apply NoDup_singleton.
Qed.

(** Loops: pointwise equal bodies give equal loops. *)
Lemma for_ext {A S} (l : list A) (f g : A -> S -> result S) (s : S) :
  (forall a s, a ∈ l -> f a s = g a s) -> for_ l f s = for_ l g s.
Proof.
  revert s. induction l as [|a l IH]; intros s Hfg; [done|].
  simpl. rewrite Hfg by left. destruct (g a s) as [s'|e]; [|done].
  simpl. apply IH. intros b s'' Hb. apply Hfg. by right.
Qed.

End PyFacts.

(** ** Construction *)

Section Construction.
Context `{Scalar}.

Lemma len_of_exposed (e : exn) (ds : xr.Dataset) (d : string) (n : nat) :
  xr.sizes ds !! d = Some n -> xr.len_of e ds d = Ok (Z.of_nat n).
Proof. intros Hd. unfold xr.len_of. by rewrite Hd. Qed.

Lemma init_exposed (ds : xr.Dataset) (window : option Z) (T Y X : nat) :
  exposes ds T Y X ->
  __init__ ds window =
    (let tl := effective_time_length window T in
     t_iter ← range 0 (Z.of_nat T) tl;
     m ← mod_ (Z.of_nat T) tl;
     _ ← assert_ (m =? 0);
     Ok (built ds tl
           (product t_iter (Z.of_nat <$> seq 0 Y) (Z.of_nat <$> seq 0 X)))).
Proof.
  intros (HT & HY & HX). unfold __init__.
  assert (or_ window (xr.getattr_len ds "time")
          = Ok (effective_time_length window T)) as ->.
  { unfold xr.getattr_len. rewrite (len_of_exposed _ _ _ _ HT).
    destruct window as [v|]; simpl; [|done]. by destruct (v =? 0). }
  rewrite bind_Ok. unfold setup_indices, xr.getitem_len.
  cbn [data time_length].
  rewrite (len_of_exposed _ _ _ _ HX), bind_Ok.
  rewrite (len_of_exposed _ _ _ _ HY), bind_Ok.
  rewrite (len_of_exposed _ _ _ _ HT), bind_Ok.
  rewrite (range_unit X), bind_Ok, (range_unit Y), bind_Ok. reflexivity.
Qed.

(** Whatever the dataset, a constructed instance has a non-zero window
    length, no [std] attribute, and the variable tables of its dataset. *)
Lemma init_ok_inv (ds : xr.Dataset) (window : option Z) (ix : t) :
  __init__ ds window = Ok ix ->
  exists tl l, ix = built ds tl l /\ tl <> 0.
Proof.
  unfold __init__. intros Hinit.
  apply bind_ok in Hinit as (tl & _ & Hsetup).
  unfold setup_indices in Hsetup. cbn [data time_length] in Hsetup.
  apply bind_ok in Hsetup as (len_x & _ & Hsetup).
  apply bind_ok in Hsetup as (len_y & _ & Hsetup).
  apply bind_ok in Hsetup as (len_t & _ & Hsetup).
  apply bind_ok in Hsetup as (x_iter & _ & Hsetup).
  apply bind_ok in Hsetup as (y_iter & _ & Hsetup).
  apply bind_ok in Hsetup as (t_iter & Ht & Hsetup).
  apply bind_ok in Hsetup as (m & _ & Hsetup).
  apply bind_ok in Hsetup as ([] & _ & [= <-]).
  exists tl, (product t_iter y_iter x_iter). split; [reflexivity|].
  intros ->. discriminate Ht.
Qed.

(** Construction over an exposed dataset, case by case. *)
Lemma init_positive (ds : xr.Dataset) (tl : Z) (T Y X : nat) :
  exposes ds T Y X -> 0 < tl -> Z.of_nat T mod tl = 0 ->
  __init__ ds (Some tl) =
    Ok (built ds tl
          (product
             ((fun k : nat => Z.of_nat k * tl)
                <$> seq 0 (Z.to_nat (Z.of_nat T / tl)))
             (Z.of_nat <$> seq 0 Y) (Z.of_nat <$> seq 0 X))).
Proof.
  intros Hds Htl Hmod. rewrite (init_exposed _ _ _ _ _ Hds). simpl.
  destruct (Z.eqb_spec tl 0) as [|_]; [lia|].
  rewrite range_stride by done. simpl.
  unfold mod_. destruct (Z.eqb_spec tl 0) as [|_]; [lia|].
  simpl. rewrite Hmod. reflexivity.
Qed.

Lemma init_not_dividing (ds : xr.Dataset) (tl : Z) (T Y X : nat) :
  exposes ds T Y X -> tl <> 0 -> Z.of_nat T mod tl <> 0 ->
  __init__ ds (Some tl) = Raise AssertionError.
Proof.
  intros Hds Htl Hmod. rewrite (init_exposed _ _ _ _ _ Hds). simpl.
  destruct (Z.eqb_spec tl 0) as [|_]; [lia|].
  unfold range. destruct (Z.eqb_spec tl 0) as [|_]; [lia|]. simpl.
  unfold mod_. destruct (Z.eqb_spec tl 0) as [|_]; [lia|]. simpl.
  destruct (Z.eqb_spec (Z.of_nat T mod tl) 0) as [|_]; [lia|]. reflexivity.
Qed.

Lemma init_default (ds : xr.Dataset) (T Y X : nat) :
  exposes ds T Y X -> (0 < T)%nat ->
  __init__ ds None =
    Ok (built ds (Z.of_nat T)
          (product [0] (Z.of_nat <$> seq 0 Y) (Z.of_nat <$> seq 0 X))).
Proof.
  intros Hds HT. rewrite (init_exposed _ _ _ _ _ Hds). simpl.
  rewrite range_stride; [|lia|apply Z_mod_same_full].
  rewrite Z_div_same_full by lia. simpl.
  unfold mod_. destruct (Z.eqb_spec (Z.of_nat T) 0) as [|_]; [lia|].
  simpl. rewrite Z_mod_same_full. reflexivity.
Qed.

Lemma init_negative (ds : xr.Dataset) (tl : Z) (T Y X : nat) :
  exposes ds T Y X -> tl < 0 -> Z.of_nat T mod tl = 0 ->
  __init__ ds (Some tl) = Ok (built ds tl []).
Proof.
  intros Hds Htl Hmod. rewrite (init_exposed _ _ _ _ _ Hds). simpl.
  destruct (Z.eqb_spec tl 0) as [|_]; [lia|].
  rewrite range_negative_stride by done. simpl.
  unfold mod_. destruct (Z.eqb_spec tl 0) as [|_]; [lia|].
  simpl. rewrite Hmod. reflexivity.
Qed.

Lemma init_empty_time (ds : xr.Dataset) (Y X : nat) :
  exposes ds 0 Y X -> __init__ ds None = Raise ValueError.
Proof. intros Hds. rewrite (init_exposed _ _ _ _ _ Hds). reflexivity. Qed.

End Construction.

(** ** The sample index *)

Section SampleIndex.
Context `{Scalar}.

(** C2, as amended: for every dataset with time extent [T], y extent [Y]
    and x extent [X] and every positive [time_length] that evenly divides
    [T], the sample count is [(T / time_length) * Y * X] and the sample
    index is the sequence of distinct in-bounds [(time_start, y, x)]
    triples enumerated time-outer, y-middle, x-inner, time in strides of
    [time_length] and y, x in strides of 1. *)
Theorem positive_window_enumerates (ds : xr.Dataset) (tl : Z) (T Y X : nat) :
  exposes ds T Y X -> 0 < tl -> Z.of_nat T mod tl = 0 ->
  enumerates ds tl T Y X.
Proof.
  intros Hds Htl Hmod.
  assert (0 <= Z.of_nat T / tl) as Hq by (apply Z.div_pos; lia).
  pose proof (Z.div_exact (Z.of_nat T) tl ltac:(lia)) as [_ HT].
  specialize (HT Hmod).
  eexists. split; [exact (init_positive _ _ _ _ _ Hds Htl Hmod)|].
  unfold __len__. cbn [indices built].
  split; [|split; [|split]].
  - rewrite product_length, !length_fmap, !length_seq. lia.
  - apply NoDup_product.
    + apply NoDup_fmap_2_strong; [|apply NoDup_seq]. intros a b _ _ Hab. nia.
    + apply NoDup_fmap_2_strong; [|apply NoDup_seq]. intros a b _ _ Hab. lia.
    + apply NoDup_fmap_2_strong; [|apply NoDup_seq]. intros a b _ _ Hab. lia.
  - intros t y x (Ht & Hy & Hx)%elem_of_product.
    apply list_elem_of_fmap in Ht as (k & -> & Hk%elem_of_seq).
    apply list_elem_of_fmap in Hy as (j & -> & Hj%elem_of_seq).
    apply list_elem_of_fmap in Hx as (i & -> & Hi%elem_of_seq).
    split; [nia|]. split; [nia|]. lia.
  - intros k y x Hk Hy Hx.
    pose proof (product_lookup
      ((fun k : nat => Z.of_nat k * tl)
         <$> seq 0 (Z.to_nat (Z.of_nat T / tl)))
      (Z.of_nat <$> seq 0 Y) (Z.of_nat <$> seq 0 X) k y x
      (Z.of_nat k * tl) (Z.of_nat y) (Z.of_nat x)) as Hlook.
    rewrite !length_fmap, !length_seq in Hlook. apply Hlook.
    + rewrite list_lookup_fmap, lookup_seq_lt by lia. done.
    + rewrite list_lookup_fmap, lookup_seq_lt by lia. done.
    + rewrite list_lookup_fmap, lookup_seq_lt by lia. done.
Qed.

End SampleIndex.

Lemma positive_window_enumerates_toy :
  exposes toy 4 5 2 /\ 0 < 2 /\ Z.of_nat 4 mod 2 = 0 /\ enumerates toy 2 4 5 2.
Proof.
  assert (exposes toy 4 5 2) as Hds by (repeat split; reflexivity).
  split; [exact Hds|]. split; [lia|]. split; [reflexivity|].
  apply (positive_window_enumerates toy 2 4 5 2 Hds); [lia|reflexivity].
Defined.

(** C2, as stated, fails for a negative window length: [-2] evenly divides
    the time extent 4 of the toy dataset, construction succeeds, and the
    sample index is empty rather than of length [(4 / -2) * 5 * 2]. *)
Lemma negative_window_enumerates_nothing :
  mod_ 4 (-2) = Ok 0 /\
  (exists ix, __init__ toy (Some (-2)) = Ok ix /\ __len__ ix = 0) /\
  ~ enumerates toy (-2) 4 5 2.
Proof.
  assert (exposes toy 4 5 2) as Hds by (repeat split; reflexivity).
  pose proof (init_negative toy (-2) 4 5 2 Hds ltac:(lia) eq_refl) as Hneg.
  split; [reflexivity|]. split.
  - eexists. split; [exact Hneg|reflexivity].
  - intros (ix & Hinit & Hlen & _).
    rewrite Hneg in Hinit. injection Hinit as <-. discriminate Hlen.
Qed.

(** ** The window length argument *)

Section WindowLength.
Context `{Scalar}.

(** C3, as amended: for every dataset and every explicitly supplied
    non-zero [time_length] that does not evenly divide the time extent,
    construction fails with an assertion failure and produces no indexer. *)
Theorem nonzero_window_must_divide (ds : xr.Dataset) (tl : Z) (T Y X : nat) :
  exposes ds T Y X -> tl <> 0 -> Z.of_nat T mod tl <> 0 ->
  __init__ ds (Some tl) = Raise AssertionError.
Proof. apply init_not_dividing. Qed.

(** C7, as amended: for every dataset with a non-empty time axis,
    constructing the indexer without a window length sets [time_length] to
    the full time extent, the divisibility check passes, and the sample
    count is [num_y * num_x]. *)
Theorem default_window_is_full_extent (ds : xr.Dataset) (T Y X : nat) :
  exposes ds T Y X -> (0 < T)%nat -> defaults_to_full_extent ds T Y X.
Proof.
  intros Hds HT. eexists. split; [exact (init_default _ _ _ _ Hds HT)|].
  cbn [time_length built]. split; [reflexivity|]. split.
  - unfold mod_. destruct (Z.eqb_spec (Z.of_nat T) 0) as [|_]; [lia|].
    by rewrite Z_mod_same_full.
  - unfold __len__. cbn [indices built].
    rewrite product_length, !length_fmap, !length_seq. simpl. lia.
Qed.

Lemma len_of_raise (e e0 : exn) (ds : xr.Dataset) (d : string) :
  xr.len_of e ds d = Raise e0 -> e0 = e \/ e0 = TypeError.
Proof.
  unfold xr.len_of. destruct (xr.sizes ds !! d); [discriminate|].
  destruct (xr.data_vars ds !! NStr d) as [da|]; [|intros [= <-]; by left].
  destruct (np.shape (xr.values da)); [intros [= <-]; by right|discriminate].
Qed.

Lemma len_of_ok_indep (e e' : exn) (ds : xr.Dataset) (d : string) (n : Z) :
  xr.len_of e ds d = Ok n -> xr.len_of e' ds d = Ok n.
Proof.
  unfold xr.len_of. destruct (xr.sizes ds !! d); [done|].
  destruct (xr.data_vars ds !! NStr d) as [da|]; [|discriminate].
  by destruct (np.shape (xr.values da)).
Qed.

(** Without a window length, construction either succeeds or fails on a
    missing or unsized dimension, or on an empty time axis. *)
Lemma init_default_outcome (ds : xr.Dataset) :
  match __init__ ds None with
  | Ok _ => True
  | Raise e =>
      e = AttributeError \/ e = KeyError \/ e = TypeError \/ e = ValueError
  end.
Proof.
  unfold __init__, or_.
  destruct (xr.getattr_len ds "time") as [n|e] eqn:Hn.
  2:{ apply len_of_raise in Hn as [-> | ->]; simpl; auto. }
  rewrite bind_Ok. unfold setup_indices. cbn [data time_length].
  destruct (xr.getitem_len ds "x") as [lx|e] eqn:Hx.
  2:{ apply len_of_raise in Hx as [-> | ->]; simpl; auto. }
  rewrite bind_Ok.
  destruct (xr.getitem_len ds "y") as [ly|e] eqn:Hy.
  2:{ apply len_of_raise in Hy as [-> | ->]; simpl; auto. }
  rewrite bind_Ok.
  unfold xr.getitem_len. rewrite (len_of_ok_indep _ KeyError _ _ _ Hn).
  rewrite bind_Ok.
  change (range 0 lx 1) with (Ok ((fun k : nat => 0 + Z.of_nat k * 1)
    <$> seq 0 (Z.to_nat (range_len 0 lx 1)))).
  change (range 0 ly 1) with (Ok ((fun k : nat => 0 + Z.of_nat k * 1)
    <$> seq 0 (Z.to_nat (range_len 0 ly 1)))).
  rewrite !bind_Ok. unfold range, mod_.
  destruct (Z.eqb_spec n 0) as [|Hnz]; [simpl; auto|].
  rewrite !bind_Ok, Z_mod_same_full. exact I.
Qed.

(** C9: an explicit [time_length] of 0 raises neither a division error nor
    an assertion failure; it is replaced by the full time extent, so that
    construction behaves as if the argument had been omitted. *)
Theorem zero_window_is_omitted (ds : xr.Dataset) :
  __init__ ds (Some 0) = __init__ ds None /\
  __init__ ds (Some 0) <> Raise ZeroDivisionError /\
  __init__ ds (Some 0) <> Raise AssertionError /\
  (forall T Y X, exposes ds T Y X -> (0 < T)%nat ->
     exists ix, __init__ ds (Some 0) = Ok ix /\ time_length ix = Z.of_nat T).
Proof.
  assert (__init__ ds (Some 0) = __init__ ds None) as Heq by reflexivity.
  split; [exact Heq|]. rewrite Heq.
  pose proof (init_default_outcome ds) as Hout.
  split; [|split].
  - intros Hr. rewrite Hr in Hout. by destruct Hout as [|[|[|]]].
  - intros Hr. rewrite Hr in Hout. by destruct Hout as [|[|[|]]].
  - intros T Y X Hds HT. eexists.
    split; [exact (init_default _ _ _ _ Hds HT)|reflexivity].
Qed.

End WindowLength.

Lemma nonzero_window_must_divide_toy :
  exposes toy 4 5 2 /\ 3 <> 0 /\ Z.of_nat 4 mod 3 <> 0 /\
  __init__ toy (Some 3) = Raise AssertionError.
Proof.
  assert (exposes toy 4 5 2) as Hds by (repeat split; reflexivity).
  split; [exact Hds|]. split; [lia|]. split; [discriminate|].
  apply (nonzero_window_must_divide toy 3 4 5 2 Hds); [lia|discriminate].
Defined.

(** C3, as stated, fails for an explicit window length of 0: 0 does not
    evenly divide the time extent 4 of the toy dataset, and construction
    succeeds, with the window set to the full extent. *)
Lemma zero_window_is_accepted :
  mod_ 4 0 = Raise ZeroDivisionError /\
  exists ix,
    __init__ toy (Some 0) = Ok ix /\ time_length ix = 4 /\ __len__ ix = 10.
Proof.
  assert (exposes toy 4 5 2) as Hds by (repeat split; reflexivity).
  split; [reflexivity|]. eexists.
  split; [exact (init_default toy 4 5 2 Hds ltac:(lia))|].
  split; reflexivity.
Qed.

Lemma default_window_is_full_extent_toy :
  exposes toy 4 5 2 /\ (0 < 4)%nat /\ defaults_to_full_extent toy 4 5 2.
Proof.
  assert (exposes toy 4 5 2) as Hds by (repeat split; reflexivity).
  split; [exact Hds|]. split; [lia|].
  apply (default_window_is_full_extent toy 4 5 2 Hds). lia.
Defined.

(** C7, as stated, fails over an empty time axis: the window length
    defaults to 0 and building the time range raises [ValueError]. *)
Lemma empty_time_axis_is_rejected :
  exposes toy_empty_time 0 5 2 /\
  __init__ toy_empty_time None = Raise ValueError /\
  ~ defaults_to_full_extent toy_empty_time 0 5 2.
Proof.
  assert (__init__ toy_empty_time None = Raise ValueError) as Hinit
    by (vm_compute; reflexivity).
  split; [repeat split; reflexivity|]. split; [exact Hinit|].
  intros (ix & Hix & _). rewrite Hinit in Hix. discriminate Hix.
Qed.

Lemma zero_window_is_omitted_toy :
  exposes toy 4 5 2 /\ (0 < 4)%nat /\
  exists ix, __init__ toy (Some 0) = Ok ix /\ time_length ix = 4.
Proof.
  assert (exposes toy 4 5 2) as Hds by (repeat split; reflexivity).
  split; [exact Hds|]. split; [lia|].
  destruct (zero_window_is_omitted toy) as (_ & _ & _ & Hfull).
  apply (Hfull 4%nat 5%nat 2%nat Hds). lia.
Defined.

(** ** numpy indexing *)

Section ArrayFacts.
Context `{Scalar}.

Lemma axis_index_in_range (n : nat) (i : Z) :
  0 <= i < Z.of_nat n -> np.axis_index n i = Ok (Z.to_nat i).
Proof.
  intros Hi. unfold np.axis_index.
  destruct (Z.ltb_spec i 0); [lia|].
  destruct (Z.ltb_spec i 0); [lia|].
  destruct (Z.leb_spec (Z.of_nat n) i); [lia|]. reflexivity.
Qed.

Lemma slice_len_full (n : nat) : np.slice_len n None None = n.
Proof. unfold np.slice_len. simpl. lia. Qed.

(** A window that fits inside the axis has the length asked for. *)
Lemma slice_len_window (n : nat) (t tl : Z) :
  0 <= t -> 0 <= tl -> t + tl <= Z.of_nat n ->
  np.slice_len n (Some t) (Some (t + tl)) = Z.to_nat tl.
Proof.
  intros Ht Htl Hfit. unfold np.slice_len, np.slice_bound.
  destruct (Z.ltb_spec (t + tl) 0); [lia|].
  destruct (Z.ltb_spec t 0); [lia|]. lia.
Qed.

(** Indexing a profile field [(time, z, y, x)] at a column. *)
Lemma getitem_shape_profile (T Zn Y X : nat) (t tl y x : Z) :
  0 <= t -> 0 <= tl -> t + tl <= Z.of_nat T ->
  0 <= y < Z.of_nat Y -> 0 <= x < Z.of_nat X ->
  np.getitem_shape
    [np.Slice (Some t) (Some (t + tl)); np.Slice None None; np.Int y; np.Int x]
    [T; Zn; Y; X]
  = Ok [Z.to_nat tl; Zn].
Proof.
  intros Ht Htl Hfit Hy Hx. cbn [np.getitem_shape].
  rewrite (axis_index_in_range _ _ Hy), (axis_index_in_range _ _ Hx).
  rewrite !bind_Ok, slice_len_full, slice_len_window by done. reflexivity.
Qed.

(** Indexing a surface field [(time, y, x)] at a column, with a unit axis
    in place of [z]. *)
Lemma getitem_shape_surface (T Y X : nat) (t tl y x : Z) :
  0 <= t -> 0 <= tl -> t + tl <= Z.of_nat T ->
  0 <= y < Z.of_nat Y -> 0 <= x < Z.of_nat X ->
  np.getitem_shape
    [np.Slice (Some t) (Some (t + tl)); np.NewAxis; np.Int y; np.Int x]
    [T; Y; X]
  = Ok [Z.to_nat tl; 1%nat].
Proof.
  intros Ht Htl Hfit Hy Hx. cbn [np.getitem_shape].
  rewrite (axis_index_in_range _ _ Hy), (axis_index_in_range _ _ Hx).
  rewrite !bind_Ok, slice_len_window by done. reflexivity.
Qed.

(** [a[:, :, np.newaxis, np.newaxis]] on a two-axis array. *)
Lemma getitem_shape_pad (n m : nat) :
  np.getitem_shape
    [np.Slice None None; np.Slice None None; np.NewAxis; np.NewAxis] [n; m]
  = Ok [n; m; 1%nat; 1%nat].
Proof. cbn [np.getitem_shape]. rewrite !bind_Ok, !slice_len_full. done. Qed.

Lemma axis_index_lt (n : nat) (i : Z) (k : nat) :
  np.axis_index n i = Ok k -> (k < n)%nat.
Proof.
  unfold np.axis_index.
  destruct (i <? 0);
    (match goal with |- context [(?a <? 0) || (?b <=? ?c)] =>
       destruct (Z.ltb_spec a 0); destruct (Z.leb_spec b c) end);
    simpl; try discriminate; intros [= <-]; lia.
Qed.

Lemma slice_within_axis (n : nat) (start stop : option Z) :
  (np.slice_start n start + np.slice_len n start stop <= n)%nat.
Proof.
  unfold np.slice_start, np.slice_len, np.slice_bound.
  destruct start as [a|], stop as [b|];
    repeat (match goal with |- context [?v <? 0] =>
              destruct (Z.ltb_spec v 0) end); lia.
Qed.

Lemma chunk_length (sz k n : nat) (d : list scalar) :
  length d = (n * sz)%nat -> (k < n)%nat -> length (np.chunk sz k d) = sz.
Proof.
  intros Hd Hk. unfold np.chunk. rewrite length_take, length_drop. nia.
Qed.

(** Indexing keeps storage and shape in step: the result has as many
    elements as its shape announces. *)
Lemma getitem_flat_length (idx : list np.index_item) :
  forall (sh s : list nat) (d : list scalar),
    length d = np.size_of sh -> np.getitem_shape idx sh = Ok s ->
    length (np.getitem_flat idx sh d) = np.size_of s.
Proof.
  induction idx as [|[i|start stop|] idx IH]; intros sh s d Hd Hs.
  - injection Hs as <-. exact Hd.
  - destruct sh as [|n sh]; [discriminate Hs|]. cbn in Hs |- *.
    destruct (np.axis_index n i) as [k|e] eqn:Hk; [|discriminate Hs].
    apply (IH sh); [|exact Hs].
    apply (chunk_length _ _ n); [exact Hd|by apply (axis_index_lt n i)].
  - destruct sh as [|n sh]; [discriminate Hs|]. cbn in Hs |- *.
    destruct (np.getitem_shape idx sh) as [s'|e] eqn:Hs'; [|discriminate Hs].
    injection Hs as <-.
    rewrite (length_bind_uniform _ _ (np.size_of s')).
    + by rewrite length_seq.
    + intros k Hk%elem_of_seq. apply (IH sh); [|exact Hs'].
      apply (chunk_length _ _ n); [exact Hd|].
      pose proof (slice_within_axis n start stop). lia.
  - cbn in Hs |- *.
    destruct (np.getitem_shape idx sh) as [s'|e] eqn:Hs'; [|discriminate Hs].
    injection Hs as <-. rewrite (IH sh s' d Hd Hs'). simpl. lia.
Qed.

Lemma getitem_well_formed (a b : np.ndarray) (idx : list np.index_item) :
  np.well_formed a -> np.getitem a idx = Ok b -> np.well_formed b.
Proof.
  unfold np.well_formed, np.getitem. intros Ha Hb.
  apply bind_ok in Hb as (s & Hs & [= <-]). cbn.
  by apply getitem_flat_length.
Qed.

Lemma astype_well_formed (a : np.ndarray) (dt : dtype) :
  np.well_formed a -> np.well_formed (np.astype dt a).
Proof. unfold np.well_formed. cbn. by rewrite length_fmap. Qed.

Lemma full_well_formed (sh : list nat) (v : scalar) :
  np.well_formed (np.full sh v).
Proof. unfold np.well_formed. cbn. apply length_replicate. Qed.

End ArrayFacts.

(** ** Loops that fill a dictionary *)

Section DictLoops.
Context {V : Type}.
Variable skip : name -> bool.
Variable f : name -> result V.

Lemma fill_loop_inv (keys : list name) (out0 out : gmap name V) :
  for_ keys (fill skip f) out0 = Ok out ->
  forall key,
    (key ∈ keys -> skip key = false ->
       exists v, f key = Ok v /\ out !! key = Some v) /\
    (~ (key ∈ keys /\ skip key = false) -> out !! key = out0 !! key).
Proof.
  revert out0. induction keys as [|a keys IH]; intros out0 Hloop key.
  - injection Hloop as <-. split; [|done]. intros Hin. by inv Hin.
  - simpl in Hloop. apply bind_ok in Hloop as (out1 & Hbody & Hloop).
    destruct (IH _ Hloop key) as [IHin IHout]. unfold fill in Hbody.
    destruct (skip a) eqn:Hskip.
    + injection Hbody as <-. split.
      * intros Hin Hkey. apply IHin; [|done].
        apply elem_of_cons in Hin as [->|Hin]; [congruence|done].
      * intros Hnot. apply IHout. intros [Hin Hkey]. apply Hnot.
        split; [by right|done].
    + apply bind_ok in Hbody as (v & Hv & [= <-]).
      destruct (decide (key ∈ keys)) as [Hin|Hnin].
      * split; [intros _ Hkey; by apply IHin|].
        intros Hnot.
        assert (~ (key ∈ keys /\ skip key = false)) as Hnot'
          by (intros [? ?]; apply Hnot; split; [by right|done]).
        rewrite (IHout Hnot').
        apply lookup_insert_ne. intros ->. apply Hnot. split; [by left|done].
      * split.
        -- intros Hin _. apply elem_of_cons in Hin as [->|Hin]; [|done].
           exists v. split; [done|]. rewrite IHout by (by intros [? _]).
           apply lookup_insert_eq.
        -- intros Hnot. rewrite IHout by (by intros [? _]).
           apply lookup_insert_ne. intros ->. apply Hnot.
           split; [by left|done].
Qed.

Lemma fill_loop_ok (keys : list name) (out0 : gmap name V) :
  (forall key, key ∈ keys -> skip key = false -> is_ok (f key)) ->
  is_ok (for_ keys (fill skip f) out0).
Proof.
  revert out0. induction keys as [|a keys IH]; intros out0 Hok; [exact I|].
  cbn [for_]. destruct (fill skip f a out0) as [out1|e] eqn:Hfill.
  - rewrite bind_Ok. apply IH. intros key Hin. apply Hok. by right.
  - exfalso. unfold fill in Hfill.
    destruct (skip a) eqn:Hskip; [discriminate|].
    pose proof (Hok a ltac:(by left) Hskip) as Ha.
    destruct (f a) as [v|e']; [discriminate|done].
Qed.

End DictLoops.

(** ** Sample retrieval *)

Section Retrieval.
Context `{Scalar}.

Lemma no_overlap_spec (d : list string) :
  no_overlap d = true <->
  ({[ "x"; "y"; "time" ]} : gset string) ∩ list_to_set d = ∅.
Proof.
  unfold no_overlap. rewrite bool_decide_eq_true, size_empty_iff.
  apply leibniz_equiv_iff.
Qed.

Lemma constants_built (ds : xr.Dataset) (tl : Z) (l : list (Z * Z * Z))
  (key : name) :
  key ∈ constants (built ds tl l) <->
  exists da, xr.data_vars ds !! key = Some da /\ no_overlap (xr.dims da) = true.
Proof.
  cbn [constants built]. rewrite elem_of_dom. unfold is_Some.
  by setoid_rewrite map_lookup_filter_Some.
Qed.

Lemma getitem_body_fill (self : t) (t y x : Z) :
  getitem_body self t y x
  = fill (fun key => bool_decide (key ∈ constants self))
      (sample_of self t y x).
Proof. reflexivity. Qed.

(** The array of one variable of a conforming dataset, at a window that
    fits and a column inside the grid. *)
Lemma sample_of_canonical (ds : xr.Dataset) (tl : Z) (l : list (Z * Z * Z))
  (key : name) (da : xr.DataArray) (T Y X : nat) (t y x : Z) :
  exposes ds T Y X ->
  xr.data_vars ds !! key = Some da -> xr.aligned ds da ->
  xr.dims da = ["time"; "z"; "y"; "x"] \/ xr.dims da = ["time"; "y"; "x"] ->
  0 <= t -> 0 < tl -> t + tl <= Z.of_nat T ->
  0 <= y < Z.of_nat Y -> 0 <= x < Z.of_nat X ->
  exists a,
    sample_of (built ds tl l) t y x key = Ok a /\
    np.dtype_of a = float32 /\
    (forall Zn, "z" ∈ xr.dims da -> xr.sizes ds !! "z" = Some Zn ->
       np.shape a = [Z.to_nat tl; Zn; 1; 1]%nat) /\
    ("z" ∉ xr.dims da -> np.shape a = [Z.to_nat tl; 1; 1; 1]%nat).
Proof.
  intros (HT & HY & HX) Hda Halign Hdims Ht Htl Hfit Hy Hx.
  unfold xr.aligned in Halign.
  assert (forall n m,
    np.getitem_shape (this_array_index (built ds tl l) (xr.dims da) t y x)
      (np.shape (xr.values da)) = Ok [n; m] ->
    exists a,
      sample_of (built ds tl l) t y x key = Ok a /\
      np.dtype_of a = float32 /\
      np.shape a = [n; m; 1; 1]%nat) as Hsample.
  { intros n m Hsh. eexists. split; [|split].
    - unfold sample_of, dict_getitem. cbn [numpy_data dims built].
      rewrite !lookup_fmap, Hda. cbn [fmap option_fmap option_map].
      rewrite !bind_Ok. unfold np.getitem.
      rewrite Hsh, !bind_Ok. simpl np.shape.
      rewrite getitem_shape_pad, !bind_Ok. reflexivity.
    - reflexivity.
    - reflexivity. }
  unfold this_array_index in Hsample. cbn [time_length built] in Hsample.
  destruct Hdims as [Hd|Hd]; rewrite Hd in *.
  - rewrite bool_decide_eq_true_2 in Hsample
      by (rewrite !elem_of_cons; auto).
    simpl in Halign. rewrite HT, HY, HX in Halign.
    destruct (xr.sizes ds !! "z") as [Zn|] eqn:HZ; [|discriminate].
    injection Halign as Hshape.
    destruct (Hsample (Z.to_nat tl) Zn) as (a & Ha & Hdt & Hsh).
    { rewrite <- Hshape. apply getitem_shape_profile; done || lia. }
    exists a. split; [done|]. split; [done|]. split.
    + by intros Zn' _ [= <-].
    + intros Hz. exfalso. apply Hz. rewrite !elem_of_cons. auto.
  - rewrite bool_decide_eq_false_2 in Hsample
      by (rewrite !elem_of_cons, elem_of_nil; intros [|[|[|]]]; done).
    simpl in Halign. rewrite HT, HY, HX in Halign.
    injection Halign as Hshape.
    destruct (Hsample (Z.to_nat tl) 1%nat) as (a & Ha & Hdt & Hsh).
    { rewrite <- Hshape. apply getitem_shape_surface; done || lia. }
    exists a. split; [done|]. split; [done|]. split.
    + intros Zn' Hz. exfalso. revert Hz.
      rewrite !elem_of_cons, elem_of_nil. intros [|[|[|]]]; done.
    + done.
Qed.

(** A sample cut out of a well-formed array is well formed. *)
Lemma sample_of_well_formed (self : t) (t y x : Z) (key : name)
  (data_array a : np.ndarray) :
  numpy_data self !! key = Some data_array -> np.well_formed data_array ->
  sample_of self t y x key = Ok a -> np.well_formed a.
Proof.
  intros Hkey Hwf Ha. unfold sample_of, dict_getitem in Ha.
  rewrite Hkey, bind_Ok in Ha.
  apply bind_ok in Ha as (key_dims & _ & Ha).
  apply bind_ok in Ha as (window & Hwindow & Ha).
  apply bind_ok in Ha as (sample & Hsample & [= <-]).
  apply astype_well_formed.
  apply (getitem_well_formed _ _ _ (getitem_well_formed _ _ _ Hwf Hwindow)
           Hsample).
Qed.

Lemma init_exposed_inv (ds : xr.Dataset) (window : option Z) (ix : t)
  (T Y X : nat) :
  exposes ds T Y X -> __init__ ds window = Ok ix ->
  exists tl t_iter,
    ix = built ds tl
           (product t_iter (Z.of_nat <$> seq 0 Y) (Z.of_nat <$> seq 0 X)) /\
    range 0 (Z.of_nat T) tl = Ok t_iter /\
    tl <> 0 /\ Z.of_nat T mod tl = 0.
Proof.
  intros Hds Hinit. rewrite (init_exposed _ _ _ _ _ Hds) in Hinit.
  cbv zeta in Hinit. set (tl := effective_time_length window T) in *.
  apply bind_ok in Hinit as (t_iter & Hrange & Hinit).
  apply bind_ok in Hinit as (m & Hmod & Hinit).
  apply bind_ok in Hinit as ([] & Hassert & [= <-]).
  assert (tl <> 0) as Hnz by (intros Hz; rewrite Hz in Hrange; discriminate).
  exists tl, t_iter. split; [reflexivity|]. split; [done|]. split; [done|].
  unfold mod_ in Hmod. destruct (Z.eqb_spec tl 0); [done|].
  injection Hmod as <-. unfold assert_ in Hassert.
  destruct (Z.eqb_spec (Z.of_nat T mod tl) 0); [done|discriminate].
Qed.

(** Every entry of the sample index is the start of a window that fits in
    the time axis, at a column inside the grid. *)
Lemma indices_in_bounds (ds : xr.Dataset) (window : option Z) (ix : t)
  (T Y X : nat) (t y x : Z) :
  exposes ds T Y X -> __init__ ds window = Ok ix ->
  (t, y, x) ∈ indices ix ->
  0 < time_length ix /\ 0 <= t /\ t + time_length ix <= Z.of_nat T /\
  0 <= y < Z.of_nat Y /\ 0 <= x < Z.of_nat X.
Proof.
  intros Hds Hinit Hin.
  destruct (init_exposed_inv _ _ _ _ _ _ Hds Hinit)
    as (tl & t_iter & -> & Hrange & Hnz & Hmod).
  cbn [indices time_length built] in *.
  apply elem_of_product in Hin as (Ht & Hy & Hx).
  apply list_elem_of_fmap in Hy as (j & -> & Hj%elem_of_seq).
  apply list_elem_of_fmap in Hx as (i & -> & Hi%elem_of_seq).
  destruct (Z.lt_ge_cases tl 0) as [Hneg|Hpos].
  - rewrite range_negative_stride in Hrange by done.
    injection Hrange as <-. by inv Ht.
  - rewrite range_stride in Hrange by (done || lia).
    injection Hrange as <-.
    apply list_elem_of_fmap in Ht as (k & -> & Hk%elem_of_seq).
    pose proof (Z.div_exact (Z.of_nat T) tl Hnz) as [_ HT].
    specialize (HT Hmod).
    assert (0 <= Z.of_nat T / tl) by (apply Z.div_pos; lia).
    split; [lia|]. split; [nia|]. split; [nia|]. lia.
Qed.

End Retrieval.

Section RetrievalClaims.
Context `{Scalar}.

Lemma conforming_time_varying (ds : xr.Dataset) (tl : Z)
  (l : list (Z * Z * Z)) (key : name) (da : xr.DataArray) :
  conforming ds -> xr.data_vars ds !! key = Some da ->
  key ∉ constants (built ds tl l) ->
  xr.aligned ds da /\
  (xr.dims da = ["time"; "z"; "y"; "x"] \/ xr.dims da = ["time"; "y"; "x"]).
Proof.
  intros Hconf Hda Hkey.
  destruct (map_Forall_lookup_1 _ _ _ _ Hconf Hda) as [Hdims Halign].
  split; [done|]. unfold allowed_dims in Hdims.
  destruct (no_overlap (xr.dims da)) eqn:Hno.
  - exfalso. apply Hkey. apply constants_built. eauto.
  - simpl in Hdims. apply orb_true_iff in Hdims as [Hd|Hd];
      apply bool_decide_eq_true in Hd; auto.
Qed.

(** C1: for every valid sample index and every time-varying variable of a
    dataset laid out as the class documents, retrieval returns a 4-axis
    single-precision array, of shape [(time_length, z_extent, 1, 1)] when
    the variable declares [z] and [(time_length, 1, 1, 1)] otherwise. *)
Theorem sample_has_canonical_shape (ds : xr.Dataset) (window : option Z)
  (ix : t) (T Y X : nat) (i : Z) :
  exposes ds T Y X -> conforming ds ->
  __init__ ds window = Ok ix -> 0 <= i < __len__ ix ->
  exists out,
    __getitem__ ix i = Ok out /\
    0 < time_length ix /\
    forall key da,
      xr.data_vars ds !! key = Some da -> key ∉ constants ix ->
      exists a,
        out !! key = Some a /\
        np.dtype_of a = float32 /\
        (forall Zn, "z" ∈ xr.dims da -> xr.sizes ds !! "z" = Some Zn ->
           np.shape a = [Z.to_nat (time_length ix); Zn; 1; 1]%nat) /\
        ("z" ∉ xr.dims da ->
           np.shape a = [Z.to_nat (time_length ix); 1; 1; 1]%nat).
Proof.
  intros Hds Hconf Hinit Hi.
  destruct (list_getitem_in_range (indices ix) i Hi) as ([[t y] x] & Hget & Hl).
  apply list_elem_of_lookup_2 in Hl.
  destruct (indices_in_bounds _ _ _ _ _ _ _ _ _ Hds Hinit Hl)
    as (Htl & Ht & Hfit & Hy & Hx).
  destruct (init_ok_inv _ _ _ Hinit) as (tl & l & -> & _).
  cbn [time_length built] in *.
  assert (forall key da,
    xr.data_vars ds !! key = Some da -> key ∉ constants (built ds tl l) ->
    exists a,
      sample_of (built ds tl l) t y x key = Ok a /\
      np.dtype_of a = float32 /\
      (forall Zn, "z" ∈ xr.dims da -> xr.sizes ds !! "z" = Some Zn ->
         np.shape a = [Z.to_nat tl; Zn; 1; 1]%nat) /\
      ("z" ∉ xr.dims da -> np.shape a = [Z.to_nat tl; 1; 1; 1]%nat))
    as Hsample.
  { intros key da Hda Hkey.
    destruct (conforming_time_varying _ _ _ _ _ Hconf Hda Hkey)
      as [Halign Hdims].
    by apply (sample_of_canonical ds tl l key da T Y X). }
  unfold __getitem__. rewrite Hget, bind_Ok. cbv beta iota.
  rewrite getitem_body_fill.
  match goal with |- context [for_ ?ks (fill ?skip ?f) ?s0] =>
    pose proof (fill_loop_ok skip f ks s0) as Hok;
    pose proof (fill_loop_inv skip f ks s0) as Hloop;
    destruct (for_ ks (fill skip f) s0) as [out|e] eqn:Hfor
  end; cbn [data_vars built] in Hok, Hloop.
  2:{ exfalso. apply Hok. intros key Hin Hskip.
      apply elem_of_elements, elem_of_dom in Hin as [da Hda].
      apply bool_decide_eq_false in Hskip.
      destruct (Hsample key da Hda Hskip) as (a & -> & _). exact I. }
  exists out. split; [done|]. split; [done|].
  intros key da Hda Hkey.
  destruct (Hloop out eq_refl key) as [Hin _].
  destruct Hin as (a & Ha & Hout).
  { apply elem_of_elements, elem_of_dom. eauto. }
  { by apply bool_decide_eq_false. }
  destruct (Hsample key da Hda Hkey) as (a' & Ha' & Hdt & Hz & Hnz).
  rewrite Ha in Ha'. injection Ha' as <-.
  exists a. done.
Qed.

(** C4, as amended: retrieval fails with an out-of-bounds error for every
    index [i >= len] or [i < -len]; an index in [[-len, 0)] is read from
    the end, as [i + len]; retrieval succeeds only for indices in
    [[-len, len)]. *)
Theorem retrieval_index_range (self : t) (i : Z) :
  (i < - __len__ self \/ __len__ self <= i ->
     __getitem__ self i = Raise IndexError) /\
  (- __len__ self <= i < 0 ->
     __getitem__ self i = __getitem__ self (i + __len__ self)) /\
  (is_ok (__getitem__ self i) -> - __len__ self <= i < __len__ self).
Proof.
  unfold __getitem__, __len__. split; [|split].
  - intros Hi. by rewrite list_getitem_out_of_range.
  - intros Hi. by rewrite list_getitem_wrap.
  - intros Hok.
    destruct (list_getitem (indices self) i) as [tyx|e] eqn:Hget; [|done].
    by apply list_getitem_ok in Hget as [Hi _].
Qed.

(** C5: a variable is classified as constant exactly when its dimension
    set does not meet [{time, x, y}]; the result of a retrieval holds the
    variables that are not constant, and no constant. *)
Theorem constants_are_excluded (ds : xr.Dataset) (window : option Z) (ix : t) :
  __init__ ds window = Ok ix ->
  (forall key,
     key ∈ constants ix <->
     exists da, xr.data_vars ds !! key = Some da /\
       ({[ "x"; "y"; "time" ]} : gset string) ∩ list_to_set (xr.dims da) = ∅) /\
  (forall i out,
     0 <= i < __len__ ix -> __getitem__ ix i = Ok out ->
     dom out = dom (xr.data_vars ds) ∖ constants ix /\
     forall key, key ∈ constants ix -> out !! key = None).
Proof.
  intros Hinit. destruct (init_ok_inv _ _ _ Hinit) as (tl & l & -> & _).
  split.
  - intros key. rewrite constants_built.
    by setoid_rewrite no_overlap_spec.
  - intros i out _ Hget. unfold __getitem__ in Hget.
    apply bind_ok in Hget as ([[t y] x] & _ & Hfor).
    rewrite getitem_body_fill in Hfor.
    pose proof (fill_loop_inv _ _ _ _ _ Hfor) as Hloop.
    cbn [data_vars built] in Hloop.
    assert (forall key, key ∈ constants (built ds tl l) -> out !! key = None)
      as Hconst.
    { intros key Hkey. destruct (Hloop key) as [_ Hout].
      rewrite Hout; [done|].
      intros [_ Hskip]. by apply bool_decide_eq_false in Hskip. }
    split; [|done]. apply set_eq. intros key.
    rewrite elem_of_difference, !elem_of_dom. split.
    + intros Hsome. split.
      * destruct (decide (key ∈ elements (dom (xr.data_vars ds))))
          as [Hin|Hnin]; [by apply elem_of_elements, elem_of_dom in Hin|].
        destruct (Hloop key) as [_ Hout]. rewrite Hout in Hsome.
        -- by apply is_Some_None in Hsome.
        -- by intros [? _].
      * intros Hkey. rewrite (Hconst key Hkey) in Hsome.
        by apply is_Some_None in Hsome.
    + intros [Hin Hkey]. destruct (Hloop key) as [Hfill _].
      destruct Hfill as (a & _ & ->); [|by apply bool_decide_eq_false|done].
      by apply elem_of_elements, elem_of_dom.
Qed.

End RetrievalClaims.

(** The toy datasets are laid out as the class documents. *)
Lemma toy_exposed : exposes toy 4 5 2.
Proof. repeat split; reflexivity. Qed.

Lemma toy_conforming : conforming toy.
Proof.
  apply map_Forall_insert_2; [|apply map_Forall_singleton];
    (split; [by vm_compute|reflexivity]).
Qed.

Lemma toy_with_constant_conforming : conforming toy_with_constant.
Proof.
  repeat apply map_Forall_insert_2; [..|apply map_Forall_empty];
    (split; [by vm_compute|reflexivity]).
Qed.

Lemma toy_with_constant_exposed : exposes toy_with_constant 4 5 2.
Proof. repeat split; reflexivity. Qed.

Lemma toy_with_constant_init :
  __init__ toy_with_constant (Some 4) = Ok (toy_indexer toy_with_constant).
Proof.
  exact (init_positive _ 4 4 5 2 toy_with_constant_exposed
           ltac:(lia) eq_refl).
Qed.

Lemma toy_init : __init__ toy (Some 4) = Ok (toy_indexer toy).
Proof. exact (init_positive _ 4 4 5 2 toy_exposed ltac:(lia) eq_refl). Qed.

Lemma toy_c_is_constant : NStr "c" ∈ constants (toy_indexer toy_with_constant).
Proof.
  apply constants_built. eexists. split; [reflexivity|]. by vm_compute.
Qed.

Lemma toy_names_are_strings (key : name) :
  key ∈ dom (xr.data_vars toy) -> exists s, key = NStr s.
Proof.
  intros [da Hda]%elem_of_dom.
  unfold toy, get_xarray_dataset in Hda. cbn [xr.data_vars] in Hda.
  apply lookup_insert_Some in Hda as [[<- _]|[_ Hda]]; [eauto|].
  apply lookup_singleton_Some in Hda as [<- _]. eauto.
Qed.

Lemma sample_has_canonical_shape_toy :
  exists ix out a b,
    __init__ toy (Some 4) = Ok ix /\
    __getitem__ ix 0 = Ok out /\
    out !! NStr "a" = Some a /\ np.dtype_of a = float32 /\
    np.shape a = [4; 4; 1; 1]%nat /\
    out !! NStr "b" = Some b /\ np.dtype_of b = float32 /\
    np.shape b = [4; 1; 1; 1]%nat.
Proof.
  pose proof (init_positive toy 4 4 5 2 toy_exposed ltac:(lia) eq_refl)
    as Hinit.
  match type of Hinit with _ = Ok ?v => set (ix := v) in * end.
  assert (0 <= 0 < __len__ ix) as Hi by (split; [done|by vm_compute]).
  destruct (sample_has_canonical_shape toy (Some 4) ix 4 5 2 0
              toy_exposed toy_conforming Hinit Hi) as (out & Hget & _ & Hvars).
  destruct (Hvars (NStr "a") {| xr.dims := dims_3d; xr.values := @data_3d Z_scalar 1 |})
    as (a & Ha & Hda & Hza & _); [reflexivity|by vm_compute|].
  destruct (Hvars (NStr "b") {| xr.dims := dims_2d; xr.values := @data_2d Z_scalar 1 |})
    as (b & Hb & Hdb & _ & Hzb); [reflexivity|by vm_compute|].
  exists ix, out, a, b. split; [exact Hinit|]. split; [exact Hget|].
  split; [exact Ha|]. split; [exact Hda|]. split.
  { apply (Hza 4%nat); [by_decide|reflexivity]. }
  split; [exact Hb|]. split; [exact Hdb|].
  apply Hzb. by_decide.
Defined.

Lemma retrieval_index_range_toy :
  exists ix,
    __init__ toy (Some 4) = Ok ix /\
    __getitem__ ix 10 = Raise IndexError /\
    __getitem__ ix (-1) = __getitem__ ix 9.
Proof.
  pose proof (init_positive toy 4 4 5 2 toy_exposed ltac:(lia) eq_refl)
    as Hinit.
  match type of Hinit with _ = Ok ?v => set (ix := v) in * end.
  exists ix. split; [exact Hinit|].
  destruct (retrieval_index_range ix 10) as (Hout & _ & _).
  destruct (retrieval_index_range ix (-1)) as (_ & Hwrap & _).
  split.
  - apply Hout. right. by vm_compute.
  - apply Hwrap. split; [by vm_compute|done].
Defined.

(** C4, as stated, fails for a negative index: [-1] lies outside
    [[0, len)] and retrieval returns the last sample. *)
Lemma negative_index_is_accepted :
  exists ix out,
    __init__ toy (Some 4) = Ok ix /\
    __len__ ix = 10 /\ ~ (0 <= -1 /\ -1 < __len__ ix) /\
    __getitem__ ix (-1) = Ok out /\
    __getitem__ ix (-1) = __getitem__ ix 9.
Proof.
  assert (__getitem__ (toy_indexer toy) (-1) = __getitem__ (toy_indexer toy) 9)
    as Hwrap by (unfold __getitem__; by rewrite list_getitem_wrap).
  destruct (__getitem__ (toy_indexer toy) 9) as [out|e] eqn:Hget;
    [|vm_compute in Hget; discriminate Hget].
  exists (toy_indexer toy), out. split; [exact toy_init|].
  split; [reflexivity|]. split; [lia|]. split; [exact Hwrap|].
  by rewrite Hwrap.
Qed.

Lemma constants_are_excluded_toy :
  exists ix out,
    __init__ toy_with_constant (Some 4) = Ok ix /\
    __getitem__ ix 0 = Ok out /\
    (NStr "c" ∈ constants ix) /\ (NStr "a" ∉ constants ix) /\
    out !! NStr "c" = None.
Proof.
  set (ix := toy_indexer toy_with_constant).
  destruct (__getitem__ ix 0) as [out|e] eqn:Hget;
    [|vm_compute in Hget; discriminate Hget].
  destruct (constants_are_excluded toy_with_constant (Some 4) ix
              toy_with_constant_init) as [Hclass Hout].
  destruct (Hout 0 out) as [_ Hnone]; [by vm_compute|exact Hget|].
  assert (NStr "c" ∈ constants ix) as Hc.
  { apply Hclass. eexists. split; [reflexivity|].
    apply no_overlap_spec. by vm_compute. }
  exists ix, out. split; [exact toy_with_constant_init|].
  split; [exact Hget|].
  split; [exact Hc|]. split; [|exact (Hnone _ Hc)].
  intros Ha. apply Hclass in Ha as (da & Hda & Hno).
  injection Hda as <-. apply no_overlap_spec in Hno. by vm_compute in Hno.
Defined.

(** ** The accessors *)

Section Accessors.
Context `{Scalar}.

Lemma torch_constants_body_fill (globals : list string) (self : t)
  (key : name) (out : gmap name torch.Tensor) :
  "torch" ∈ globals ->
  torch_constants_body globals self key out
  = fill (fun _ => false)
      (fun key => da ← xr.getitem (data self) key; Ok (constant_tensor da))
      key out.
Proof.
  intros Hbound. unfold torch_constants_body, fill, global.
  rewrite bool_decide_eq_true_2 by done. rewrite bind_Ok.
  by destruct (xr.getitem (data self) key).
Qed.

(** With the name [torch] bound, [torch_constants] returns the mapping
    from each constant variable to its whole array as a single-precision
    tensor that does not track gradients. *)
Lemma torch_constants_bound (globals : list string) (ds : xr.Dataset)
  (window : option Z) (ix : t) :
  "torch" ∈ globals -> __init__ ds window = Ok ix ->
  exists m,
    torch_constants globals ix = Ok m /\
    dom m = constants ix /\
    forall key da,
      key ∈ constants ix -> xr.data_vars ds !! key = Some da ->
      m !! key = Some (constant_tensor da) /\
      torch.dtype_of (constant_tensor da) = float32 /\
      torch.shape (constant_tensor da) = np.shape (xr.values da) /\
      torch.flat (constant_tensor da) = cast float32 <$> np.flat (xr.values da) /\
      torch.requires_grad (constant_tensor da) = false.
Proof.
  intros Hbound Hinit. destruct (init_ok_inv _ _ _ Hinit) as (tl & l & -> & _).
  unfold torch_constants.
  rewrite (for_ext _ _
    (fill (fun _ => false)
       (fun key => da ← xr.getitem (data (built ds tl l)) key;
                   Ok (constant_tensor da))) _
    (fun key out _ => torch_constants_body_fill globals _ key out Hbound)).
  match goal with |- context [for_ ?ks (fill ?skip ?f) ?s0] =>
    pose proof (fill_loop_ok skip f ks s0) as Hok;
    pose proof (fill_loop_inv skip f ks s0) as Hloop;
    destruct (for_ ks (fill skip f) s0) as [m|e] eqn:Hfor
  end; cbn [data built] in Hok, Hloop.
  2:{ exfalso. apply Hok. intros key Hin _.
      apply elem_of_elements, constants_built in Hin as (da & Hda & _).
      unfold xr.getitem, dict_getitem. by rewrite Hda. }
  specialize (Hloop m eq_refl).
  assert (forall key da,
    key ∈ constants (built ds tl l) -> xr.data_vars ds !! key = Some da ->
    m !! key = Some (constant_tensor da)) as Hm.
  { intros key da Hkey Hda. destruct (Hloop key) as [Hin _].
    destruct Hin as (v & Hv & ->); [by apply elem_of_elements|done|].
    unfold xr.getitem, dict_getitem in Hv. rewrite Hda in Hv.
    by injection Hv as <-. }
  exists m. split; [done|]. split.
  - apply set_eq. intros key. rewrite elem_of_dom. split.
    + intros Hsome.
      destruct (decide (key ∈ constants (built ds tl l))) as [|Hnin]; [done|].
      destruct (Hloop key) as [_ Hout]. rewrite Hout in Hsome.
      * by apply is_Some_None in Hsome.
      * intros [Hin _]. by apply elem_of_elements in Hin.
    + intros Hkey. pose proof Hkey as (da & Hda & _)%constants_built.
      rewrite (Hm key da Hkey Hda). eauto.
  - intros key da Hkey Hda. split; [by apply Hm|done].
Qed.

(** C6, on the code: the notebook never binds the name [torch], so with any
    constant variable present [torch_constants] raises [NameError] instead
    of returning the mapping; with none it returns the empty mapping. *)
Theorem torch_constants_unbound (self : t) :
  (constants self <> ∅ ->
     torch_constants notebook_globals self = Raise NameError) /\
  (constants self = ∅ -> torch_constants notebook_globals self = Ok ∅).
Proof.
  unfold torch_constants. split.
  - intros Hne. destruct (elements (constants self)) as [|key keys] eqn:Hel.
    + by apply elements_empty_inv, leibniz_equiv_iff in Hel.
    + reflexivity.
  - intros ->. by rewrite elements_empty.
Qed.

(** The result of [valmap] over a dictionary on which [f] never raises. *)
Lemma valmap_ok {A B} (f : A -> result B) (d : gmap name A) :
  (forall key a, d !! key = Some a -> is_ok (f a)) ->
  exists m,
    valmap f d = Ok m /\
    forall key, Ok <$> m !! key = f <$> d !! key.
Proof.
  intros Hf. unfold valmap.
  rewrite (for_ext _ _
    (fill (fun _ => false) (fun key => a ← dict_getitem d key; f a))).
  2:{ intros key out _. unfold fill, dict_getitem.
      by destruct (d !! key) as [a|]. }
  match goal with |- context [for_ ?ks (fill ?skip ?f) ?s0] =>
    pose proof (fill_loop_ok skip f ks s0) as Hok;
    pose proof (fill_loop_inv skip f ks s0) as Hloop;
    destruct (for_ ks (fill skip f) s0) as [m|e] eqn:Hfor
  end.
  2:{ exfalso. apply Hok. intros key Hin _.
      apply elem_of_elements, elem_of_dom in Hin as [a Ha].
      unfold dict_getitem. rewrite Ha. simpl. by apply (Hf key). }
  exists m. split; [done|]. intros key.
  destruct (Hloop m eq_refl key) as [Hin Hout].
  destruct (d !! key) as [a|] eqn:Ha.
  - destruct Hin as (v & Hv & ->); [|done|].
    { apply elem_of_elements, elem_of_dom. eauto. }
    unfold dict_getitem in Hv. rewrite Ha in Hv. simpl in Hv.
    simpl. by rewrite Hv.
  - rewrite Hout; [done|]. intros [Hin' _].
    apply elem_of_elements, elem_of_dom in Hin' as [a' Ha'].
    by rewrite Ha in Ha'.
Qed.

(** What [scale] would do were the name [valmap] bound: a constructed
    indexer has no [std] and [scale] raises; once a per-variable [std] of
    non-empty arrays is supplied, [scale] returns, per variable, the
    largest value of that variable's [std]. *)
Lemma scale_bound (ds : xr.Dataset) (window : option Z) (ix : t) :
  __init__ ds window = Ok ix ->
  (forall globals, scale globals ix = Raise AttributeError) /\
  (forall globals s,
     "valmap" ∈ globals ->
     (forall key a, s !! key = Some a -> np.flat a <> []) ->
     exists m,
       scale globals (set_std ix s) = Ok m /\
       forall key, Some <$> m !! key = largest <$> s !! key).
Proof.
  intros Hinit. destruct (init_ok_inv _ _ _ Hinit) as (tl & l & -> & _).
  split; [reflexivity|].
  intros globals s Hbound Hne. unfold scale, global.
  cbn [getattr_std std set_std]. rewrite bind_Ok.
  rewrite bool_decide_eq_true_2 by done. rewrite bind_Ok.
  destruct (valmap_ok np.max s) as (m & -> & Hm).
  { intros key a Ha. unfold np.max. pose proof (Hne key a Ha).
    by destruct (np.flat a). }
  exists m. split; [reflexivity|]. intros key. specialize (Hm key).
  destruct (s !! key) as [a|] eqn:Ha; destruct (m !! key) as [b|];
    try discriminate Hm; [|done].
  simpl in *. unfold largest. unfold np.max in Hm.
  destruct (np.flat a); [discriminate Hm|]. by injection Hm as ->.
Qed.

(** C8, on the code: a constructed indexer has no [std], so [scale] cannot
    produce a result without it; but the notebook never binds the name
    [valmap] either, so with a [std] supplied [scale] raises [NameError]
    instead of returning the per-variable maxima. *)
Theorem scale_unbound (ds : xr.Dataset) (window : option Z) (ix : t) :
  __init__ ds window = Ok ix ->
  (forall globals, scale globals ix = Raise AttributeError) /\
  (forall s, scale notebook_globals (set_std ix s) = Raise NameError).
Proof.
  intros Hinit. destruct (init_ok_inv _ _ _ Hinit) as (tl & l & -> & _).
  split.
  - intros globals. unfold scale, getattr_std. cbn [std built]. reflexivity.
  - intros s. unfold scale, getattr_std. cbn [std set_std]. rewrite bind_Ok.
    unfold global. rewrite bool_decide_eq_false_2; [reflexivity|].
    unfold notebook_globals. intros Hin.
    repeat (apply elem_of_cons in Hin as [Hin|Hin]; [discriminate Hin|]).
    by apply elem_of_nil in Hin.
Qed.

(** C10: [time_dim] looks up the integer key 0 among the variables; when
    every variable has a string name it fails with a lookup error, and it
    returns a value only if a variable is named 0, namely that variable's
    first dimension. *)
Theorem time_dim_looks_up_zero (ds : xr.Dataset) (window : option Z) (ix : t) :
  __init__ ds window = Ok ix ->
  ((forall key, key ∈ dom (xr.data_vars ds) -> exists s, key = NStr s) ->
     time_dim ix = Raise KeyError) /\
  (forall d, time_dim ix = Ok d ->
     exists da, xr.data_vars ds !! NInt 0 = Some da /\
       head (xr.dims da) = Some d).
Proof.
  intros Hinit. destruct (init_ok_inv _ _ _ Hinit) as (tl & l & -> & _).
  unfold time_dim, dict_getitem. cbn [dims built]. rewrite lookup_fmap.
  split.
  - intros Hnames. destruct (xr.data_vars ds !! NInt 0) as [da|] eqn:Hda;
      [|reflexivity].
    destruct (Hnames (NInt 0)) as [s Hs]; [|discriminate Hs].
    apply elem_of_dom. eauto.
  - intros d Hd. destruct (xr.data_vars ds !! NInt 0) as [da|];
      [|discriminate Hd].
    exists da. split; [reflexivity|]. simpl in Hd.
    apply list_getitem_ok in Hd as [_ Hd]. simpl in Hd.
    by destruct (xr.dims da).
Qed.

End Accessors.

Lemma torch_constants_unbound_toy :
  exists ix,
    __init__ toy_with_constant (Some 4) = Ok ix /\
    constants ix <> ∅ /\
    torch_constants notebook_globals ix = Raise NameError.
Proof.
  exists (toy_indexer toy_with_constant).
  assert (constants (toy_indexer toy_with_constant) <> ∅) as Hne.
  { intros Hempty. pose proof toy_c_is_constant as Hc.
    rewrite Hempty in Hc. by apply not_elem_of_empty in Hc. }
  split; [exact toy_with_constant_init|]. split; [exact Hne|].
  destruct (torch_constants_unbound (toy_indexer toy_with_constant))
    as [Hraise _].
  exact (Hraise Hne).
Defined.

Lemma scale_bound_toy :
  exists ix m,
    __init__ toy (Some 4) = Ok ix /\
    scale notebook_globals ix = Raise AttributeError /\
    scale ("valmap" :: notebook_globals)
      (set_std ix {[ NStr "b" := @data_2d Z_scalar 1 ]}) = Ok m /\
    m !! NStr "b" = Some 1.
Proof.
  destruct (scale_bound toy (Some 4) (toy_indexer toy) toy_init)
    as [Hraise Hmax].
  destruct (Hmax ("valmap" :: notebook_globals)
              {[ NStr "b" := @data_2d Z_scalar 1 ]}) as (m & Hm & Hlook).
  { by left. }
  { intros key a [<- <-]%lookup_singleton_Some. discriminate. }
  exists (toy_indexer toy), m. split; [exact toy_init|].
  split; [exact (Hraise notebook_globals)|]. split; [exact Hm|].
  specialize (Hlook (NStr "b")). rewrite lookup_singleton_eq in Hlook.
  destruct (m !! NStr "b") as [v|]; [|discriminate Hlook].
  vm_compute in Hlook. by injection Hlook as ->.
Defined.

Lemma scale_unbound_toy :
  scale notebook_globals (toy_indexer toy) = Raise AttributeError /\
  scale notebook_globals
    (set_std (toy_indexer toy) {[ NStr "b" := @data_2d Z_scalar 1 ]})
  = Raise NameError.
Proof.
  destruct (scale_unbound toy (Some 4) (toy_indexer toy) toy_init)
    as [Hstd Hvalmap].
  split; [exact (Hstd notebook_globals)|].
  exact (Hvalmap {[ NStr "b" := @data_2d Z_scalar 1 ]}).
Defined.

Lemma time_dim_looks_up_zero_toy :
  exists ix,
    __init__ toy (Some 4) = Ok ix /\ time_dim ix = Raise KeyError.
Proof.
  exists (toy_indexer toy). split; [exact toy_init|].
  destruct (time_dim_looks_up_zero toy (Some 4) (toy_indexer toy) toy_init)
    as [Hraise _].
  exact (Hraise toy_names_are_strings).
Defined.

(** [time_dim] does return when a variable is keyed by the integer 0. *)
Example time_dim_of_variable_zero :
  let ds := {| xr.sizes := xr.sizes toy;
               xr.data_vars :=
                 {[ NInt 0 := {| xr.dims := dims_2d;
                                 xr.values := @data_2d Z_scalar 1 |} ]} |} in
  time_dim (toy_indexer ds) = Ok "time".
Proof. reflexivity. Qed.

(** * Further properties of the indexer *)

(** ** Outcomes of construction *)

Section ConstructionOutcomes.
Context `{Scalar}.

(** Over a dataset that exposes its three dimensions, construction ends in
    exactly one of three ways, decided by the window length in force: a
    zero window (an empty time axis with no usable argument) is a
    [ValueError]; a window that does not divide the time extent is an
    assertion failure; otherwise an indexer is built, with
    [max(0, T / tl) * Y * X] samples. *)
Theorem init_outcome (ds : xr.Dataset) (window : option Z) (T Y X : nat) :
  exposes ds T Y X ->
  (effective_time_length window T = 0 ->
     __init__ ds window = Raise ValueError) /\
  (effective_time_length window T <> 0 ->
   Z.of_nat T mod effective_time_length window T <> 0 ->
     __init__ ds window = Raise AssertionError) /\
  (effective_time_length window T <> 0 ->
   Z.of_nat T mod effective_time_length window T = 0 ->
     exists ix,
       __init__ ds window = Ok ix /\
       time_length ix = effective_time_length window T /\
       __len__ ix
       = Z.max 0 (Z.of_nat T / effective_time_length window T)
         * Z.of_nat Y * Z.of_nat X).
Proof.
  intros Hds. rewrite (init_exposed _ _ _ _ _ Hds). cbv zeta.
  set (tl := effective_time_length window T).
  split; [|split].
  - intros ->. reflexivity.
  - intros Hnz Hmod. unfold range, mod_.
    destruct (Z.eqb_spec tl 0) as [|_]; [done|]. rewrite !bind_Ok.
    destruct (Z.eqb_spec (Z.of_nat T mod tl) 0) as [|_]; [done|]. reflexivity.
  - intros Hnz Hmod.
    assert (mod_ (Z.of_nat T) tl = Ok 0) as Hm.
    { unfold mod_. destruct (Z.eqb_spec tl 0) as [|_]; [done|].
      by rewrite Hmod. }
    destruct (Z.lt_ge_cases tl 0) as [Hneg|Hpos].
    + rewrite range_negative_stride by done. rewrite bind_Ok, Hm, !bind_Ok.
      eexists. split; [reflexivity|]. split; [reflexivity|].
      unfold __len__. cbn [indices built]. rewrite product_length. simpl.
      assert (Z.of_nat T / tl <= 0); [|lia].
      destruct (Z.eq_dec (Z.of_nat T) 0) as [->|HT];
        [by rewrite Z.div_0_l by lia|].
      pose proof (Z.div_exact (Z.of_nat T) tl Hnz) as [_ Hex].
      specialize (Hex Hmod). nia.
    + rewrite range_stride by (lia || done). rewrite bind_Ok, Hm, !bind_Ok.
      eexists. split; [reflexivity|]. split; [reflexivity|].
      unfold __len__. cbn [indices built].
      rewrite product_length, !length_fmap, !length_seq.
      assert (0 <= Z.of_nat T / tl) by (apply Z.div_pos; lia). lia.
Qed.

Lemma len_of_lacking (e : exn) (ds : xr.Dataset) (d : string) :
  lacks ds d -> xr.len_of e ds d = Raise e.
Proof. intros [Hs Hv]. unfold xr.len_of. by rewrite Hs, Hv. Qed.

Lemma range_unit_ok (n : Z) : exists l, range 0 n 1 = Ok l.
Proof. eexists. reflexivity. Qed.

Lemma setup_indices_outcome (self : t) (e : exn) :
  setup_indices self = Raise e ->
  e ∈ [KeyError; TypeError; ValueError; AssertionError].
Proof.
  unfold setup_indices, xr.getitem_len.
  destruct (xr.len_of KeyError (data self) "x") as [lx|e'] eqn:Hx.
  2:{ intros [= <-]. apply len_of_raise in Hx as [-> | ->];
        repeat constructor. }
  destruct (xr.len_of KeyError (data self) "y") as [ly|e'] eqn:Hy.
  2:{ intros [= <-]. apply len_of_raise in Hy as [-> | ->];
        repeat constructor. }
  destruct (xr.len_of KeyError (data self) "time") as [lt|e'] eqn:Ht.
  2:{ intros [= <-]. apply len_of_raise in Ht as [-> | ->];
        repeat constructor. }
  rewrite !bind_Ok.
  destruct (range_unit_ok lx) as [xs ->].
  destruct (range_unit_ok ly) as [ys ->]. rewrite !bind_Ok.
  unfold range, mod_, assert_.
  destruct (Z.eqb_spec (time_length self) 0) as [|_].
  { intros [= <-]. repeat constructor. }
  rewrite !bind_Ok.
  destruct (lt mod time_length self =? 0); [discriminate|].
  intros [= <-]. repeat constructor.
Qed.

(** Whatever the dataset and the window argument, construction raises
    nothing but [AttributeError], [KeyError], [TypeError], [ValueError] or
    [AssertionError]; in particular the modulo of the divisibility check
    never divides by zero, a zero window being caught by [range] first. *)
Theorem init_raises_only (ds : xr.Dataset) (window : option Z) (e : exn) :
  __init__ ds window = Raise e ->
  e ∈ init_errors /\ e <> ZeroDivisionError.
Proof.
  intros Hinit.
  assert (e ∈ init_errors) as He.
  { revert Hinit. unfold __init__.
    destruct (or_ window (xr.getattr_len ds "time")) as [tl|e'] eqn:Htl.
    - rewrite bind_Ok. intros Hsetup%setup_indices_outcome.
      unfold init_errors.
      repeat (apply elem_of_cons in Hsetup as [->|Hsetup];
              [repeat constructor|]).
      by apply elem_of_nil in Hsetup.
    - intros [= <-]. unfold or_ in Htl.
      assert (xr.getattr_len ds "time" = Raise e') as Hlen.
      { destruct window as [v|]; [|done]. by destruct (v =? 0). }
      apply len_of_raise in Hlen as [-> | ->]; repeat constructor. }
  split; [exact He|]. intros ->. unfold init_errors in He.
  repeat (apply elem_of_cons in He as [He|He]; [discriminate He|]).
  by apply elem_of_nil in He.
Qed.

(** A dataset that lacks [time] cannot be given a default window
    ([AttributeError]); with an explicit non-zero window, the first of
    [x], [y], [time] that is missing is reported as a [KeyError]. *)
Theorem init_missing_dimension (ds : xr.Dataset) :
  (lacks ds "time" ->
     __init__ ds None = Raise AttributeError /\
     __init__ ds (Some 0) = Raise AttributeError) /\
  (forall v, v <> 0 -> lacks ds "x" ->
     __init__ ds (Some v) = Raise KeyError) /\
  (forall v X, v <> 0 -> xr.sizes ds !! "x" = Some X -> lacks ds "y" ->
     __init__ ds (Some v) = Raise KeyError) /\
  (forall v X Y, v <> 0 ->
     xr.sizes ds !! "x" = Some X -> xr.sizes ds !! "y" = Some Y ->
     lacks ds "time" ->
     __init__ ds (Some v) = Raise KeyError).
Proof.
  split; [|split; [|split]].
  - intros Ht. unfold __init__, or_, xr.getattr_len. simpl.
    by rewrite (len_of_lacking _ _ _ Ht).
  - intros v Hv Hx. unfold __init__, or_.
    destruct (Z.eqb_spec v 0) as [|_]; [done|]. rewrite bind_Ok.
    unfold setup_indices, xr.getitem_len. cbn [data].
    by rewrite (len_of_lacking _ _ _ Hx).
  - intros v X Hv HX Hy. unfold __init__, or_.
    destruct (Z.eqb_spec v 0) as [|_]; [done|]. rewrite bind_Ok.
    unfold setup_indices, xr.getitem_len. cbn [data].
    rewrite (len_of_exposed _ _ _ _ HX), bind_Ok.
    by rewrite (len_of_lacking _ _ _ Hy).
  - intros v X Y Hv HX HY Ht. unfold __init__, or_.
    destruct (Z.eqb_spec v 0) as [|_]; [done|]. rewrite bind_Ok.
    unfold setup_indices, xr.getitem_len. cbn [data].
    rewrite (len_of_exposed _ _ _ _ HX), bind_Ok.
    rewrite (len_of_exposed _ _ _ _ HY), bind_Ok.
    by rewrite (len_of_lacking _ _ _ Ht).
Qed.

(** A negative window that divides the time extent is accepted and builds
    an indexer with no sample at all: its length is 0 and every retrieval
    is out of bounds. *)
Theorem negative_window_is_empty (ds : xr.Dataset) (tl : Z) (T Y X : nat) :
  exposes ds T Y X -> tl < 0 -> Z.of_nat T mod tl = 0 ->
  exists ix,
    __init__ ds (Some tl) = Ok ix /\
    __len__ ix = 0 /\
    forall i, __getitem__ ix i = Raise IndexError.
Proof.
  intros Hds Htl Hmod. eexists.
  split; [exact (init_negative _ _ _ _ _ Hds Htl Hmod)|].
  split; [reflexivity|]. intros i. unfold __getitem__. cbn [indices built].
  rewrite list_getitem_out_of_range; [reflexivity|]. simpl. lia.
Qed.

End ConstructionOutcomes.

(** ** Layout of the sample index *)

Section IndexLayout.
Context `{Scalar}.

(** A constructed indexer with a positive window lists the window starts
    [0, tl, 2 tl, ...] against every column. *)
Lemma init_positive_inv (ds : xr.Dataset) (window : option Z) (ix : t)
  (T Y X : nat) :
  exposes ds T Y X -> __init__ ds window = Ok ix -> 0 < time_length ix ->
  Z.of_nat T mod time_length ix = 0 /\
  indices ix
  = product
      ((fun k : nat => Z.of_nat k * time_length ix)
         <$> seq 0 (Z.to_nat (Z.of_nat T / time_length ix)))
      (Z.of_nat <$> seq 0 Y) (Z.of_nat <$> seq 0 X).
Proof.
  intros Hds Hinit Htl.
  destruct (init_exposed_inv _ _ _ _ _ _ Hds Hinit)
    as (tl & t_iter & -> & Hrange & Hnz & Hmod).
  cbn [time_length indices built] in *. split; [done|].
  rewrite range_stride in Hrange by done. by injection Hrange as <-.
Qed.

(** An indexer that holds a sample has a positive window. *)
Lemma nonempty_positive (ds : xr.Dataset) (window : option Z) (ix : t)
  (T Y X : nat) :
  exposes ds T Y X -> __init__ ds window = Ok ix -> 0 < __len__ ix ->
  0 < time_length ix.
Proof.
  intros Hds Hinit Hlen. unfold __len__ in Hlen.
  destruct (indices ix) as [|[[t y] x] l] eqn:Hl; [simpl in Hlen; lia|].
  eapply (indices_in_bounds ds window ix T Y X t y x Hds Hinit).
  rewrite Hl. by left.
Qed.

Lemma indices_NoDup (ds : xr.Dataset) (window : option Z) (ix : t)
  (T Y X : nat) :
  exposes ds T Y X -> __init__ ds window = Ok ix -> NoDup (indices ix).
Proof.
  intros Hds Hinit.
  destruct (init_exposed_inv _ _ _ _ _ _ Hds Hinit)
    as (tl & t_iter & -> & Hrange & Hnz & Hmod).
  cbn [indices built].
  assert (NoDup t_iter) as Ht.
  { unfold range in Hrange. destruct (tl =? 0); [discriminate|].
    injection Hrange as <-.
    apply NoDup_fmap_2_strong; [|apply NoDup_seq]. intros a b _ _ Hab. nia. }
  apply NoDup_product; [done|..];
    (apply NoDup_fmap_2_strong; [|apply NoDup_seq]; intros a b _ _ Hab; lia).
Qed.

(** The position of a sample decodes to its triple: sample [n] starts at
    time [(n / (Y * X)) * time_length], in row [(n / X) mod Y] and column
    [n mod X]. *)
Theorem index_decodes (ds : xr.Dataset) (window : option Z) (ix : t)
  (T Y X n : nat) :
  exposes ds T Y X -> __init__ ds window = Ok ix ->
  Z.of_nat n < __len__ ix ->
  indices ix !! n
  = Some (Z.of_nat (n / (Y * X)) * time_length ix,
          Z.of_nat ((n / X) mod Y), Z.of_nat (n mod X)).
Proof.
  intros Hds Hinit Hn.
  assert (0 < time_length ix) as Htl
    by (apply (nonempty_positive ds window ix T Y X); [done..|lia]).
  destruct (init_positive_inv _ _ _ _ _ _ Hds Hinit Htl) as [Hmod Hl].
  unfold __len__ in Hn. rewrite Hl in Hn |- *.
  rewrite product_length, !length_fmap, !length_seq in Hn.
  set (q := Z.to_nat (Z.of_nat T / time_length ix)) in *.
  assert (n < q * Y * X)%nat as Hn' by lia.
  assert (0 < X)%nat as HX by (destruct X; lia).
  assert (0 < Y)%nat as HY by (destruct Y; lia).
  pose proof (Nat.div_mod_eq n X) as HnX.
  pose proof (Nat.div_mod_eq (n / X) Y) as HnY.
  pose proof (Nat.mod_upper_bound n X ltac:(lia)) as Hx.
  pose proof (Nat.mod_upper_bound (n / X) Y ltac:(lia)) as Hy.
  assert (n / (Y * X) = n / X / Y)%nat as Hk
    by (rewrite (Nat.mul_comm Y X); symmetry; apply Nat.Div0.div_div).
  assert (n / X / Y < q)%nat as Hkq.
  { apply Nat.Div0.div_lt_upper_bound. apply Nat.Div0.div_lt_upper_bound.
    lia. }
  rewrite Hk.
  pose proof (product_lookup
    ((fun k : nat => Z.of_nat k * time_length ix) <$> seq 0 q)
    (Z.of_nat <$> seq 0 Y) (Z.of_nat <$> seq 0 X)
    (n / X / Y) ((n / X) mod Y) (n mod X)
    (Z.of_nat (n / X / Y) * time_length ix)
    (Z.of_nat ((n / X) mod Y)) (Z.of_nat (n mod X))) as Hlook.
  rewrite !length_fmap, !length_seq in Hlook.
  replace ((n / X / Y * Y + (n / X) mod Y) * X + n mod X)%nat with n
    in Hlook by lia.
  apply Hlook; rewrite list_lookup_fmap, lookup_seq_lt by lia; done.
Qed.

(** With a positive window, the samples tile the dataset: every time step
    of every column lies in the window of exactly one sample. *)
Theorem windows_tile_time_axis (ds : xr.Dataset) (window : option Z) (ix : t)
  (T Y X s y x : nat) :
  exposes ds T Y X -> __init__ ds window = Ok ix -> 0 < time_length ix ->
  (s < T)%nat -> (y < Y)%nat -> (x < X)%nat ->
  exists n t,
    indices ix !! n = Some (t, Z.of_nat y, Z.of_nat x) /\
    t <= Z.of_nat s < t + time_length ix /\
    forall n' t',
      indices ix !! n' = Some (t', Z.of_nat y, Z.of_nat x) ->
      t' <= Z.of_nat s < t' + time_length ix -> n' = n.
Proof.
  intros Hds Hinit Htl Hs Hy Hx.
  destruct (init_positive_inv _ _ _ _ _ _ Hds Hinit Htl) as [Hmod Hl].
  pose proof (indices_NoDup _ _ _ _ _ _ Hds Hinit) as Hnd.
  set (tl := time_length ix) in *.
  pose proof (Z.div_exact (Z.of_nat T) tl ltac:(lia)) as [_ HT].
  specialize (HT Hmod).
  assert (0 <= Z.of_nat s / tl) as Hk0 by (apply Z.div_pos; lia).
  pose proof (Z.div_mod (Z.of_nat s) tl ltac:(lia)) as Hdm.
  pose proof (Z.mod_pos_bound (Z.of_nat s) tl Htl) as Hmb.
  assert (Z.of_nat s / tl < Z.of_nat T / tl) as Hkq by nia.
  set (k := Z.to_nat (Z.of_nat s / tl)).
  pose proof (product_lookup
    ((fun k : nat => Z.of_nat k * tl)
       <$> seq 0 (Z.to_nat (Z.of_nat T / tl)))
    (Z.of_nat <$> seq 0 Y) (Z.of_nat <$> seq 0 X) k y x
    (Z.of_nat k * tl) (Z.of_nat y) (Z.of_nat x)) as Hlook.
  rewrite !length_fmap, !length_seq, <- Hl in Hlook.
  exists ((k * Y + y) * X + x)%nat, (Z.of_nat k * tl).
  split; [|split].
  - apply Hlook; rewrite list_lookup_fmap, lookup_seq_lt by lia; done.
  - unfold k. nia.
  - intros n' t' Hn' Ht'.
    assert (t' = Z.of_nat k * tl) as ->.
    { apply list_elem_of_lookup_2 in Hn'. rewrite Hl in Hn'.
      apply elem_of_product in Hn' as (Hin & _ & _).
      apply list_elem_of_fmap in Hin as (k' & -> & Hk'%elem_of_seq).
      f_equal. unfold k. nia. }
    apply (NoDup_lookup _ _ _ _ Hnd Hn'), Hlook;
      rewrite list_lookup_fmap, lookup_seq_lt by lia; done.
Qed.

End IndexLayout.

Lemma init_outcome_toy :
  exposes toy 4 5 2 /\
  __init__ toy (Some 3) = Raise AssertionError /\
  exists ix, __init__ toy (Some 2) = Ok ix /\ __len__ ix = 20.
Proof.
  destruct (init_outcome toy (Some 3) 4 5 2 toy_exposed) as (_ & Hfail & _).
  destruct (init_outcome toy (Some 2) 4 5 2 toy_exposed) as (_ & _ & Hok).
  split; [exact toy_exposed|]. split.
  - apply Hfail; discriminate.
  - destruct Hok as (ix & Hinit & _ & Hlen); [discriminate|reflexivity|].
    exists ix. split; [exact Hinit|exact Hlen].
Defined.

Lemma init_raises_only_toy :
  __init__ toy (Some 3) = Raise AssertionError /\
  AssertionError ∈ init_errors /\ AssertionError <> ZeroDivisionError.
Proof.
  assert (__init__ toy (Some 3) = Raise AssertionError) as Hinit
    by (apply (init_not_dividing toy 3 4 5 2 toy_exposed); discriminate).
  split; [exact Hinit|].
  exact (init_raises_only toy (Some 3) AssertionError Hinit).
Defined.

Lemma negative_window_is_empty_toy :
  exposes toy 4 5 2 /\ -2 < 0 /\ Z.of_nat 4 mod -2 = 0 /\
  exists ix,
    __init__ toy (Some (-2)) = Ok ix /\ __len__ ix = 0 /\
    forall i, __getitem__ ix i = Raise IndexError.
Proof.
  split; [exact toy_exposed|]. split; [lia|]. split; [reflexivity|].
  apply (negative_window_is_empty toy (-2) 4 5 2 toy_exposed);
    [lia|reflexivity].
Defined.

Lemma index_decodes_toy :
  indices (toy_indexer toy) !! 7%nat = Some (0, 3, 1).
Proof.
  exact (index_decodes toy (Some 4) (toy_indexer toy) 4 5 2 7
           toy_exposed toy_init ltac:(by vm_compute)).
Defined.

Lemma windows_tile_time_axis_toy :
  exists n t,
    indices (toy_indexer toy) !! n = Some (t, 3, 1) /\
    t <= 2 < t + 4 /\
    forall n' t',
      indices (toy_indexer toy) !! n' = Some (t', 3, 1) ->
      t' <= 2 < t' + 4 -> n' = n.
Proof.
  exact (windows_tile_time_axis toy (Some 4) (toy_indexer toy) 4 5 2 2 3 1
           toy_exposed toy_init ltac:(by vm_compute)
           ltac:(lia) ltac:(lia) ltac:(lia)).
Defined.

(** ** Failure and success of retrieval *)

Section RetrievalOutcomes.
Context `{Scalar}.

Lemma for_raise_inv {A S} (l : list A) (body : A -> S -> result S) (s : S)
  (e : exn) :
  for_ l body s = Raise e -> exists a s', a ∈ l /\ body a s' = Raise e.
Proof.
  revert s. induction l as [|a l IH]; intros s Hloop; [discriminate|].
  simpl in Hloop. destruct (body a s) as [s1|e1] eqn:Hbody.
  - destruct (IH _ Hloop) as (b & s' & Hb & Hraise).
    exists b, s'. split; [by right|done].
  - injection Hloop as <-. exists a, s. split; [by left|done].
Qed.

Lemma getitem_shape_raises (idx : list np.index_item) (sh : list nat)
  (e : exn) :
  np.getitem_shape idx sh = Raise e -> e = IndexError.
Proof.
  revert sh. induction idx as [|[i|start stop|] idx IH]; intros sh;
    cbn [np.getitem_shape]; [discriminate|..].
  - destruct sh as [|n sh]; [by intros [= <-]|].
    unfold np.axis_index.
    destruct ((_ <? 0) || (_ <=? _)); [by intros [= <-]|].
    rewrite bind_Ok. apply IH.
  - destruct sh as [|n sh]; [by intros [= <-]|].
    destruct (np.getitem_shape idx sh) eqn:Hs; [discriminate|].
    intros [= <-]. by apply (IH sh).
  - destruct (np.getitem_shape idx sh) eqn:Hs; [discriminate|].
    intros [= <-]. by apply (IH sh).
Qed.

Lemma np_getitem_raises (a : np.ndarray) (idx : list np.index_item) (e : exn) :
  np.getitem a idx = Raise e -> e = IndexError.
Proof.
  unfold np.getitem.
  destruct (np.getitem_shape idx (np.shape a)) eqn:Hs; [discriminate|].
  intros [= <-]. by apply getitem_shape_raises in Hs.
Qed.

(** An index tuple cannot consume more axes than the array has. *)
Lemma getitem_shape_consumed (idx : list np.index_item) (sh s : list nat) :
  np.getitem_shape idx sh = Ok s -> (consumed idx <= length sh)%nat.
Proof.
  revert sh s. induction idx as [|[i|start stop|] idx IH]; intros sh s;
    cbn [np.getitem_shape consumed]; [simpl; lia|..].
  - destruct sh as [|n sh]; [discriminate|].
    destruct (np.axis_index n i); [|discriminate]. rewrite bind_Ok.
    intros Hs%IH. simpl. lia.
  - destruct sh as [|n sh]; [discriminate|].
    destruct (np.getitem_shape idx sh) eqn:Hs; [|discriminate].
    intros _. apply IH in Hs. simpl. lia.
  - destruct (np.getitem_shape idx sh) eqn:Hs; [|discriminate].
    intros _. by apply IH in Hs.
Qed.

Lemma sample_of_built_raises (ds : xr.Dataset) (tl : Z)
  (l : list (Z * Z * Z)) (t y x : Z) (key : name) (e : exn) :
  key ∈ dom (xr.data_vars ds) ->
  sample_of (built ds tl l) t y x key = Raise e -> e = IndexError.
Proof.
  intros [da Hda]%elem_of_dom. unfold sample_of, dict_getitem.
  cbn [numpy_data dims built]. rewrite !lookup_fmap, Hda.
  cbn [fmap option_fmap option_map]. rewrite !bind_Ok.
  destruct (np.getitem (xr.values da) _) as [w|e1] eqn:Hw.
  2:{ intros [= <-]. by apply np_getitem_raises in Hw. }
  rewrite bind_Ok.
  destruct (np.getitem w _) as [s|e2] eqn:Hs; [discriminate|].
  intros [= <-]. by apply np_getitem_raises in Hs.
Qed.

(** What a successful retrieval returns: the triple at the index, and
    under each variable that is not a constant the array cut out for it;
    nothing else. *)
Lemma getitem_ok_inv (ds : xr.Dataset) (tl : Z) (l : list (Z * Z * Z))
  (i : Z) (out : gmap name np.ndarray) :
  __getitem__ (built ds tl l) i = Ok out ->
  exists t y x,
    list_getitem l i = Ok (t, y, x) /\
    forall key,
      (key ∈ dom (xr.data_vars ds) -> key ∉ constants (built ds tl l) ->
         exists a, sample_of (built ds tl l) t y x key = Ok a /\
                   out !! key = Some a) /\
      (~ (key ∈ dom (xr.data_vars ds) /\ key ∉ constants (built ds tl l)) ->
         out !! key = None).
Proof.
  unfold __getitem__. cbn [indices]. intros Hget.
  apply bind_ok in Hget as ([[t y] x] & Hl & Hfor).
  rewrite getitem_body_fill in Hfor.
  pose proof (fill_loop_inv _ _ _ _ _ Hfor) as Hloop.
  cbn [data_vars built] in Hloop.
  exists t, y, x. split; [done|]. intros key.
  destruct (Hloop key) as [Hin Hout]. split.
  - intros Hkey Hnc. apply Hin; [by apply elem_of_elements|].
    by apply bool_decide_eq_false.
  - intros Hnot. rewrite Hout; [done|]. intros [Hkey Hskip]. apply Hnot.
    split; [by apply elem_of_elements in Hkey|].
    by apply bool_decide_eq_false in Hskip.
Qed.

(** On a record as [__init__] builds it, a failing retrieval fails with an
    [IndexError]: either the list of samples refuses the index, or numpy
    refuses the index tuple of some variable. *)
Lemma getitem_built_raises (ds : xr.Dataset) (tl : Z)
  (l : list (Z * Z * Z)) (i : Z) (e : exn) :
  __getitem__ (built ds tl l) i = Raise e -> e = IndexError.
Proof.
  unfold __getitem__. cbn [indices built].
  destruct (list_getitem l i) as [[[t y] x]|e1] eqn:Hl.
  - rewrite bind_Ok. cbv beta iota.
    intros (key & out & Hkey & Hbody)%for_raise_inv.
    cbn [data_vars built] in Hkey. apply elem_of_elements in Hkey.
    unfold getitem_body in Hbody.
    destruct (bool_decide _); [discriminate|].
    destruct (sample_of _ t y x key) as [a|e2] eqn:Hs; [discriminate|].
    injection Hbody as <-. by apply sample_of_built_raises in Hs.
  - intros [= <-]. unfold list_getitem in Hl.
    destruct ((_ <? 0) || (_ <=? _)); [by injection Hl as <-|].
    destruct (l !! _); [discriminate Hl|by injection Hl as <-].
Qed.

(** Retrieval fails in one way only: whatever goes wrong, a sample index
    out of range or a variable with too few axes or too short an axis,
    the exception is an [IndexError]. *)
Theorem getitem_raises_only (ds : xr.Dataset) (window : option Z) (ix : t)
  (i : Z) (e : exn) :
  __init__ ds window = Ok ix -> __getitem__ ix i = Raise e ->
  e = IndexError.
Proof.
  intros Hinit Hget.
  destruct (init_ok_inv _ _ _ Hinit) as (tl & l & -> & _).
  exact (getitem_built_raises ds tl l i e Hget).
Qed.

(** Over a dataset laid out as the class documents, retrieval succeeds at
    every index in [[0, len)]. *)
Lemma getitem_conforming_ok (ds : xr.Dataset) (window : option Z) (ix : t)
  (T Y X : nat) (i : Z) :
  exposes ds T Y X -> conforming ds ->
  __init__ ds window = Ok ix -> 0 <= i < __len__ ix ->
  is_ok (__getitem__ ix i).
Proof.
  intros Hds Hconf Hinit Hi.
  destruct (list_getitem_in_range (indices ix) i Hi) as ([[t y] x] & Hget & Hl).
  apply list_elem_of_lookup_2 in Hl.
  destruct (indices_in_bounds _ _ _ _ _ _ _ _ _ Hds Hinit Hl)
    as (Htl & Ht & Hfit & Hy & Hx).
  destruct (init_ok_inv _ _ _ Hinit) as (tl & l & -> & _).
  cbn [time_length built] in *.
  unfold __getitem__. rewrite Hget, bind_Ok. cbv beta iota.
  rewrite getitem_body_fill. apply fill_loop_ok.
  intros key Hin Hskip. cbn [data_vars built] in Hin.
  apply elem_of_elements, elem_of_dom in Hin as [da Hda].
  apply bool_decide_eq_false in Hskip.
  destruct (conforming_time_varying _ _ _ _ _ Hconf Hda Hskip)
    as [Halign Hdims].
  destruct (sample_of_canonical ds tl l key da T Y X t y x)
    as (a & -> & _); done.
Qed.

(** Over such a dataset, retrieval succeeds exactly at the indices in
    [[-len, len)]. *)
Theorem getitem_succeeds_iff (ds : xr.Dataset) (window : option Z) (ix : t)
  (T Y X : nat) (i : Z) :
  exposes ds T Y X -> conforming ds -> __init__ ds window = Ok ix ->
  (is_ok (__getitem__ ix i) <-> - __len__ ix <= i < __len__ ix).
Proof.
  intros Hds Hconf Hinit. split.
  - unfold __getitem__, __len__. intros Hok.
    destruct (list_getitem (indices ix) i) as [tyx|e] eqn:Hget; [|done].
    by apply list_getitem_ok in Hget as [Hi _].
  - intros Hi. destruct (Z.lt_ge_cases i 0) as [Hneg|Hpos].
    + assert (__getitem__ ix i = __getitem__ ix (i + __len__ ix)) as ->.
      { unfold __getitem__, __len__ in *.
        rewrite list_getitem_wrap by lia. reflexivity. }
      apply (getitem_conforming_ok ds window ix T Y X); [done..|lia].
    + apply (getitem_conforming_ok ds window ix T Y X); [done..|lia].
Qed.

(** Over such a dataset, what a sample holds for a variable that is not a
    constant. *)
Lemma sample_shape_conforming (ds : xr.Dataset) (window : option Z) (ix : t)
  (T Y X : nat) (i : Z) (out : gmap name np.ndarray) (key : name)
  (da : xr.DataArray) :
  exposes ds T Y X -> conforming ds -> __init__ ds window = Ok ix ->
  __getitem__ ix i = Ok out ->
  xr.data_vars ds !! key = Some da -> key ∉ constants ix ->
  exists a,
    out !! key = Some a /\ np.dtype_of a = float32 /\
    np.shape a = [Z.to_nat (time_length ix); z_axis ds da; 1; 1]%nat.
Proof.
  intros Hds Hconf Hinit Hget Hda Hkey.
  assert (exists t y x, (t, y, x) ∈ indices ix /\
            exists a, sample_of ix t y x key = Ok a /\ out !! key = Some a)
    as (t & y & x & Hl & a & Hs & Ha).
  { destruct (init_ok_inv _ _ _ Hinit) as (tl & l & -> & _).
    destruct (getitem_ok_inv _ _ _ _ _ Hget) as (t & y & x & Hl & Hout).
    exists t, y, x. split.
    - apply list_getitem_ok in Hl as [_ Hl].
      by apply list_elem_of_lookup_2 in Hl.
    - destruct (Hout key) as [Hin _]. apply Hin; [|done].
      apply elem_of_dom. eauto. }
  destruct (indices_in_bounds _ _ _ _ _ _ _ _ _ Hds Hinit Hl)
    as (Htl & Ht & Hfit & Hy & Hx).
  destruct (init_ok_inv _ _ _ Hinit) as (tl & l & -> & _).
  cbn [time_length built] in *.
  destruct (conforming_time_varying _ _ _ _ _ Hconf Hda Hkey)
    as [Halign Hdims].
  destruct (sample_of_canonical ds tl l key da T Y X t y x)
    as (a' & Ha' & Hdt & Hz & Hnz); try done.
  rewrite Hs in Ha'. injection Ha' as <-.
  exists a. split; [done|]. split; [done|]. unfold z_axis.
  case_bool_decide as Hin; [|by apply Hnz].
  destruct Hdims as [Hd|Hd]; rewrite Hd in Hin.
  - unfold xr.aligned in Halign. rewrite Hd in Halign. simpl in Halign.
    destruct Hds as (HT & HY & HX). rewrite HT, HY, HX in Halign.
    destruct (xr.sizes ds !! "z") as [Zn|] eqn:HZ; [|discriminate].
    simpl. apply Hz; [by rewrite Hd|done].
  - exfalso. revert Hin. rewrite !elem_of_cons, elem_of_nil.
    intros [|[|[|]]]; done.
Qed.

(** No sample comes out of an indexer one of whose variables has fewer
    axes than its index tuple consumes. *)
Lemma too_few_axes_no_sample (ds : xr.Dataset) (tl : Z)
  (l : list (Z * Z * Z)) (key : name) (da : xr.DataArray) (i : Z)
  (out : gmap name np.ndarray) :
  xr.data_vars ds !! key = Some da -> key ∉ constants (built ds tl l) ->
  (length (np.shape (xr.values da))
   < if bool_decide ("z" ∈ xr.dims da) then 4 else 3)%nat ->
  __getitem__ (built ds tl l) i = Ok out -> False.
Proof.
  intros Hda Hkey Hrank Hget.
  destruct (getitem_ok_inv _ _ _ _ _ Hget) as (t & y & x & _ & Hout).
  destruct (Hout key) as [Hin _].
  destruct Hin as (a & Ha & _); [apply elem_of_dom; eauto|done|].
  revert Ha. unfold sample_of, dict_getitem.
  cbn [numpy_data dims built]. rewrite !lookup_fmap, Hda.
  cbn [fmap option_fmap option_map]. rewrite !bind_Ok.
  unfold np.getitem at 2.
  destruct (np.getitem_shape _ (np.shape (xr.values da))) as [s|e] eqn:Hs;
    [|discriminate].
  apply getitem_shape_consumed in Hs. unfold this_array_index in Hs.
  destruct (bool_decide ("z" ∈ xr.dims da)); cbn [consumed] in Hs; lia.
Qed.

(** A variable that is not a constant but has fewer axes than the index
    tuple built for it (four with [z] among its dimensions, three
    otherwise) makes every retrieval fail, at every sample index. *)
Theorem too_few_axes_fails (ds : xr.Dataset) (window : option Z) (ix : t)
  (key : name) (da : xr.DataArray) (i : Z) :
  __init__ ds window = Ok ix ->
  xr.data_vars ds !! key = Some da -> key ∉ constants ix ->
  (length (np.shape (xr.values da))
   < if bool_decide ("z" ∈ xr.dims da) then 4 else 3)%nat ->
  __getitem__ ix i = Raise IndexError.
Proof.
  intros Hinit Hda Hkey Hrank.
  destruct (init_ok_inv _ _ _ Hinit) as (tl & l & -> & _).
  destruct (__getitem__ (built ds tl l) i) as [out|e] eqn:Hget.
  - destruct (too_few_axes_no_sample ds tl l key da i out Hda Hkey Hrank Hget).
  - f_equal. exact (getitem_built_raises ds tl l i e Hget).
Qed.

(** Whatever is stored for a variable went through [astype(np.float32)]. *)
Lemma sample_of_float32 (self : t) (t y x : Z) (key : name) (a : np.ndarray) :
  sample_of self t y x key = Ok a -> np.dtype_of a = float32.
Proof.
  intros Ha. unfold sample_of in Ha.
  apply bind_ok in Ha as (data_array & _ & Ha).
  apply bind_ok in Ha as (key_dims & _ & Ha).
  apply bind_ok in Ha as (window & _ & Ha).
  by apply bind_ok in Ha as (sample & _ & [= <-]).
Qed.

(** Every array returned by retrieval is single precision, and retrieval
    keeps storage and shape in step: from well-formed arrays it returns
    well-formed arrays, whose flat data has exactly as many elements as
    the shape announces. *)
Theorem samples_well_formed (ds : xr.Dataset) (window : option Z) (ix : t)
  (i : Z) (out : gmap name np.ndarray) (key : name) (a : np.ndarray) :
  __init__ ds window = Ok ix ->
  (forall k da, xr.data_vars ds !! k = Some da ->
     np.well_formed (xr.values da)) ->
  __getitem__ ix i = Ok out -> out !! key = Some a ->
  np.dtype_of a = float32 /\ np.well_formed a.
Proof.
  intros Hinit Hwf Hget Ha.
  destruct (init_ok_inv _ _ _ Hinit) as (tl & l & -> & _).
  destruct (getitem_ok_inv _ _ _ _ _ Hget) as (t & y & x & _ & Hout).
  destruct (Hout key) as [Hin Hnone].
  destruct (decide (key ∈ dom (xr.data_vars ds)
                    /\ key ∉ constants (built ds tl l))) as [[Hk Hnc]|Hnot].
  - destruct (Hin Hk Hnc) as (a' & Hs & Ha'). rewrite Ha in Ha'.
    injection Ha' as <-. split.
    { exact (sample_of_float32 (built ds tl l) t y x key a Hs). }
    apply elem_of_dom in Hk as [da Hda].
    apply (sample_of_well_formed (built ds tl l) t y x key (xr.values da));
      [|by apply (Hwf key)|done].
    cbn [numpy_data built]. by rewrite lookup_fmap, Hda.
  - rewrite (Hnone Hnot) in Ha. discriminate.
Qed.

End RetrievalOutcomes.

(** ** Contents of a sample *)

Section SampleContents.
Context `{Scalar}.

Lemma lookup_chunk (sz k j : nat) (d : list scalar) :
  (j < sz)%nat -> np.chunk sz k d !! j = d !! (k * sz + j)%nat.
Proof.
  intros Hj. unfold np.chunk. by rewrite lookup_take_lt, lookup_drop.
Qed.

Lemma offset_lt (a b A B : nat) :
  (a < A)%nat -> (b < B)%nat -> (a * B + b < A * B)%nat.
Proof.
  intros Ha Hb. apply Nat.lt_le_trans with ((a + 1) * B)%nat; [lia|].
  apply Nat.mul_le_mono_r. lia.
Qed.

Lemma slice_start_window (n : nat) (t : Z) :
  0 <= t <= Z.of_nat n -> np.slice_start n (Some t) = Z.to_nat t.
Proof.
  intros Ht. unfold np.slice_start, np.slice_bound.
  destruct (Z.ltb_spec t 0); lia.
Qed.

(** The [j]-th block of a sliced axis is the indexing of the sub-array
    [j] places after the start of the slice. *)
Lemma getitem_flat_slice_lookup (start stop : option Z)
  (idx : list np.index_item) (n : nat) (sh s : list nat) (d : list scalar)
  (j r : nat) :
  length d = np.size_of (n :: sh) -> np.getitem_shape idx sh = Ok s ->
  (j < np.slice_len n start stop)%nat -> (r < np.size_of s)%nat ->
  np.getitem_flat (np.Slice start stop :: idx) (n :: sh) d
    !! (j * np.size_of s + r)%nat
  = np.getitem_flat idx sh
      (np.chunk (np.size_of sh) (np.slice_start n start + j) d) !! r.
Proof.
  intros Hd Hs Hj Hr. cbn [np.getitem_flat].
  apply (lookup_bind_uniform
           (fun k => np.getitem_flat idx sh (np.chunk (np.size_of sh) k d))
           _ (np.size_of s) j r (np.slice_start n start + j)%nat);
    [|by apply lookup_seq_lt|done].
  intros k Hk%elem_of_seq. apply (getitem_flat_length idx sh); [|done].
  apply (chunk_length _ _ n); [exact Hd|].
  pose proof (slice_within_axis n start stop). lia.
Qed.

Lemma getitem_flat_int (i : Z) (k : nat) (idx : list np.index_item)
  (n : nat) (sh : list nat) (d : list scalar) :
  np.axis_index n i = Ok k ->
  np.getitem_flat (np.Int i :: idx) (n :: sh) d
  = np.getitem_flat idx sh (np.chunk (np.size_of sh) k d).
Proof. intros Hk. cbn [np.getitem_flat]. by rewrite Hk. Qed.

(** The element at [(y, x)] of a two-axis block. *)
Lemma cell_lookup (Y X : nat) (y x : Z) (c : list scalar) :
  0 <= y < Z.of_nat Y -> 0 <= x < Z.of_nat X ->
  np.getitem_flat [np.Int y; np.Int x] [Y; X] c !! 0%nat
  = c !! (Z.to_nat y * X + Z.to_nat x)%nat.
Proof.
  intros Hy Hx.
  rewrite (getitem_flat_int y (Z.to_nat y)) by by apply axis_index_in_range.
  rewrite (getitem_flat_int x (Z.to_nat x)) by by apply axis_index_in_range.
  cbn [np.getitem_flat np.size_of foldr].
  rewrite lookup_chunk by lia. rewrite lookup_chunk by lia. f_equal. lia.
Qed.

Lemma cell_shape (Y X : nat) (y x : Z) :
  0 <= y < Z.of_nat Y -> 0 <= x < Z.of_nat X ->
  np.getitem_shape [np.Int y; np.Int x] [Y; X] = Ok [].
Proof.
  intros Hy Hx. cbn [np.getitem_shape].
  by rewrite (axis_index_in_range _ _ Hy), (axis_index_in_range _ _ Hx).
Qed.

(** Element [(k, z)] of the window cut out of a profile field. *)
Lemma profile_window_lookup (T Zn Y X k z : nat) (t tl y x : Z)
  (d : list scalar) :
  length d = np.size_of [T; Zn; Y; X] ->
  0 <= t -> 0 <= tl -> t + tl <= Z.of_nat T ->
  0 <= y < Z.of_nat Y -> 0 <= x < Z.of_nat X ->
  (k < Z.to_nat tl)%nat -> (z < Zn)%nat ->
  np.getitem_flat
    [np.Slice (Some t) (Some (t + tl)); np.Slice None None; np.Int y; np.Int x]
    [T; Zn; Y; X] d !! (k * Zn + z)%nat
  = d !! ((((Z.to_nat t + k) * Zn + z) * Y + Z.to_nat y) * X + Z.to_nat x)%nat.
Proof.
  intros Hd Ht Htl Hfit Hy Hx Hk Hz.
  assert (Z.to_nat y < Y)%nat as Hy' by lia.
  assert (Z.to_nat x < X)%nat as Hx' by lia.
  pose proof (getitem_flat_slice_lookup (Some t) (Some (t + tl))
    [np.Slice None None; np.Int y; np.Int x] T [Zn; Y; X] [Zn] d k z Hd)
    as Houter.
  cbn [np.getitem_shape] in Houter.
  rewrite (axis_index_in_range _ _ Hy), (axis_index_in_range _ _ Hx),
    !bind_Ok, slice_len_full, slice_len_window in Houter by done.
  cbn [np.size_of foldr] in Houter. rewrite Nat.mul_1_r in Houter.
  rewrite Houter by (done || lia). clear Houter.
  rewrite slice_start_window by lia.
  set (c := np.chunk _ (Z.to_nat t + k) d).
  assert (length c = np.size_of [Zn; Y; X]) as Hc.
  { apply (chunk_length _ _ T); [exact Hd|lia]. }
  pose proof (getitem_flat_slice_lookup None None [np.Int y; np.Int x]
    Zn [Y; X] [] c z 0 Hc (cell_shape Y X y x Hy Hx)) as Hinner.
  rewrite slice_len_full in Hinner. cbn [np.size_of foldr] in Hinner.
  rewrite Nat.mul_1_r, Nat.add_0_r in Hinner.
  rewrite Hinner by lia. clear Hinner.
  rewrite cell_lookup by done.
  generalize dependent (Z.to_nat y). generalize dependent (Z.to_nat x).
  intros x' Hx' y' Hy'. unfold np.slice_start. simpl Z.to_nat.
  pose proof (offset_lt y' x' Y X Hy' Hx') as Hcell.
  pose proof (offset_lt z (y' * X + x') Zn (Y * X) Hz Hcell) as Hrow.
  cbn [np.size_of foldr]. rewrite !Nat.mul_1_r.
  rewrite lookup_chunk by done.
  unfold c. cbn [np.size_of foldr]. rewrite !Nat.mul_1_r.
  rewrite lookup_chunk by (simpl; lia).
  f_equal. lia.
Qed.

(** Element [k] of the window cut out of a surface field. *)
Lemma surface_window_lookup (T Y X k : nat) (t tl y x : Z) (d : list scalar) :
  length d = np.size_of [T; Y; X] ->
  0 <= t -> 0 <= tl -> t + tl <= Z.of_nat T ->
  0 <= y < Z.of_nat Y -> 0 <= x < Z.of_nat X ->
  (k < Z.to_nat tl)%nat ->
  np.getitem_flat
    [np.Slice (Some t) (Some (t + tl)); np.NewAxis; np.Int y; np.Int x]
    [T; Y; X] d !! k
  = d !! (((Z.to_nat t + k) * Y + Z.to_nat y) * X + Z.to_nat x)%nat.
Proof.
  intros Hd Ht Htl Hfit Hy Hx Hk.
  assert (Z.to_nat y < Y)%nat as Hy' by lia.
  assert (Z.to_nat x < X)%nat as Hx' by lia.
  pose proof (getitem_flat_slice_lookup (Some t) (Some (t + tl))
    [np.NewAxis; np.Int y; np.Int x] T [Y; X] [1%nat] d k 0 Hd) as Houter.
  cbn [np.getitem_shape] in Houter.
  rewrite (axis_index_in_range _ _ Hy), (axis_index_in_range _ _ Hx),
    !bind_Ok, slice_len_window in Houter by done.
  cbn [np.size_of foldr] in Houter.
  rewrite !Nat.mul_1_r, Nat.add_0_r in Houter.
  rewrite Houter by (done || lia). clear Houter.
  rewrite slice_start_window by lia.
  change (np.getitem_flat (np.NewAxis :: [np.Int y; np.Int x]))
    with (np.getitem_flat [np.Int y; np.Int x]).
  rewrite cell_lookup by done.
  generalize dependent (Z.to_nat y). generalize dependent (Z.to_nat x).
  intros x' Hx' y' Hy'.
  pose proof (offset_lt y' x' Y X Hy' Hx') as Hcell.
  rewrite lookup_chunk by done.
  f_equal. lia.
Qed.

(** [a[:, :, np.newaxis, np.newaxis]] keeps the elements in place. *)
Lemma pad_lookup (n m k z : nat) (d : list scalar) :
  length d = (n * m)%nat -> (k < n)%nat -> (z < m)%nat ->
  np.getitem_flat
    [np.Slice None None; np.Slice None None; np.NewAxis; np.NewAxis]
    [n; m] d !! (k * m + z)%nat
  = d !! (k * m + z)%nat.
Proof.
  intros Hd Hk Hz.
  assert (length d = np.size_of [n; m]) as Hd'
    by (cbn [np.size_of foldr]; lia).
  pose proof (getitem_flat_slice_lookup None None
    [np.Slice None None; np.NewAxis; np.NewAxis] n [m] [m; 1; 1]%nat d k z Hd')
    as Houter.
  cbn [np.getitem_shape] in Houter.
  rewrite !bind_Ok, !slice_len_full in Houter.
  cbn [np.size_of foldr] in Houter. rewrite !Nat.mul_1_r in Houter.
  rewrite Houter by (done || lia). clear Houter.
  change (np.slice_start n None) with 0%nat.
  set (c := np.chunk _ _ d).
  assert (length c = np.size_of [m]) as Hc.
  { cbn [np.size_of foldr]. rewrite Nat.mul_1_r.
    apply (chunk_length _ _ n); [|lia]. lia. }
  pose proof (getitem_flat_slice_lookup None None [np.NewAxis; np.NewAxis]
    m [] [1; 1]%nat c z 0 Hc eq_refl) as Hinner.
  rewrite slice_len_full in Hinner. cbn [np.size_of foldr] in Hinner.
  rewrite !Nat.mul_1_r, Nat.add_0_r in Hinner.
  rewrite Hinner by lia. clear Hinner.
  change (np.slice_start m None) with 0%nat.
  cbn [np.getitem_flat np.size_of foldr].
  rewrite lookup_chunk by lia. unfold c.
  rewrite lookup_chunk by (cbn [np.size_of foldr]; lia).
  f_equal. cbn [np.size_of foldr]. lia.
Qed.

End SampleContents.

Section SampleContentsClaims.
Context `{Scalar}.

Lemma sample_of_built_eq (ds : xr.Dataset) (tl : Z) (l : list (Z * Z * Z))
  (t y x : Z) (key : name) (da : xr.DataArray) :
  xr.data_vars ds !! key = Some da ->
  sample_of (built ds tl l) t y x key
  = (window ← np.getitem (xr.values da)
               (this_array_index (built ds tl l) (xr.dims da) t y x);
     sample ← np.getitem window
       [np.Slice None None; np.Slice None None; np.NewAxis; np.NewAxis];
     Ok (np.astype float32 sample)).
Proof.
  intros Hda. unfold sample_of, dict_getitem. cbn [numpy_data dims built].
  by rewrite !lookup_fmap, Hda.
Qed.

Lemma np_getitem_eq (a : np.ndarray) (idx : list np.index_item)
  (s : list nat) :
  np.getitem_shape idx (np.shape a) = Ok s ->
  np.getitem a idx
  = Ok {| np.dtype_of := np.dtype_of a;
          np.shape := s;
          np.flat := np.getitem_flat idx (np.shape a) (np.flat a) |}.
Proof. intros Hs. unfold np.getitem. by rewrite Hs. Qed.

Lemma Ok_inj {A} (a b : A) : Ok a = Ok b -> a = b.
Proof. by intros [= ->]. Qed.

Lemma item_rank4 (a : np.ndarray) (n1 n2 n3 n4 i1 i2 i3 i4 : nat) :
  np.shape a = [n1; n2; n3; n4] ->
  (i1 < n1)%nat -> (i2 < n2)%nat -> (i3 < n3)%nat -> (i4 < n4)%nat ->
  item a [i1; i2; i3; i4]
  = np.flat a !! (((i1 * n2 + i2) * n3 + i3) * n4 + i4)%nat.
Proof.
  intros Hsh H1 H2 H3 H4. unfold item. rewrite Hsh. cbn [offset].
  rewrite !(proj2 (Nat.ltb_lt _ _)) by lia. reflexivity.
Qed.

Lemma item_rank3 (a : np.ndarray) (n1 n2 n3 i1 i2 i3 : nat) :
  np.shape a = [n1; n2; n3] ->
  (i1 < n1)%nat -> (i2 < n2)%nat -> (i3 < n3)%nat ->
  item a [i1; i2; i3] = np.flat a !! ((i1 * n2 + i2) * n3 + i3)%nat.
Proof.
  intros Hsh H1 H2 H3. unfold item. rewrite Hsh. cbn [offset].
  rewrite !(proj2 (Nat.ltb_lt _ _)) by lia. reflexivity.
Qed.

(** The sample found at position [n] is the one cut at the triple stored
    there. *)
Lemma getitem_at (ds : xr.Dataset) (tl : Z) (l : list (Z * Z * Z))
  (n : nat) (t y x : Z) (out : gmap name np.ndarray) (key : name)
  (a : np.ndarray) :
  l !! n = Some (t, y, x) ->
  __getitem__ (built ds tl l) (Z.of_nat n) = Ok out ->
  out !! key = Some a ->
  key ∈ dom (xr.data_vars ds) /\
  sample_of (built ds tl l) t y x key = Ok a.
Proof.
  intros Hn Hget Ha.
  destruct (getitem_ok_inv _ _ _ _ _ Hget) as (t' & y' & x' & Hl & Hout).
  apply list_getitem_ok in Hl as [_ Hl].
  destruct (Z.ltb_spec (Z.of_nat n) 0); [lia|].
  rewrite Nat2Z.id, Hn in Hl. injection Hl as <- <- <-.
  destruct (Hout key) as [Hin Hnone].
  destruct (decide (key ∈ dom (xr.data_vars ds)
                    /\ key ∉ constants (built ds tl l))) as [[Hk Hnc]|Hnot].
  - destruct (Hin Hk Hnc) as (a' & Hs & Ha'). rewrite Ha in Ha'.
    by injection Ha' as <-.
  - rewrite (Hnone Hnot) in Ha. discriminate.
Qed.

(** Contents of a profile sample: element [(k, z, 0, 0)] of the array
    returned for a variable over [(time, z, y, x)] is the single-precision
    cast of element [(t + k, z, y, x)] of the variable, where [(t, y, x)]
    is the triple of the sample. *)
Theorem profile_sample_contents (ds : xr.Dataset) (window : option Z) (ix : t)
  (T Zn Y X n k z : nat) (t y x : Z) (out : gmap name np.ndarray)
  (key : name) (da : xr.DataArray) (a : np.ndarray) :
  exposes ds T Y X -> xr.sizes ds !! "z" = Some Zn ->
  __init__ ds window = Ok ix ->
  xr.data_vars ds !! key = Some da ->
  xr.dims da = ["time"; "z"; "y"; "x"] -> xr.aligned ds da ->
  np.well_formed (xr.values da) ->
  indices ix !! n = Some (t, y, x) ->
  __getitem__ ix (Z.of_nat n) = Ok out -> out !! key = Some a ->
  (k < Z.to_nat (time_length ix))%nat -> (z < Zn)%nat ->
  item a [k; z; 0; 0]%nat
  = cast float32
      <$> item (xr.values da) [Z.to_nat t + k; z; Z.to_nat y; Z.to_nat x]%nat.
Proof.
  intros Hds HZ Hinit Hda Hdims Halign Hwf Hn Hget Ha Hk Hz.
  pose proof (indices_in_bounds _ _ _ _ _ _ _ _ _ Hds Hinit
                (list_elem_of_lookup_2 _ _ _ Hn))
    as (Htl & Ht & Hfit & Hy & Hx).
  destruct Hds as (HT & HY & HX).
  destruct (init_ok_inv _ _ _ Hinit) as (tl & l & -> & _).
  cbn [time_length indices built] in *.
  destruct (getitem_at _ _ _ _ _ _ _ _ _ _ Hn Hget Ha) as [_ Hs].
  rewrite (sample_of_built_eq _ _ _ _ _ _ _ _ Hda) in Hs.
  unfold this_array_index, xr.aligned, np.well_formed in *.
  rewrite Hdims in *. cbn [time_length built] in Hs.
  rewrite bool_decide_eq_true_2 in Hs by (rewrite !elem_of_cons; auto).
  simpl in Halign. rewrite HT, HZ, HY, HX in Halign.
  injection Halign as Hshape. rewrite <- Hshape in Hwf.
  rewrite (np_getitem_eq _ _ [Z.to_nat tl; Zn]) in Hs
    by (rewrite <- Hshape; apply getitem_shape_profile; done || lia).
  rewrite bind_Ok in Hs.
  rewrite (np_getitem_eq _ _ [Z.to_nat tl; Zn; 1; 1]%nat) in Hs
    by apply getitem_shape_pad.
  rewrite bind_Ok in Hs. apply Ok_inj in Hs. symmetry in Hshape.
  set (w := np.getitem_flat _ (np.shape (xr.values da)) _) in Hs.
  assert (np.shape a = [Z.to_nat tl; Zn; 1; 1]%nat) as Hsa by by rewrite <- Hs.
  assert (np.flat a
          = cast float32
              <$> np.getitem_flat
                    [np.Slice None None; np.Slice None None;
                     np.NewAxis; np.NewAxis] [Z.to_nat tl; Zn] w) as Hfa
    by by rewrite <- Hs.
  rewrite (item_rank4 a _ _ _ _ _ _ _ _ Hsa) by lia.
  rewrite (item_rank4 (xr.values da) _ _ _ _ _ _ _ _ Hshape) by lia.
  rewrite Hfa, list_lookup_fmap. f_equal.
  replace (((k * Zn + z) * 1 + 0) * 1 + 0)%nat with (k * Zn + z)%nat by lia.
  unfold w. rewrite Hshape.
  match goal with |- np.getitem_flat _ _ ?d !! _ = _ =>
    assert (length d = (Z.to_nat tl * Zn)%nat) as Hlen end.
  { rewrite (getitem_flat_length _ [T; Zn; Y; X] [Z.to_nat tl; Zn]);
      [cbn [np.size_of foldr]; lia|done|].
    apply getitem_shape_profile; done || lia. }
  rewrite pad_lookup by (done || lia).
  by rewrite profile_window_lookup by (done || lia).
Qed.

(** Contents of a surface sample: element [(k, 0, 0, 0)] of the array
    returned for a variable over [(time, y, x)] is the single-precision
    cast of element [(t + k, y, x)] of the variable. *)
Theorem surface_sample_contents (ds : xr.Dataset) (window : option Z) (ix : t)
  (T Y X n k : nat) (t y x : Z) (out : gmap name np.ndarray)
  (key : name) (da : xr.DataArray) (a : np.ndarray) :
  exposes ds T Y X ->
  __init__ ds window = Ok ix ->
  xr.data_vars ds !! key = Some da ->
  xr.dims da = ["time"; "y"; "x"] -> xr.aligned ds da ->
  np.well_formed (xr.values da) ->
  indices ix !! n = Some (t, y, x) ->
  __getitem__ ix (Z.of_nat n) = Ok out -> out !! key = Some a ->
  (k < Z.to_nat (time_length ix))%nat ->
  item a [k; 0; 0; 0]%nat
  = cast float32
      <$> item (xr.values da) [Z.to_nat t + k; Z.to_nat y; Z.to_nat x]%nat.
Proof.
  intros Hds Hinit Hda Hdims Halign Hwf Hn Hget Ha Hk.
  pose proof (indices_in_bounds _ _ _ _ _ _ _ _ _ Hds Hinit
                (list_elem_of_lookup_2 _ _ _ Hn))
    as (Htl & Ht & Hfit & Hy & Hx).
  destruct Hds as (HT & HY & HX).
  destruct (init_ok_inv _ _ _ Hinit) as (tl & l & -> & _).
  cbn [time_length indices built] in *.
  destruct (getitem_at _ _ _ _ _ _ _ _ _ _ Hn Hget Ha) as [_ Hs].
  rewrite (sample_of_built_eq _ _ _ _ _ _ _ _ Hda) in Hs.
  unfold this_array_index, xr.aligned, np.well_formed in *.
  rewrite Hdims in *. cbn [time_length built] in Hs.
  rewrite bool_decide_eq_false_2 in Hs
    by (rewrite !elem_of_cons, elem_of_nil; intros [|[|[|]]]; done).
  simpl in Halign. rewrite HT, HY, HX in Halign.
  injection Halign as Hshape. rewrite <- Hshape in Hwf.
  rewrite (np_getitem_eq _ _ [Z.to_nat tl; 1%nat]) in Hs
    by (rewrite <- Hshape; apply getitem_shape_surface; done || lia).
  rewrite bind_Ok in Hs.
  rewrite (np_getitem_eq _ _ [Z.to_nat tl; 1; 1; 1]%nat) in Hs
    by apply getitem_shape_pad.
  rewrite bind_Ok in Hs. apply Ok_inj in Hs. symmetry in Hshape.
  set (w := np.getitem_flat _ (np.shape (xr.values da)) _) in Hs.
  assert (np.shape a = [Z.to_nat tl; 1; 1; 1]%nat) as Hsa by by rewrite <- Hs.
  assert (np.flat a
          = cast float32
              <$> np.getitem_flat
                    [np.Slice None None; np.Slice None None;
                     np.NewAxis; np.NewAxis] [Z.to_nat tl; 1%nat] w) as Hfa
    by by rewrite <- Hs.
  rewrite (item_rank4 a _ _ _ _ _ _ _ _ Hsa) by lia.
  rewrite (item_rank3 (xr.values da) _ _ _ _ _ _ Hshape) by lia.
  rewrite Hfa, list_lookup_fmap. f_equal.
  replace (((k * 1 + 0) * 1 + 0) * 1 + 0)%nat with (k * 1 + 0)%nat by lia.
  unfold w. rewrite Hshape.
  match goal with |- np.getitem_flat _ _ ?d !! _ = _ =>
    assert (length d = (Z.to_nat tl * 1)%nat) as Hlen end.
  { rewrite (getitem_flat_length _ [T; Y; X] [Z.to_nat tl; 1%nat]);
      [cbn [np.size_of foldr]; lia|done|].
    apply getitem_shape_surface; done || lia. }
  rewrite pad_lookup by (done || lia).
  replace (k * 1 + 0)%nat with k by lia.
  by rewrite surface_window_lookup by (done || lia).
Qed.

End SampleContentsClaims.

(** ** The two outputs together *)

Section Outputs.
Context `{Scalar}.

(** Once the name [torch] is bound (as by [import torch]),
    [torch_constants] returns exactly the constants, each as the
    single-precision cast of its whole array, in a tensor of the array's
    shape that does not track gradients. *)
Theorem torch_constants_returns (globals : list string) (ds : xr.Dataset)
  (window : option Z) (ix : t) :
  "torch" ∈ globals -> __init__ ds window = Ok ix ->
  exists m,
    torch_constants globals ix = Ok m /\
    dom m = constants ix /\
    forall key da,
      key ∈ constants ix -> xr.data_vars ds !! key = Some da ->
      exists tns,
        m !! key = Some tns /\
        torch.dtype_of tns = float32 /\
        torch.shape tns = np.shape (xr.values da) /\
        torch.flat tns = cast float32 <$> np.flat (xr.values da) /\
        torch.requires_grad tns = false.
Proof.
  intros Hbound Hinit.
  destruct (torch_constants_bound globals ds window ix Hbound Hinit)
    as (m & Hm & Hdom & Hvals).
  exists m. split; [done|]. split; [done|]. intros key da Hkey Hda.
  destruct (Hvals key da Hkey Hda) as (Hlook & Hrest). eauto.
Qed.

(** With the name [torch] bound, the variables split between the two
    outputs: a sample holds the variables that are not constant,
    [torch_constants] the constants, and no variable is in both or in
    neither. *)
Theorem outputs_partition_variables (globals : list string)
  (ds : xr.Dataset) (window : option Z) (ix : t) (i : Z)
  (out : gmap name np.ndarray) (m : gmap name torch.Tensor) :
  "torch" ∈ globals -> __init__ ds window = Ok ix ->
  __getitem__ ix i = Ok out -> torch_constants globals ix = Ok m ->
  dom out ∪ dom m = dom (xr.data_vars ds) /\ dom out ## dom m.
Proof.
  intros Hbound Hinit Hget Hm.
  destruct (torch_constants_bound globals ds window ix Hbound Hinit)
    as (m' & Hm' & Hdom & _).
  rewrite Hm in Hm'. injection Hm' as <-.
  destruct (init_ok_inv _ _ _ Hinit) as (tl & l & -> & _).
  destruct (getitem_ok_inv _ _ _ _ _ Hget) as (t & y & x & _ & Hout).
  assert (forall key, key ∈ dom out <->
            key ∈ dom (xr.data_vars ds) /\ key ∉ constants (built ds tl l))
    as Hdo.
  { intros key. destruct (Hout key) as [Hin Hnone]. split.
    - intros [a Ha]%elem_of_dom.
      destruct (decide (key ∈ dom (xr.data_vars ds)
                        /\ key ∉ constants (built ds tl l))) as [|Hnot];
        [done|]. rewrite (Hnone Hnot) in Ha. discriminate.
    - intros [Hk Hnc]. destruct (Hin Hk Hnc) as (a & _ & Ha).
      apply elem_of_dom. eauto. }
  assert (forall key, key ∈ constants (built ds tl l) ->
            key ∈ dom (xr.data_vars ds)) as Hsub.
  { intros key (da & Hda & _)%constants_built. apply elem_of_dom. eauto. }
  split.
  - apply set_eq. intros key. rewrite elem_of_union, Hdo, Hdom. split.
    + intros [[Hk _]|Hc]; [done|by apply Hsub].
    + intros Hk.
      destruct (decide (key ∈ constants (built ds tl l))); [by right|by left].
  - intros key Ho Hc. rewrite Hdom in Hc. apply Hdo in Ho as [_ Hnc]. done.
Qed.

End Outputs.

Lemma toy_empty_lacks (d : string) : lacks toy_empty d.
Proof. split; apply lookup_empty. Qed.

Lemma init_missing_dimension_empty :
  lacks toy_empty "time" /\ lacks toy_empty "x" /\ 4 <> 0 /\
  __init__ toy_empty None = Raise AttributeError /\
  __init__ toy_empty (Some 4) = Raise KeyError.
Proof.
  destruct (init_missing_dimension toy_empty) as (Hdefault & Hx & _).
  split; [apply toy_empty_lacks|]. split; [apply toy_empty_lacks|].
  split; [discriminate|]. split.
  - apply Hdefault, toy_empty_lacks.
  - apply Hx; [discriminate|apply toy_empty_lacks].
Defined.

Lemma getitem_raises_only_toy :
  exists e, __getitem__ (toy_indexer toy) 10 = Raise e /\ e = IndexError.
Proof.
  destruct (__getitem__ (toy_indexer toy) 10) as [out|e] eqn:Hget.
  { exfalso. unfold __getitem__ in Hget.
    rewrite list_getitem_out_of_range in Hget by (right; by vm_compute).
    discriminate Hget. }
  exists e. split; [reflexivity|].
  exact (getitem_raises_only toy (Some 4) (toy_indexer toy) 10 e toy_init Hget).
Defined.

Lemma getitem_succeeds_iff_toy :
  is_ok (__getitem__ (toy_indexer toy) (-3)) /\
  ~ is_ok (__getitem__ (toy_indexer toy) 10).
Proof.
  pose proof (getitem_succeeds_iff toy (Some 4) (toy_indexer toy) 4 5 2 (-3)
                toy_exposed toy_conforming toy_init) as [_ Hin].
  pose proof (getitem_succeeds_iff toy (Some 4) (toy_indexer toy) 4 5 2 10
                toy_exposed toy_conforming toy_init) as [Hout _].
  split.
  - apply Hin. by vm_compute.
  - intros Hok. apply Hout in Hok as [_ Hlt]. by vm_compute in Hlt.
Defined.

Section NegativeIndices.
Context `{Scalar}.

(** A negative sample index counts from the end, as for any Python list:
    for [-len <= i < 0], retrieval at [i] is retrieval at [i + len],
    whatever the state of the indexer. *)
Theorem negative_index_counts_from_end (self : t) (i : Z) :
  - __len__ self <= i < 0 ->
  __getitem__ self i = __getitem__ self (i + __len__ self).
Proof.
  unfold __getitem__, __len__. intros Hi.
  by rewrite (list_getitem_wrap (indices self) i Hi).
Qed.

End NegativeIndices.

Lemma negative_index_counts_from_end_toy :
  __getitem__ (toy_indexer toy) (-3)
  = __getitem__ (toy_indexer toy) (-3 + __len__ (toy_indexer toy)).
Proof.
  apply (negative_index_counts_from_end (toy_indexer toy) (-3)).
  by vm_compute.
Defined.

Lemma toy_with_series_init :
  __init__ toy_with_series (Some 4) = Ok (toy_indexer toy_with_series).
Proof.
  apply (init_positive _ 4 4 5 2); [repeat split; reflexivity|lia|reflexivity].
Qed.

Lemma too_few_axes_fails_toy :
  __getitem__ (toy_indexer toy_with_series) 0 = Raise IndexError.
Proof.
  apply (too_few_axes_fails toy_with_series (Some 4)
           (toy_indexer toy_with_series) (NStr "p")
           {| xr.dims := ["time"]; xr.values := @np.full Z_scalar [4]%nat 1 |}
           0 toy_with_series_init).
  - reflexivity.
  - by_decide.
  - rewrite bool_decide_eq_false_2; [simpl; lia|].
    by intros ?%list_elem_of_singleton.
Defined.

Lemma toy_arrays_well_formed (k : name) (da : @xr.DataArray Z_scalar) :
  xr.data_vars toy !! k = Some da -> np.well_formed (xr.values da).
Proof.
  unfold toy, get_xarray_dataset. cbn [xr.data_vars]. intros Hda.
  apply lookup_insert_Some in Hda as [[_ <-]|[_ Hda]];
    [apply full_well_formed|].
  apply lookup_singleton_Some in Hda as [_ <-]. apply full_well_formed.
Qed.

(** The samples of the toy indexer hold ['a'] and ['b']. *)
Lemma toy_sample (i : Z) :
  0 <= i < 10 ->
  exists out a b,
    __getitem__ (toy_indexer toy) i = Ok out /\
    out !! NStr "a" = Some a /\ out !! NStr "b" = Some b.
Proof.
  intros Hi.
  pose proof (getitem_conforming_ok toy (Some 4) (toy_indexer toy) 4 5 2 i
                toy_exposed toy_conforming toy_init Hi) as Hok.
  destruct (__getitem__ (toy_indexer toy) i) as [out|e] eqn:Hget; [|done].
  destruct (sample_shape_conforming toy (Some 4) (toy_indexer toy) 4 5 2 i out
              (NStr "a")
              {| xr.dims := dims_3d; xr.values := @data_3d Z_scalar 1 |}
              toy_exposed toy_conforming toy_init Hget eq_refl)
    as (a & Ha & _); [by_decide|].
  destruct (sample_shape_conforming toy (Some 4) (toy_indexer toy) 4 5 2 i out
              (NStr "b")
              {| xr.dims := dims_2d; xr.values := @data_2d Z_scalar 1 |}
              toy_exposed toy_conforming toy_init Hget eq_refl)
    as (b & Hb & _); [by_decide|].
  exists out, a, b. done.
Qed.

Lemma samples_well_formed_toy :
  exists out a,
    __getitem__ (toy_indexer toy) 3 = Ok out /\
    out !! NStr "a" = Some a /\
    np.dtype_of a = float32 /\ np.well_formed a.
Proof.
  destruct (toy_sample 3 ltac:(lia)) as (out & a & _ & Hget & Ha & _).
  exists out, a. split; [exact Hget|]. split; [exact Ha|].
  exact (samples_well_formed toy (Some 4) (toy_indexer toy) 3 out (NStr "a")
           a toy_init toy_arrays_well_formed Hget Ha).
Defined.

Lemma profile_sample_contents_toy :
  exists out a,
    __getitem__ (toy_indexer toy) 3 = Ok out /\
    out !! NStr "a" = Some a /\
    item a [2; 1; 0; 0]%nat
    = cast float32 <$> item (@data_3d Z_scalar 1) [2; 1; 1; 1]%nat.
Proof.
  destruct (toy_sample 3 ltac:(lia)) as (out & a & _ & Hget & Ha & _).
  exists out, a. split; [exact Hget|]. split; [exact Ha|].
  apply (profile_sample_contents toy (Some 4) (toy_indexer toy)
           4 4 5 2 3 2 1 0 1 1 out (NStr "a")
           {| xr.dims := dims_3d; xr.values := @data_3d Z_scalar 1 |} a
           toy_exposed eq_refl toy_init eq_refl eq_refl eq_refl
           (full_well_formed _ _) eq_refl Hget Ha);
    [change (2 < 4)%nat|]; lia.
Defined.

Lemma surface_sample_contents_toy :
  exists out a,
    __getitem__ (toy_indexer toy) 3 = Ok out /\
    out !! NStr "b" = Some a /\
    item a [2; 0; 0; 0]%nat
    = cast float32 <$> item (@data_2d Z_scalar 1) [2; 1; 1]%nat.
Proof.
  destruct (toy_sample 3 ltac:(lia)) as (out & _ & a & Hget & _ & Ha).
  exists out, a. split; [exact Hget|]. split; [exact Ha|].
  apply (surface_sample_contents toy (Some 4) (toy_indexer toy)
           4 5 2 3 2 0 1 1 out (NStr "b")
           {| xr.dims := dims_2d; xr.values := @data_2d Z_scalar 1 |} a
           toy_exposed toy_init eq_refl eq_refl eq_refl
           (full_well_formed _ _) eq_refl Hget Ha).
  change (2 < 4)%nat. lia.
Defined.

Lemma torch_constants_returns_toy :
  exists m,
    torch_constants ("torch" :: notebook_globals)
      (toy_indexer toy_with_constant) = Ok m /\
    dom m = constants (toy_indexer toy_with_constant).
Proof.
  destruct (torch_constants_returns ("torch" :: notebook_globals)
              toy_with_constant (Some 4) (toy_indexer toy_with_constant))
    as (m & Hm & Hdom & _); [by left|exact toy_with_constant_init|].
  exists m. split; [exact Hm|exact Hdom].
Defined.

Lemma outputs_partition_variables_toy :
  exists out m,
    __getitem__ (toy_indexer toy_with_constant) 0 = Ok out /\
    torch_constants ("torch" :: notebook_globals)
      (toy_indexer toy_with_constant) = Ok m /\
    dom out ∪ dom m = dom (xr.data_vars toy_with_constant) /\
    dom out ## dom m.
Proof.
  pose proof (getitem_conforming_ok toy_with_constant (Some 4)
                (toy_indexer toy_with_constant) 4 5 2 0
                toy_with_constant_exposed toy_with_constant_conforming
                toy_with_constant_init ltac:(by vm_compute)) as Hok.
  destruct (__getitem__ (toy_indexer toy_with_constant) 0) as [out|e] eqn:Hget;
    [|done].
  destruct (torch_constants_bound ("torch" :: notebook_globals)
              toy_with_constant (Some 4) (toy_indexer toy_with_constant))
    as (m & Hm & _); [by left|exact toy_with_constant_init|].
  exists out, m. split; [reflexivity|]. split; [exact Hm|].
  apply (outputs_partition_variables ("torch" :: notebook_globals)
           toy_with_constant (Some 4) (toy_indexer toy_with_constant) 0 out m);
    [by left|exact toy_with_constant_init|exact Hget|exact Hm].
Defined.

(** ** Batching *)

Section BatchSampler.

Lemma batch_sampler_partial (bs : nat) (l acc : list Z) :
  (length acc + length l < bs)%nat ->
  DataLoader.batch_sampler bs l acc
  = if bool_decide (0 < length (acc ++ l))%nat then [acc ++ l] else [].
Proof.
  revert acc. induction l as [|idx l IH]; intros acc Hlt.
  - simpl. by rewrite app_nil_r.
  - simpl in *. rewrite bool_decide_eq_false_2
      by (rewrite length_app; simpl; lia).
    rewrite IH by (rewrite length_app; simpl; lia).
    by rewrite <- app_assoc.
Qed.

Lemma batch_sampler_full (bs : nat) (l acc : list Z) :
  (length acc < bs)%nat -> (bs <= length acc + length l)%nat ->
  DataLoader.batch_sampler bs l acc
  = (acc ++ take (bs - length acc) l)
    :: DataLoader.batch_sampler bs (drop (bs - length acc) l) [].
Proof.
  revert acc. induction l as [|idx l IH]; intros acc Hlt Hle;
    [simpl in Hle; lia|].
  simpl in Hle. cbn [DataLoader.batch_sampler]. cbv zeta.
  assert (length (acc ++ [idx]) = S (length acc)) as Hlen
    by (rewrite length_app; simpl; lia).
  destruct (decide (S (length acc) = bs)) as [Heq|Hne].
  - rewrite bool_decide_eq_true_2 by lia.
    replace (bs - length acc)%nat with 1%nat by lia. reflexivity.
  - rewrite bool_decide_eq_false_2 by lia.
    rewrite IH by lia. rewrite Hlen.
    replace (bs - length acc)%nat with (S (bs - S (length acc))) by lia.
    simpl. by rewrite <- app_assoc.
Qed.

(** The [j]-th batch holds the next [batch_size] indices after the first
    [j * batch_size], or those that are left. *)
Lemma batch_sampler_lookup (bs : nat) (l : list Z) (j : nat) :
  (0 < bs)%nat -> (j * bs < length l)%nat ->
  DataLoader.batch_sampler bs l [] !! j = Some (take bs (drop (j * bs) l)).
Proof.
  intros Hbs. revert l. induction j as [|j IH]; intros l Hj.
  - simpl in Hj. change (0 * bs)%nat with 0%nat. rewrite drop_0.
    destruct (decide (length l < bs)%nat) as [Hlt|Hge].
    + rewrite batch_sampler_partial by (simpl; lia). simpl.
      rewrite bool_decide_eq_true_2 by done. simpl.
      by rewrite take_ge by lia.
    + rewrite batch_sampler_full by (simpl; lia). simpl.
      by rewrite Nat.sub_0_r.
  - rewrite batch_sampler_full by (simpl; lia). simpl length.
    rewrite Nat.sub_0_r. simpl lookup.
    rewrite IH by (rewrite length_drop; simpl in Hj; lia).
    by rewrite drop_drop.
Qed.

(** There are [ceil(len / batch_size)] batches. *)
Lemma batch_sampler_length (bs : nat) (l : list Z) :
  (0 < bs)%nat ->
  length (DataLoader.batch_sampler bs l []) = ((length l + bs - 1) / bs)%nat.
Proof.
  intros Hbs. remember (length l) as n eqn:Hn.
  revert l Hn. induction n as [n IH] using lt_wf_ind. intros l Hn.
  destruct (decide (n < bs)%nat) as [Hlt|Hge].
  - rewrite batch_sampler_partial by (simpl; lia). simpl.
    destruct n as [|n].
    + rewrite bool_decide_eq_false_2 by lia. simpl.
      symmetry. apply Nat.div_small. lia.
    + rewrite bool_decide_eq_true_2 by lia. simpl.
      apply (Nat.div_unique _ _ 1 n); lia.
  - rewrite batch_sampler_full by (simpl; lia). simpl length.
    rewrite Nat.sub_0_r.
    rewrite (IH (n - bs)%nat) by (rewrite ?length_drop; lia).
    replace (n + bs - 1)%nat with (1 * bs + (n - bs + bs - 1))%nat by lia.
    rewrite Nat.div_add_l by lia. lia.
Qed.

End BatchSampler.

Section Traversals.

Lemma mapM_result_ok {A B} (f : A -> result B) (l : list A) :
  (forall x, x ∈ l -> is_ok (f x)) ->
  exists ys, mapM f l = Ok ys /\ Forall2 (fun x y => f x = Ok y) l ys.
Proof.
  induction l as [|x l IH]; intros Hok.
  - exists []. split; [reflexivity|constructor].
  - destruct IH as (ys & Hys & Hall); [intros y Hy; apply Hok; by right|].
    pose proof (Hok x ltac:(by left)) as Hx.
    destruct (f x) as [y|e] eqn:Hfx; [|done].
    exists (y :: ys). split; [|by constructor].
    cbn. rewrite Hfx. cbn. rewrite Hys. reflexivity.
Qed.

Lemma mapM_outcome_done {A B} (f : A -> DataLoader.outcome B) (l : list A) :
  (forall x, x ∈ l -> exists y, f x = DataLoader.Done y) ->
  exists ys,
    mapM f l = DataLoader.Done ys /\
    Forall2 (fun x y => f x = DataLoader.Done y) l ys.
Proof.
  induction l as [|x l IH]; intros Hok.
  - exists []. split; [reflexivity|constructor].
  - destruct IH as (ys & Hys & Hall); [intros y Hy; apply Hok; by right|].
    destruct (Hok x ltac:(by left)) as [y Hfx].
    exists (y :: ys). split; [|by constructor].
    cbn. rewrite Hfx. cbn. rewrite Hys. reflexivity.
Qed.

End Traversals.

Section LoaderFacts.
Context `{Scalar}.

Lemma stack_uniform (ts : list torch.Tensor) (sh : list nat) (dt : dtype) :
  ts <> [] ->
  Forall (fun t => torch.shape t = sh /\ torch.dtype_of t = dt) ts ->
  exists r,
    DataLoader.stack ts = DataLoader.Done r /\
    torch.shape r = length ts :: sh /\ torch.dtype_of r = dt.
Proof.
  intros Hne Hall. destruct ts as [|t0 ts]; [done|].
  unfold DataLoader.stack.
  pose proof (Forall_inv Hall) as [Hsh0 Hdt0].
  assert (forallb
            (fun t => bool_decide (torch.shape t = torch.shape t0
                                   /\ torch.dtype_of t = torch.dtype_of t0))
            (t0 :: ts) = true) as ->.
  { apply forallb_forall. intros t Ht%list_elem_of_In.
    apply bool_decide_eq_true_2.
    rewrite Forall_forall in Hall. destruct (Hall t Ht) as [-> ->]. done. }
  eexists. split; [reflexivity|]. cbn [torch.shape torch.dtype_of].
  by rewrite Hsh0, Hdt0.
Qed.

Lemma collate_key_uniform (samples : list (gmap name np.ndarray))
  (key : name) (sh : list nat) :
  samples <> [] ->
  Forall (fun d => exists a, d !! key = Some a /\
                     np.shape a = sh /\ np.dtype_of a = float32) samples ->
  exists r,
    DataLoader.collate_key samples key = DataLoader.Done r /\
    torch.shape r = length samples :: sh /\ torch.dtype_of r = float32.
Proof.
  intros Hne Hall. rewrite Forall_forall in Hall.
  destruct (mapM_result_ok (fun d => dict_getitem d key) samples)
    as (column & Hcol & Hrel).
  { intros d Hd. destruct (Hall d Hd) as (a & Ha & _).
    unfold dict_getitem. by rewrite Ha. }
  unfold DataLoader.collate_key. rewrite Hcol. cbn.
  pose proof (Forall2_length _ _ _ Hrel) as Hlen.
  destruct (stack_uniform ((fun a => torch.tensor a false) <$> column)
              sh float32) as (r & Hr & Hsh & Hdt).
  - destruct column; [|done]. destruct samples; [done|discriminate Hlen].
  - apply Forall_fmap, Forall_forall. intros a Ha.
    apply list_elem_of_lookup in Ha as [i Hi].
    destruct (Forall2_lookup_r _ _ _ _ _ Hrel Hi) as (d & Hd & Hda).
    destruct (Hall d (list_elem_of_lookup_2 _ _ _ Hd)) as (a' & Ha' & Hs & Ht).
    unfold dict_getitem in Hda. rewrite Ha' in Hda. injection Hda as <-.
    done.
  - exists r. split; [done|]. rewrite length_fmap in Hsh.
    by rewrite Hlen.
Qed.

Lemma collated_entries (g : name -> DataLoader.outcome torch.Tensor)
  (keys : list name) (entries : list (name * torch.Tensor)) :
  Forall2 (fun key e => (v ← g key; mret (key, v)) = DataLoader.Done e)
    keys entries ->
  entries.*1 = keys /\
  Forall2 (fun key e => e.1 = key /\ g key = DataLoader.Done e.2)
    keys entries.
Proof.
  induction 1 as [|key e keys entries He _ [IH1 IH2]];
    [split; [done|constructor]|].
  destruct (g key) as [v|f] eqn:Hg; [|discriminate He].
  cbn in He. injection He as <-. split; [by rewrite fmap_cons, IH1|].
  constructor; [done|done].
Qed.

(** Collating samples that hold the same variables, each with one shape
    across the samples, gives for every variable a tensor with the batch
    axis in front. *)
Lemma default_collate_uniform (samples : list (gmap name np.ndarray))
  (K : name -> Prop) (S : name -> list nat) :
  samples <> [] ->
  (forall d key, d ∈ samples -> is_Some (d !! key) -> K key) ->
  (forall d key, d ∈ samples -> K key ->
     exists a, d !! key = Some a /\
               np.shape a = S key /\ np.dtype_of a = float32) ->
  exists r,
    DataLoader.default_collate samples = DataLoader.Done r /\
    forall key, K key ->
      exists tns, r !! key = Some tns /\
        torch.shape tns = length samples :: S key /\
        torch.dtype_of tns = float32.
Proof.
  intros Hne Hdom Hval. destruct samples as [|elem rest] eqn:Hs; [done|].
  rewrite <- Hs in *.
  assert (forall key, K key ->
    exists tns, DataLoader.collate_key samples key = DataLoader.Done tns /\
      torch.shape tns = length samples :: S key /\
      torch.dtype_of tns = float32) as Hcol.
  { intros key Hkey. apply collate_key_uniform; [by rewrite Hs|].
    apply Forall_forall. intros d Hd. by apply Hval. }
  destruct (mapM_outcome_done
    (fun key => v ← DataLoader.collate_key samples key; mret (key, v))
    (elements (dom elem))) as (entries & Hentries & Hrel).
  { intros key Hkey%elem_of_elements%elem_of_dom.
    destruct (Hcol key) as (tns & Htns & _).
    - apply (Hdom elem); [rewrite Hs; by left|done].
    - rewrite Htns. cbn. eauto. }
  apply collated_entries in Hrel as [Hfst Hrel].
  exists (list_to_map entries). split.
  { rewrite Hs. unfold DataLoader.default_collate. rewrite <- Hs.
    rewrite Hentries. reflexivity. }
  intros key Hkey. destruct (Hcol key Hkey) as (tns & Htns & Hsh & Hdt).
  exists tns. split; [|done].
  destruct (Hval elem key) as (a & Ha & _); [rewrite Hs; by left|done|].
  assert (key ∈ elements (dom elem)) as Hin
    by (apply elem_of_elements, elem_of_dom; eauto).
  apply list_elem_of_lookup in Hin as [i Hi].
  destruct (Forall2_lookup_l _ _ _ _ _ Hrel Hi) as ([k v] & He & Hk & Hv).
  cbn in Hk, Hv. subst k. rewrite Htns in Hv. injection Hv as <-.
  apply elem_of_list_to_map_1; [|by apply list_elem_of_lookup_2 in He].
  rewrite Hfst. apply NoDup_elements.
Qed.

(** The keys of a sample are the variables that are not constants. *)
Lemma getitem_dom (ds : xr.Dataset) (window : option Z) (ix : t) (i : Z)
  (out : gmap name np.ndarray) (key : name) :
  __init__ ds window = Ok ix -> __getitem__ ix i = Ok out ->
  is_Some (out !! key) <->
  key ∈ dom (xr.data_vars ds) /\ key ∉ constants ix.
Proof.
  intros Hinit Hget.
  destruct (init_ok_inv _ _ _ Hinit) as (tl & l & -> & _).
  destruct (getitem_ok_inv _ _ _ _ _ Hget) as (t & y & x & _ & Hout).
  destruct (Hout key) as [Hin Hnone]. split.
  - intros [a Ha].
    destruct (decide (key ∈ dom (xr.data_vars ds)
                      /\ key ∉ constants (built ds tl l))) as [|Hnot];
      [done|]. rewrite (Hnone Hnot) in Ha. discriminate.
  - intros [Hk Hnc]. destruct (Hin Hk Hnc) as (a & _ & Ha). eauto.
Qed.

End LoaderFacts.

Section LoaderClaims.
Context `{Scalar}.

(** One batch of in-range indices over a dataset laid out as the class
    documents: its samples are fetched and collated, and every variable
    that is not a constant comes out with the batch axis in front of the
    four axes of a sample. *)
Lemma batch_collates (ds : xr.Dataset) (window : option Z) (ix : t)
  (T Y X : nat) (b : list Z) :
  exposes ds T Y X -> conforming ds -> __init__ ds window = Ok ix ->
  b <> [] -> (forall i, i ∈ b -> 0 <= i < __len__ ix) ->
  exists r,
    (samples ← DataLoader.lift (mapM (__getitem__ ix) b);
     DataLoader.default_collate samples) = DataLoader.Done r /\
    forall key da,
      xr.data_vars ds !! key = Some da -> key ∉ constants ix ->
      exists tns,
        r !! key = Some tns /\ torch.dtype_of tns = float32 /\
        torch.shape tns
        = [length b; Z.to_nat (time_length ix); z_axis ds da; 1; 1]%nat.
Proof.
  intros Hds Hconf Hinit Hne Hrange.
  destruct (mapM_result_ok (__getitem__ ix) b) as (samples & Hfetch & Hrel).
  { intros i Hi. apply (getitem_conforming_ok ds window ix T Y X); auto. }
  rewrite Hfetch. cbn.
  pose proof (Forall2_length _ _ _ Hrel) as Hlen.
  assert (forall d, d ∈ samples -> exists i, __getitem__ ix i = Ok d)
    as Hfrom.
  { intros d [k Hk]%list_elem_of_lookup.
    destruct (Forall2_lookup_r _ _ _ _ _ Hrel Hk) as (i & _ & Hi). eauto. }
  destruct (default_collate_uniform samples
    (fun key => key ∈ dom (xr.data_vars ds) /\ key ∉ constants ix)
    (fun key => match xr.data_vars ds !! key with
                | Some da => [Z.to_nat (time_length ix); z_axis ds da; 1; 1]%nat
                | None => []
                end)) as (r & Hr & Hkeys).
  - destruct samples; [|done]. destruct b; [done|discriminate Hlen].
  - intros d key Hd Hsome. destruct (Hfrom d Hd) as [i Hi].
    by apply (getitem_dom ds window ix i d key Hinit Hi).
  - intros d key Hd [Hk Hnc]. destruct (Hfrom d Hd) as [i Hi].
    apply elem_of_dom in Hk as [da Hda]. rewrite Hda.
    destruct (sample_shape_conforming ds window ix T Y X i d key da)
      as (a & Ha & Hdt & Hsh); try done. eauto.
  - exists r. split; [done|]. intros key da Hda Hnc.
    destruct (Hkeys key) as (tns & Htns & Hsh & Hdt).
    { split; [apply elem_of_dom; eauto|done]. }
    exists tns. split; [done|]. split; [done|].
    by rewrite Hsh, Hda, Hlen.
Qed.

(** Iterating a [DataLoader] over the indexer of a dataset laid out as the
    class documents never fails: it yields [ceil(len / batch_size)]
    batches, all full but possibly the last, and in each batch every
    variable that is not a constant is a single-precision tensor of shape
    [(batch, time_length, z or 1, 1, 1)]. *)
Theorem loader_batches (ds : xr.Dataset) (window : option Z) (ix : t)
  (T Y X bs : nat) :
  exposes ds T Y X -> conforming ds -> __init__ ds window = Ok ix ->
  (0 < bs)%nat ->
  exists bl,
    DataLoader.batches ix bs = DataLoader.Done bl /\
    length bl = ((Z.to_nat (__len__ ix) + bs - 1) / bs)%nat /\
    forall j batch,
      bl !! j = Some batch ->
      forall key da,
        xr.data_vars ds !! key = Some da -> key ∉ constants ix ->
        exists tns,
          batch !! key = Some tns /\ torch.dtype_of tns = float32 /\
          torch.shape tns
          = [Nat.min bs (Z.to_nat (__len__ ix) - j * bs);
             Z.to_nat (time_length ix); z_axis ds da; 1; 1]%nat.
Proof.
  intros Hds Hconf Hinit Hbs. unfold DataLoader.batches.
  rewrite bool_decide_eq_false_2 by lia.
  set (n := Z.to_nat (__len__ ix)).
  set (sampler := Z.of_nat <$> seq 0 n).
  set (ibs := DataLoader.batch_sampler bs sampler []).
  assert (length sampler = n) as Hsl
    by (unfold sampler; by rewrite length_fmap, length_seq).
  assert (length ibs = ((n + bs - 1) / bs)%nat) as Hnb
    by (unfold ibs; rewrite batch_sampler_length by done; by rewrite Hsl).
  assert (forall j b, ibs !! j = Some b ->
            b = take bs (drop (j * bs) sampler) /\ (j * bs < n)%nat)
    as Hat.
  { intros j b Hj. pose proof (lookup_lt_Some _ _ _ Hj) as Hlt.
    rewrite Hnb in Hlt.
    pose proof (Nat.Div0.mul_div_le (n + bs - 1) bs) as Hq.
    assert (j * bs < n)%nat as Hjn by nia.
    split; [|done]. unfold ibs in Hj.
    rewrite batch_sampler_lookup in Hj by (done || lia).
    by injection Hj as <-. }
  assert (forall j b, ibs !! j = Some b ->
            length b = Nat.min bs (n - j * bs)) as Hbl.
  { intros j b Hj. destruct (Hat j b Hj) as [-> _].
    by rewrite length_take, length_drop, Hsl. }
  assert (forall j b, ibs !! j = Some b ->
    exists r,
      (samples ← DataLoader.lift (mapM (__getitem__ ix) b);
       DataLoader.default_collate samples) = DataLoader.Done r /\
      forall key da,
        xr.data_vars ds !! key = Some da -> key ∉ constants ix ->
        exists tns,
          r !! key = Some tns /\ torch.dtype_of tns = float32 /\
          torch.shape tns
          = [length b; Z.to_nat (time_length ix); z_axis ds da; 1; 1]%nat)
    as Hcollate.
  { intros j b Hj.
    apply (batch_collates ds window ix T Y X b Hds Hconf Hinit).
    - pose proof (Hbl j b Hj) as Hlen. destruct (Hat j b Hj) as [_ Hjn].
      intros ->. simpl in Hlen. lia.
    - intros i Hi. destruct (Hat j b Hj) as [-> _].
      apply subseteq_take, subseteq_drop in Hi. unfold sampler in Hi.
      apply list_elem_of_fmap in Hi as (k & -> & Hk%elem_of_seq).
      unfold n in Hk. unfold __len__ in *. lia. }
  destruct (mapM_outcome_done
    (fun batch => samples ← DataLoader.lift (mapM (__getitem__ ix) batch);
                  DataLoader.default_collate samples) ibs)
    as (bl & Hbatches & Hrel).
  { intros b [j Hj]%list_elem_of_lookup.
    destruct (Hcollate j b Hj) as (r & Hr & _). eauto. }
  exists bl. split; [done|]. split.
  { by rewrite <- (Forall2_length _ _ _ Hrel). }
  intros j batch Hj key da Hda Hnc.
  destruct (Forall2_lookup_r _ _ _ _ _ Hrel Hj) as (b & Hb & Hr).
  destruct (Hcollate j b Hb) as (r & Hr' & Hvars).
  rewrite Hr in Hr'. injection Hr' as <-.
  destruct (Hvars key da Hda Hnc) as (tns & Htns & Hdt & Hsh).
  exists tns. split; [done|]. split; [done|].
  by rewrite Hsh, (Hbl j b Hb).
Qed.

(** A batch size of 0 is refused, whatever the indexer. *)
Lemma loader_refuses_zero (ix : t) :
  DataLoader.batches ix 0 = DataLoader.Failed (DataLoader.Raised ValueError).
Proof. reflexivity. Qed.

End LoaderClaims.

Lemma loader_batches_toy :
  exists bl b0 b2 bb0 bb2,
    DataLoader.batches (toy_indexer toy) 4 = DataLoader.Done bl /\
    length bl = 3%nat /\
    bl !! 0%nat = Some b0 /\ b0 !! NStr "b" = Some bb0 /\
    torch.shape bb0 = [4; 4; 1; 1; 1]%nat /\
    bl !! 2%nat = Some b2 /\ b2 !! NStr "b" = Some bb2 /\
    torch.shape bb2 = [2; 4; 1; 1; 1]%nat.
Proof.
  destruct (loader_batches toy (Some 4) (toy_indexer toy) 4 5 2 4
              toy_exposed toy_conforming toy_init ltac:(lia))
    as (bl & Hbl & Hlen & Hshape).
  change ((Z.to_nat (__len__ (toy_indexer toy)) + 4 - 1) / 4)%nat
    with 3%nat in Hlen.
  destruct bl as [|b0 [|b1 [|b2 [|b3 bl]]]]; try discriminate Hlen.
  destruct (Hshape 0%nat b0 eq_refl (NStr "b")
              {| xr.dims := dims_2d; xr.values := @data_2d Z_scalar 1 |}
              eq_refl) as (bb0 & Hb0 & _ & Hs0); [by_decide|].
  destruct (Hshape 2%nat b2 eq_refl (NStr "b")
              {| xr.dims := dims_2d; xr.values := @data_2d Z_scalar 1 |}
              eq_refl) as (bb2 & Hb2 & _ & Hs2); [by_decide|].
  exists [b0; b1; b2], b0, b2, bb0, bb2.
  split; [exact Hbl|]. split; [reflexivity|]. split; [reflexivity|].
  split; [exact Hb0|]. split; [exact Hs0|]. split; [reflexivity|].
  split; [exact Hb2|exact Hs2].
Defined.

Section LoaderFailure.
Context `{Scalar}.

(** A variable with too few axes stops the loader at its first batch: the
    [IndexError] of retrieval comes out of the iteration, provided there
    is a sample to fetch. *)
Theorem loader_propagates_failure (ds : xr.Dataset) (window : option Z)
  (ix : t) (key : name) (da : xr.DataArray) (bs : nat) :
  __init__ ds window = Ok ix ->
  xr.data_vars ds !! key = Some da -> key ∉ constants ix ->
  (length (np.shape (xr.values da))
   < if bool_decide ("z" ∈ xr.dims da) then 4 else 3)%nat ->
  0 < __len__ ix -> (0 < bs)%nat ->
  DataLoader.batches ix bs = DataLoader.Failed (DataLoader.Raised IndexError).
Proof.
  intros Hinit Hda Hkey Hrank Hlen Hbs. unfold DataLoader.batches.
  rewrite bool_decide_eq_false_2 by lia.
  assert (__getitem__ ix 0 = Raise IndexError) as Hfail.
  { destruct (init_ok_inv _ _ _ Hinit) as (tl & l & Hix & _). subst ix.
    destruct (__getitem__ (built ds tl l) 0) as [out|e] eqn:Hget.
    - destruct (too_few_axes_no_sample ds tl l key da 0 out
                  Hda Hkey Hrank Hget).
    - f_equal. exact (getitem_built_raises ds tl l 0 e Hget). }
  destruct (Z.to_nat (__len__ ix)) as [|n] eqn:Hn; [lia|].
  set (sampler := Z.of_nat <$> seq 0 (S n)).
  assert (DataLoader.batch_sampler bs sampler [] !! 0%nat
          = Some (take bs sampler)) as Hfirst.
  { rewrite batch_sampler_lookup; [by rewrite drop_0|done|].
    unfold sampler. rewrite length_fmap, length_seq. lia. }
  destruct (DataLoader.batch_sampler bs sampler []) as [|b0 rest] eqn:Hibs;
    [discriminate Hfirst|].
  injection Hfirst as ->.
  destruct bs as [|bs']; [lia|].
  unfold sampler. cbn -[__getitem__].
  change (Z.of_nat 0) with 0. rewrite Hfail. reflexivity.
Qed.

(** [scale] fails in three ways only, tried in this order: without a
    [std] attribute it is an [AttributeError]; with one, but the name
    [valmap] unbound, a [NameError]; with both, a [ValueError], and then
    some array of [std] is empty, its [max] being undefined. *)
Theorem scale_raises_only (globals : list string) (self : t) (e : exn) :
  scale globals self = Raise e ->
  (e = AttributeError /\ std self = None) \/
  (e = NameError /\ std self <> None /\ "valmap" ∉ globals) \/
  (e = ValueError /\ "valmap" ∈ globals /\
   exists s key a,
     std self = Some s /\ s !! key = Some a /\ np.flat a = []).
Proof.
  unfold scale, getattr_std, global.
  destruct (std self) as [s|] eqn:Hstd.
  2:{ intros [= <-]. by left. }
  rewrite bind_Ok.
  destruct (bool_decide ("valmap" ∈ globals)) eqn:Hb; cbv iota.
  - apply bool_decide_eq_true in Hb. rewrite bind_Ok. unfold valmap.
    intros (key & out & Hkey & Hbody)%for_raise_inv.
    apply elem_of_elements, elem_of_dom in Hkey as [a Ha].
    unfold dict_getitem in Hbody. rewrite Ha, bind_Ok in Hbody.
    unfold np.max in Hbody.
    destruct (np.flat a) as [|v vs] eqn:Hflat; [|discriminate Hbody].
    injection Hbody as <-. right. right.
    split; [done|]. split; [done|]. by exists s, key, a.
  - apply bool_decide_eq_false in Hb. intros [= <-]. right. by left.
Qed.

End LoaderFailure.

Lemma loader_propagates_failure_toy :
  DataLoader.batches (toy_indexer toy_with_series) 4
  = DataLoader.Failed (DataLoader.Raised IndexError).
Proof.
  apply (loader_propagates_failure toy_with_series (Some 4)
           (toy_indexer toy_with_series) (NStr "p")
           {| xr.dims := ["time"]; xr.values := @np.full Z_scalar [4]%nat 1 |}
           4 toy_with_series_init).
  - reflexivity.
  - by_decide.
  - rewrite bool_decide_eq_false_2; [simpl; lia|].
    by intros ?%list_elem_of_singleton.
  - by vm_compute.
  - lia.
Defined.

Lemma scale_raises_only_toy :
  std (set_std (toy_indexer toy) ∅) <> None /\ "valmap" ∉ notebook_globals.
Proof.
  destruct (scale_raises_only notebook_globals
              (set_std (toy_indexer toy) ∅) NameError eq_refl)
    as [[He _]|[(_ & Hstd & Hvalmap)|[He _]]];
    [discriminate He|exact (conj Hstd Hvalmap)|discriminate He].
Defined.
